(** * gitty: a shallow embedding of the action-flow controller

    The development follows the layout of the repository:

    - [gostrings]: the functions of Go's [strings] package that the code calls;
    - [git]: [internal/git/git.go], the status scan and the tag commands;
    - [config]: [internal/config], defaults, [Load] and [Save];
    - [ai]: the commit message service;
    - [ui]: [internal/ui], the menu controller and its sub-flows, with
      commands returned as data;
    - [part_003], [part_004]: the two [main] functions.

    Go strings are byte strings; they are modelled by [string], whose
    characters are 8-bit.  A Go [error] is modelled by its text, [None]
    being [nil]. *)

From Stdlib Require Import Ascii String ZArith PrimFloat Lia.
Set Warnings "-inexact-float,-register-all".
From stdpp Require Import base option list strings gmap pretty.

Local Open Scope Z_scope.

Definition error := option string.

(** The newline byte. *)
Definition LF : ascii := "010"%char.
Definition NL : string := String LF "".

(** A text without line feed, as a single-line field holds. *)
Fixpoint oneLine (s : string) : bool :=
  match s with
  | EmptyString => true
  | String c s' => negb (Ascii.eqb c LF) && oneLine s'
  end.

(* ===================================================================== *)
(** ** Package [strings] of the Go library *)
(* ===================================================================== *)

Module gostrings.

Definition byte_in (c : ascii) (l : list N) : bool :=
  existsb (N.eqb (N_of_ascii c)) l.

(** [asciiSpace]: tab, line feed, vertical tab, form feed, carriage
    return and space. *)
Definition asciiSpace (c : ascii) : bool :=
  byte_in c [9; 10; 11; 12; 13; 32]%N.

(** The UTF-8 encodings of the other runes of [unicode.IsSpace]:
    U+0085 and U+00A0 on two bytes; U+1680, U+2000 to U+200A, U+2028,
    U+2029, U+202F, U+205F and U+3000 on three bytes. *)
Definition space2 (c1 c2 : ascii) : bool :=
  byte_in c1 [194]%N && byte_in c2 [133; 160]%N.

Definition space3 (c1 c2 c3 : ascii) : bool :=
  let b1 := N_of_ascii c1 in
  let b2 := N_of_ascii c2 in
  let b3 := N_of_ascii c3 in
  ((b1 =? 225) && (b2 =? 154) && (b3 =? 128))%N
  || ((b1 =? 226) && (b2 =? 128)
      && (((128 <=? b3) && (b3 <=? 138)) || byte_in c3 [168; 169; 175]))%N
  || ((b1 =? 226) && (b2 =? 129) && (b3 =? 159))%N
  || ((b1 =? 227) && (b2 =? 128) && (b3 =? 128))%N.

(** [TrimLeftFunc(s, unicode.IsSpace)] on the bytes of [s]: a rune that
    does not decode to a space stops the scan. *)
Fixpoint trimLeft (s : list ascii) : list ascii :=
  match s with
  | [] => []
  | c1 :: s1 =>
      if asciiSpace c1 then trimLeft s1
      else match s1 with
           | [] => s
           | c2 :: s2 =>
               if space2 c1 c2 then trimLeft s2
               else match s2 with
                    | [] => s
                    | c3 :: s3 => if space3 c1 c2 c3 then trimLeft s3 else s
                    end
           end
  end.

(** [TrimRightFunc(s, unicode.IsSpace)], on the reversed bytes: the
    last rune is decoded from the end. *)
Fixpoint trimRightRev (r : list ascii) : list ascii :=
  match r with
  | [] => []
  | c1 :: r1 =>
      if asciiSpace c1 then trimRightRev r1
      else match r1 with
           | [] => r
           | c2 :: r2 =>
               if space2 c2 c1 then trimRightRev r2
               else match r2 with
                    | [] => r
                    | c3 :: r3 => if space3 c3 c2 c1 then trimRightRev r3 else r
                    end
           end
  end.

Definition TrimSpace (s : string) : string :=
  string_of_list_ascii
    (rev (trimRightRev (rev (trimLeft (list_ascii_of_string s))))).

(** [s[n:]] *)
Fixpoint drop (n : nat) (s : string) : string :=
  match n, s with
  | O, _ => s
  | S _, EmptyString => EmptyString
  | S n', String _ s' => drop n' s'
  end.

(** The leftmost occurrence of [sep] in [s]: the text before it and the
    text after it ([strings.Index] and the two slices). *)
Fixpoint Cut (s sep : string) : option (string * string) :=
  if String.prefix sep s then Some (EmptyString, drop (String.length sep) s)
  else match s with
       | EmptyString => None
       | String c s' =>
           match Cut s' sep with
           | Some (before, after) => Some (String c before, after)
           | None => None
           end
       end.

(** [strings.SplitN(s, sep, 2)] for a non-empty [sep]. *)
Definition SplitN2 (s sep : string) : list string :=
  match Cut s sep with
  | Some (before, after) => [before; after]
  | None => [s]
  end.

Fixpoint splitFuel (fuel : nat) (s sep : string) : list string :=
  match fuel with
  | O => [s]
  | S fuel' =>
      match Cut s sep with
      | Some (before, after) => before :: splitFuel fuel' after sep
      | None => [s]
      end
  end.

(** [strings.Split(s, sep)] for a non-empty [sep]; every cut removes at
    least one byte, so the length of [s] is enough fuel. *)
Definition Split (s sep : string) : list string :=
  splitFuel (String.length s) s sep.

(** [s[:n]] *)
Fixpoint take (n : nat) (s : string) : string :=
  match n, s with
  | O, _ => EmptyString
  | S _, EmptyString => EmptyString
  | S n', String c s' => String c (take n' s')
  end.

Definition HasPrefix (s prefix : string) : bool := String.prefix prefix s.

Definition TrimPrefix (s prefix : string) : string :=
  if HasPrefix s prefix then drop (String.length prefix) s else s.

Definition HasSuffix (s suffix : string) : bool :=
  (String.length suffix <=? String.length s)%nat
  && String.eqb (drop (String.length s - String.length suffix) s) suffix.

Definition TrimSuffix (s suffix : string) : string :=
  if HasSuffix s suffix
  then take (String.length s - String.length suffix) s else s.

(** [strings.Contains]: [strings.Index(s, substr) >= 0]. *)
Definition Contains (s substr : string) : bool :=
  match Cut s substr with Some _ => true | None => false end.

(** [strings.Replace(s, old, new, 1)]: the leftmost occurrence. *)
Definition ReplaceFirst (s old new : string) : string :=
  match Cut s old with
  | Some (before, after) => before +:+ new +:+ after
  | None => s
  end.

Fixpoint replaceFuel (fuel : nat) (s old new : string) : string :=
  match fuel with
  | O => s
  | S fuel' =>
      match Cut s old with
      | Some (before, after) =>
          before +:+ new +:+ replaceFuel fuel' after old new
      | None => s
      end
  end.

(** [strings.ReplaceAll(s, old, new)] for a non-empty [old]: the
    occurrences are taken from the left and do not overlap. *)
Definition ReplaceAll (s old new : string) : string :=
  replaceFuel (String.length s) s old new.

Definition flush (cur : list ascii) (rest : list string) : list string :=
  match cur with
  | [] => rest
  | _ => string_of_list_ascii (rev cur) :: rest
  end.

(** The fields after the bytes of [s], [cur] being the bytes of the
    field under way, last first. *)
Fixpoint fieldsFrom (cur : list ascii) (s : list ascii) : list string :=
  match s with
  | [] => flush cur []
  | c1 :: s1 =>
      if asciiSpace c1 then flush cur (fieldsFrom [] s1)
      else match s1 with
           | [] => fieldsFrom (c1 :: cur) s1
           | c2 :: s2 =>
               if space2 c1 c2 then flush cur (fieldsFrom [] s2)
               else match s2 with
                    | [] => fieldsFrom (c1 :: cur) s1
                    | c3 :: s3 =>
                        if space3 c1 c2 c3
                        then flush cur (fieldsFrom [] s3)
                        else fieldsFrom (c1 :: cur) s1
                    end
           end
  end.

(** [strings.Fields]: the maximal runs of bytes between white space. *)
Definition Fields (s : string) : list string :=
  fieldsFrom [] (list_ascii_of_string s).

(** [strings.Join] *)
Fixpoint Join (elems : list string) (sep : string) : string :=
  match elems with
  | [] => EmptyString
  | [e] => e
  | e :: rest => e +:+ sep +:+ Join rest sep
  end.

End gostrings.

(* ===================================================================== *)
(** ** Package [git] *)
(* ===================================================================== *)

Module git.

Record Status := mkStatus {
  IsRepo : bool;
  Branch : string;
  HasStaged : bool;
  HasUnstaged : bool;
  HasUntracked : bool;
  Ahead : Z;
  Behind : Z;
  StagedFiles : list string;
  ModifiedFiles : list string;
  UntrackedFiles : list string;
  RemoteURL : string
}.

(** [&Status{}] *)
Definition emptyStatus : Status :=
  mkStatus false "" false false false 0 0 [] [] [] "".

Definition markStaged (file : string) (s : Status) : Status :=
  mkStatus (IsRepo s) (Branch s) true (HasUnstaged s) (HasUntracked s)
    (Ahead s) (Behind s) (StagedFiles s ++ [file]) (ModifiedFiles s)
    (UntrackedFiles s) (RemoteURL s).

Definition markModified (file : string) (s : Status) : Status :=
  mkStatus (IsRepo s) (Branch s) (HasStaged s) true (HasUntracked s)
    (Ahead s) (Behind s) (StagedFiles s) (ModifiedFiles s ++ [file])
    (UntrackedFiles s) (RemoteURL s).

Definition markUntracked (file : string) (s : Status) : Status :=
  mkStatus (IsRepo s) (Branch s) (HasStaged s) (HasUnstaged s) true
    (Ahead s) (Behind s) (StagedFiles s) (ModifiedFiles s)
    (UntrackedFiles s ++ [file]) (RemoteURL s).

Definition byteIs (c : ascii) (lit : ascii) : bool := Ascii.eqb c lit.

(** The body of the loop of [GetStatus] over the lines of
    [git status --porcelain]. *)
Definition scanLine (status : Status) (line : string) : Status :=
  match line with
  | String x (String y (String _ rest)) =>
      let file := gostrings.TrimSpace rest in
      let status :=
        if negb (byteIs x " ") && negb (byteIs x "?")
        then markStaged file status else status in
      let status :=
        if negb (byteIs y " ") && negb (byteIs y "?")
        then markModified file status else status in
      let status :=
        if byteIs x "?" && byteIs y "?"
        then markUntracked file status else status in
      status
  | _ => status (* len(line) < 3: continue *)
  end.

(** [lines := strings.Split(string(output), "\n")] and the loop. *)
Definition scanPorcelain (status : Status) (output : string) : Status :=
  foldl scanLine status (gostrings.Split output NL).

(** *** The command executor

    [exec.Command(name, args...)] run to completion is an oracle of
    the host: it answers with the combined output and the error of the
    process ([None] when it exits with status 0), and moves the host
    to a new state. *)
Class Host := {
  World : Type;
  exec_Command : list string -> World -> (string * error) * World
}.

Section Commands.
Context `{Host}.

(** The state threaded through a task: the host and the commands
    issued so far, oldest first. *)
Record Sys := mkSys { world : World; issued : list (list string) }.

Definition IO (A : Type) : Type := Sys -> A * Sys.

Definition ret {A} (a : A) : IO A := fun s => (a, s).

Definition bind {A B} (m : IO A) (k : A -> IO B) : IO B :=
  fun s => let (a, s') := m s in k a s'.

#[global] Instance IO_ret : MRet IO := @ret.
#[global] Instance IO_bind : MBind IO := fun A B k m => bind m k.

Definition CombinedOutput (argv : list string) : IO (string * error) :=
  fun s =>
    let (r, w) := exec_Command argv (world s) in
    (r, mkSys w (issued s ++ [argv])).

Definition Run (argv : list string) : IO error :=
  r ← CombinedOutput argv; mret (snd r).

(** [fmt.Errorf("%s: %w", string(output), err)] *)
Definition withOutput (output : string) (e : error) : error :=
  match e with
  | Some text => Some (output +:+ ": " +:+ text)
  | None => None
  end.

Definition Commit (message : string) : IO error :=
  Run ["git"; "commit"; "-m"; message].

Definition Reset : IO error := Run ["git"; "reset"; "--hard"].

Definition Rollback : IO error := Run ["git"; "reset"; "--hard"; "HEAD^"].

Definition Tag (name : string) : IO error := Run ["git"; "tag"; name].

Definition TagAnnotated (name message : string) : IO error :=
  let cmd :=
    if String.eqb message ""
    then ["git"; "tag"; name]
    else ["git"; "tag"; "-a"; name; "-m"; message] in
  r ← CombinedOutput cmd; mret (withOutput (fst r) (snd r)).

Definition PushTags : IO error := Run ["git"; "push"; "--tags"].

End Commands.

(** *** The queries

    [cmd.Output()] answers with the standard output alone;
    [cmd.Start()] only starts the process; [os.Getenv] and
    [exec.LookPath] read the host. *)
Class Shell `{Host} := {
  exec_Output : list string -> World -> (string * error) * World;
  exec_Start : list string -> World -> error * World;
  os_Getenv : string -> World -> string;
  exec_LookPath : string -> World -> bool
}.

(** [fmt.Sscanf(s, "%d", &n)]: the number scanned, [None] when the scan
    fails and [n] keeps its value. *)
Class Fmt := { Sscanf_d : string -> option Z }.

Section Queries.
Context `{Shell} `{Fmt}.

Definition Output (argv : list string) : IO (string * error) :=
  fun s =>
    let (r, w) := exec_Output argv (world s) in
    (r, mkSys w (issued s ++ [argv])).

Definition Start (argv : list string) : IO error :=
  fun s =>
    let (e, w) := exec_Start argv (world s) in
    (e, mkSys w (issued s ++ [argv])).

Definition Getenv (key : string) : IO string :=
  fun s => (os_Getenv key (world s), s).

Definition LookPath (file : string) : IO bool :=
  fun s => (exec_LookPath file (world s), s).

Definition isNil (e : error) : bool :=
  match e with None => true | Some _ => false end.

(** The function [IsRepo]; the name is taken by the field of [Status]. *)
Definition IsRepo' : IO bool :=
  e ← Run ["git"; "rev-parse"; "--is-inside-work-tree"]; mret (isNil e).

Definition Init : IO error := Run ["git"; "init"].

Definition GetBranch : IO (string * error) :=
  r ← Output ["git"; "branch"; "--show-current"];
  match snd r with
  | Some e => mret (EmptyString, Some e)
  | None =>
      let branch := gostrings.TrimSpace (fst r) in
      if String.eqb branch "" then mret ("main", None)
      else mret (branch, None)
  end.

Definition Add (files : list string) : IO error :=
  Run ("git" :: "add" :: files).

Definition AddAll : IO error := Add ["."].

Definition Push : IO error :=
  r ← CombinedOutput ["git"; "push"]; mret (withOutput (fst r) (snd r)).

Definition PushWithUpstream (remote branch : string) : IO error :=
  r ← CombinedOutput ["git"; "push"; "-u"; remote; branch];
  mret (withOutput (fst r) (snd r)).

Definition Pull : IO error :=
  r ← CombinedOutput ["git"; "pull"]; mret (withOutput (fst r) (snd r)).

Definition HasStagedChanges : IO bool :=
  e ← Run ["git"; "diff"; "--cached"; "--quiet"]; mret (negb (isNil e)).

Definition GetDiff : IO (string * error) :=
  r ← Output ["git"; "diff"; "--cached"];
  match snd r with
  | Some e => mret (EmptyString, Some e)
  | None => mret (fst r, None)
  end.

Definition GetRemoteURL : IO (string * error) :=
  r ← Output ["git"; "remote"; "get-url"; "origin"];
  match snd r with
  | Some e => mret (EmptyString, Some e)
  | None => mret (gostrings.TrimSpace (fst r), None)
  end.

Definition SetConfig (key value : string) : IO error :=
  Run ["git"; "config"; key; value].

Definition SetUser (name email : string) : IO error :=
  e ← SetConfig "user.name" name;
  match e with
  | Some _ => mret e
  | None => SetConfig "user.email" email
  end.

(** The loop of [GetBranches] over one line. *)
Definition branchOfLine (line : string) : list string :=
  let branch := gostrings.TrimSpace (gostrings.TrimPrefix line "*") in
  if negb (String.eqb branch "") then [branch] else [].

Definition GetBranches : IO (list string * error) :=
  r ← Output ["git"; "branch"; "-a"];
  match snd r with
  | Some e => mret ([], Some e)
  | None =>
      mret (flat_map branchOfLine (gostrings.Split (fst r) NL), None)
  end.

Definition HasRemote (name : string) : IO bool :=
  e ← Run ["git"; "remote"; "get-url"; name]; mret (isNil e).

(** The rewriting of [GetGitHubURL], once the remote is known to be on
    GitHub. *)
Definition webURL (url : string) : string :=
  let url :=
    if gostrings.HasPrefix url "git@"
    then "https://"
         +:+ gostrings.ReplaceFirst (gostrings.TrimPrefix url "git@") ":" "/"
    else url in
  gostrings.TrimSuffix url ".git".

Definition GetGitHubURL : IO (string * error) :=
  r ← GetRemoteURL;
  match snd r with
  | Some e => mret (EmptyString, Some e)
  | None =>
      if negb (gostrings.Contains (fst r) "github.com")
      then mret (EmptyString, Some "not a GitHub repository")
      else mret (webURL (fst r), None)
  end.

Definition setRepo (branch url : string) (s : Status) : Status :=
  mkStatus true branch (HasStaged s) (HasUnstaged s) (HasUntracked s)
    (Ahead s) (Behind s) (StagedFiles s) (ModifiedFiles s)
    (UntrackedFiles s) url.

Definition setAhead (n : Z) (s : Status) : Status :=
  mkStatus (IsRepo s) (Branch s) (HasStaged s) (HasUnstaged s)
    (HasUntracked s) n (Behind s) (StagedFiles s) (ModifiedFiles s)
    (UntrackedFiles s) (RemoteURL s).

Definition setBehind (n : Z) (s : Status) : Status :=
  mkStatus (IsRepo s) (Branch s) (HasStaged s) (HasUnstaged s)
    (HasUntracked s) (Ahead s) n (StagedFiles s) (ModifiedFiles s)
    (UntrackedFiles s) (RemoteURL s).

(** The end of [GetStatus], on the output of [git rev-list --left-right
    --count HEAD...@{upstream}]. *)
Definition scanAheadBehind (aheadBehind : string) (s : Status) : Status :=
  if (0 <? String.length aheadBehind)%nat then
    match gostrings.Fields aheadBehind with
    | [ahead; behind] =>
        let s :=
          match Sscanf_d ahead with Some n => setAhead n s | None => s end in
        match Sscanf_d behind with Some n => setBehind n s | None => s end
    | _ => s
    end
  else s.

Definition GetStatus : IO (Status * error) :=
  let status := emptyStatus in
  repo ← IsRepo';
  if negb repo then mret (status, None)
  else
    b ← GetBranch;
    u ← GetRemoteURL;
    let status :=
      setRepo (match snd b with None => fst b | Some _ => Branch status end)
        (fst u) status in
    r ← Output ["git"; "status"; "--porcelain"];
    match snd r with
    | Some _ => mret (status, None)
    | None =>
        let status := scanPorcelain status (fst r) in
        ab ← Output ["git"; "rev-list"; "--left-right"; "--count";
                     "HEAD...@{upstream}"];
        mret (scanAheadBehind (fst ab) status, None)
    end.

(** [OpenBrowser]: zen-browser, then zen, then xdg-open. *)
Definition OpenBrowser (url : string) : IO error :=
  zen ← LookPath "zen-browser";
  if zen : bool then Start ["zen-browser"; url]
  else
    zen ← LookPath "zen";
    if zen : bool then Start ["zen"; url] else Start ["xdg-open"; url].

Definition CheckDeps : IO (list string) :=
  git ← LookPath "git";
  gh ← LookPath "gh";
  lazygit ← LookPath "lazygit";
  mret ((if git : bool then [] else ["git (required)"])
        ++ (if gh : bool then [] else ["gh (optional, for publish)"])
        ++ (if lazygit : bool then [] else ["lazygit (optional)"])).

(** The flags of a status say whether its lists are empty. *)
Definition flagsAgree (st : Status) : Prop :=
  HasStaged st = bool_decide (StagedFiles st <> []) /\
  HasUnstaged st = bool_decide (ModifiedFiles st <> []) /\
  HasUntracked st = bool_decide (UntrackedFiles st <> []).

(** [issues P m]: whatever the host, the commands that [m] adds to the
    ones issued all satisfy [P]. *)
Definition issues (P : list string -> Prop) {A} (m : IO A) : Prop :=
  forall s, exists tr, issued (snd (m s)) = issued s ++ tr /\ Forall P tr.

(** The queries of [GetStatus]. *)
Definition statusQueries : list (list string) :=
  [ ["git"; "rev-parse"; "--is-inside-work-tree"];
    ["git"; "branch"; "--show-current"];
    ["git"; "remote"; "get-url"; "origin"];
    ["git"; "status"; "--porcelain"];
    ["git"; "rev-list"; "--left-right"; "--count"; "HEAD...@{upstream}"] ].

End Queries.

End git.

(* ===================================================================== *)
(** ** Package [main] *)
(* ===================================================================== *)

Module main.

(** The test of [main] on the result of [git.CheckDeps]: the program
    exits with status 1 when it holds. *)
Definition missingRequired (missing : list string) : bool :=
  existsb (fun m => gostrings.Contains m "(required)") missing.

End main.

(* ===================================================================== *)
(** ** Package [config] *)
(* ===================================================================== *)

Module config.

Record GitConfig := mkGit {
  UserName : string; UserEmail : string; Editor : string }.

Record AIConfig := mkAI {
  Provider : string; Model : string; APIKey : string;
  MaxDiffSize : Z; Temperature : float }.

Record UIConfig := mkUI {
  Theme : string; ShowIcons : bool; AnimationMs : Z }.

Record GitHubConfig := mkGitHub {
  DefaultVisibility : string; NormalizeAuthor : bool }.

Record Config := mkConfig {
  Git : GitConfig; AI : AIConfig; UI : UIConfig; GitHub : GitHubConfig }.

Definition DefaultConfig : Config :=
  mkConfig
    (mkGit "" "" "vim")
    (mkAI "openai" "gpt-4o-mini" "" 4000 0.7%float)
    (mkUI "charm" true 100)
    (mkGitHub "public" false).

Definition setAPIKey (key : string) (cfg : Config) : Config :=
  let ai := AI cfg in
  mkConfig (Git cfg)
    (mkAI (Provider ai) (Model ai) key (MaxDiffSize ai) (Temperature ai))
    (UI cfg) (GitHub cfg).

(** The YAML codec of [gopkg.in/yaml.v3]: [Unmarshal] decodes into an
    existing value, which it may have changed when it fails. *)
Class Yaml := {
  Marshal : Config -> string * error;
  Unmarshal : string -> Config -> Config * error
}.

Inductive file := Readable (data : string) | Unreadable.

(** What [Load] and [Save] see of the operating system.  Directories
    are not recorded: of [os.MkdirAll] only the error is kept, not the
    directories it creates. *)
Record OS := mkOS {
  home : option string;          (* os.UserHomeDir, None on error *)
  files : gmap string file;
  env : gmap string string;
  mkdirErr : error;              (* the outcome of os.MkdirAll *)
  writeErr : error               (* the outcome of os.WriteFile *)
}.

Inductive readError := ErrNotExist | ErrOther.

Definition ReadFile (path : string) (os : OS) : string + readError :=
  match files os !! path with
  | None => inr ErrNotExist
  | Some Unreadable => inr ErrOther
  | Some (Readable data) => inl data
  end.

Definition IsNotExist (e : readError) : bool :=
  match e with ErrNotExist => true | ErrOther => false end.

Definition Getenv (key : string) (os : OS) : string :=
  default "" (env os !! key).

Definition WriteFile (path data : string) (os : OS) : error * OS :=
  match writeErr os with
  | Some e => (Some e, os)
  | None =>
      (None, mkOS (home os) (<[path := Readable data]> (files os))
               (env os) (mkdirErr os) (writeErr os))
  end.

(** [filepath.Join(home, ".config", "gitty", "config.yaml")], for a
    home directory written without a trailing separator. *)
Definition ConfigPath (os : OS) : string :=
  match home os with
  | None => ".gitty.yaml"
  | Some h => h +:+ "/.config/gitty/config.yaml"
  end.

Section Loading.
Context `{Yaml}.

Definition Save (cfg : Config) (os : OS) : error * OS :=
  let path := ConfigPath os in
  match mkdirErr os with
  | Some e => (Some e, os)
  | None =>
      match Marshal cfg with
      | (_, Some e) => (Some e, os)
      | (data, None) => WriteFile path data os
      end
  end.

Definition Load (os : OS) : (Config * error) * OS :=
  let cfg := DefaultConfig in
  let path := ConfigPath os in
  match ReadFile path os with
  | inr e =>
      if IsNotExist e
      then let (_, os') := Save cfg os in ((cfg, None), os')
      else ((cfg, None), os)
  | inl data =>
      match Unmarshal data cfg with
      | (_, Some e) => ((DefaultConfig, Some e), os)
      | (cfg, None) =>
          let cfg :=
            if String.eqb (APIKey (AI cfg)) ""
            then setAPIKey (Getenv "OPENAI_API_KEY" os) cfg
            else cfg in
          ((cfg, None), os)
      end
  end.

Definition EnsureConfig (os : OS) : (Config * error) * OS :=
  match Load os with
  | ((cfg, Some _), os) =>
      let cfg := DefaultConfig in
      match Save cfg os with
      | (Some saveErr, os) => ((cfg, Some saveErr), os)
      | (None, os) => ((cfg, None), os)
      end
  | ((cfg, None), os) => ((cfg, None), os)
  end.

End Loading.

End config.

(* ===================================================================== *)
(** ** Package [ai] *)
(* ===================================================================== *)

Module ai.

Definition OpenAIURL : string := "https://api.openai.com/v1/chat/completions".
Definition AnthropicURL : string := "https://api.anthropic.com/v1/messages".

Record openAIMessage := mkOpenAIMessage {
  oa_Role : string; oa_Content : string }.

Record openAIRequest := mkOpenAIRequest {
  oa_Model : string;
  oa_Messages : list openAIMessage;
  oa_Temperature : float
}.

(** [Choices] holds the [Message] of each choice. *)
Record openAIResponse := mkOpenAIResponse {
  oa_Choices : list openAIMessage;
  oa_Error : option string
}.

Record anthropicMessage := mkAnthropicMessage {
  an_Role : string; an_Content : string }.

Record anthropicRequest := mkAnthropicRequest {
  an_Model : string;
  an_MaxTokens : Z;
  an_System : string;
  an_Messages : list anthropicMessage;
  an_Temperature : float
}.

(** [Content] holds the [Text] of each block. *)
Record anthropicResponse := mkAnthropicResponse {
  an_Blocks : list string;
  an_Error : option string
}.

(** *** The network

    A request is kept as the value that [json.Marshal] encodes; the
    client, with its timeout of 30 seconds, and the decoding of a reply
    are oracles. *)

Inductive body :=
| OpenAIBody (r : openAIRequest)
| AnthropicBody (r : anthropicRequest).

Record Request := mkRequest {
  Method : string;
  URL : string;
  Header : list (string * string);
  Body : body
}.

Record Response := mkResponse { StatusCode : Z; Payload : string }.

Class Http := {
  Net : Type;
  client_Do : Request -> Net -> (Response + string) * Net;
  json_openAI : string -> openAIResponse + string;
  json_anthropic : string -> anthropicResponse + string
}.

Section Client.
Context `{Http}.

(** The network and the requests sent so far, oldest first. *)
Record Wire := mkWire { net : Net; sent : list Request }.

Definition Do (req : Request) (w : Wire) : (Response + string) * Wire :=
  let (r, n) := client_Do req (net w) in
  (r, mkWire n (sent w ++ [req])).

(** [json.Marshal] of a request fails on a temperature that is not a
    finite number, and only then. *)
Definition marshalError (temperature : float) : error :=
  if PrimFloat.is_nan temperature then Some "json: unsupported value: NaN"
  else if PrimFloat.is_infinity temperature then
    if PrimFloat.ltb temperature PrimFloat.zero
    then Some "json: unsupported value: -Inf"
    else Some "json: unsupported value: +Inf"
  else None.

Definition cleanMarkdown (content : string) : string :=
  let content := gostrings.ReplaceAll content "```markdown" "" in
  let content := gostrings.ReplaceAll content "```" "" in
  gostrings.TrimSpace content.

(** [fmt.Errorf("API error %d: %s", resp.StatusCode, string(body))] *)
Definition apiError (r : Response) : string :=
  "API error " +:+ pretty (StatusCode r) +:+ ": " +:+ Payload r.

Definition generateOpenAICommit
    (systemPrompt userPrompt : string) (cfg : config.Config) (w : Wire)
  : (string * error) * Wire :=
  let reqBody :=
    mkOpenAIRequest (config.Model (config.AI cfg))
      [ mkOpenAIMessage "system" systemPrompt;
        mkOpenAIMessage "user" userPrompt ]
      (config.Temperature (config.AI cfg)) in
  match marshalError (oa_Temperature reqBody) with
  | Some e => ((EmptyString, Some ("failed to marshal request: " +:+ e)), w)
  | None =>
      let req :=
        mkRequest "POST" OpenAIURL
          [ ("Content-Type", "application/json");
            ("Authorization", "Bearer " +:+ config.APIKey (config.AI cfg)) ]
          (OpenAIBody reqBody) in
      match Do req w with
      | (inr e, w) => ((EmptyString, Some ("API call failed: " +:+ e)), w)
      | (inl resp, w) =>
          if negb (StatusCode resp =? 200)
          then ((EmptyString, Some (apiError resp)), w)
          else
            match json_openAI (Payload resp) with
            | inr e =>
                ((EmptyString, Some ("failed to parse response: " +:+ e)), w)
            | inl apiResp =>
                match oa_Error apiResp, oa_Choices apiResp with
                | Some e, _ =>
                    ((EmptyString, Some ("OpenAI error: " +:+ e)), w)
                | None, [] =>
                    ((EmptyString, Some "no response from OpenAI"), w)
                | None, choice :: _ =>
                    ((cleanMarkdown
                        (gostrings.TrimSpace (oa_Content choice)), None), w)
                end
            end
      end
  end.

Definition generateAnthropicCommit
    (systemPrompt userPrompt : string) (cfg : config.Config) (w : Wire)
  : (string * error) * Wire :=
  let model := config.Model (config.AI cfg) in
  let model :=
    if negb (gostrings.HasPrefix model "claude")
    then "claude-3-5-sonnet-20241022" else model in
  let reqBody :=
    mkAnthropicRequest model 1024 systemPrompt
      [ mkAnthropicMessage "user" userPrompt ]
      (config.Temperature (config.AI cfg)) in
  match marshalError (an_Temperature reqBody) with
  | Some e => ((EmptyString, Some ("failed to marshal request: " +:+ e)), w)
  | None =>
      let req :=
        mkRequest "POST" AnthropicURL
          [ ("Content-Type", "application/json");
            ("x-api-key", config.APIKey (config.AI cfg));
            ("anthropic-version", "2023-06-01") ]
          (AnthropicBody reqBody) in
      match Do req w with
      | (inr e, w) => ((EmptyString, Some ("API call failed: " +:+ e)), w)
      | (inl resp, w) =>
          if negb (StatusCode resp =? 200)
          then ((EmptyString, Some (apiError resp)), w)
          else
            match json_anthropic (Payload resp) with
            | inr e =>
                ((EmptyString, Some ("failed to parse response: " +:+ e)), w)
            | inl apiResp =>
                match an_Error apiResp, an_Blocks apiResp with
                | Some e, _ =>
                    ((EmptyString, Some ("Anthropic error: " +:+ e)), w)
                | None, [] =>
                    ((EmptyString, Some "no response from Anthropic"), w)
                | None, text :: _ =>
                    ((cleanMarkdown (gostrings.TrimSpace text), None), w)
                end
            end
      end
  end.

Definition systemPrompt : string :=
"You are a skilled developer writing git commit messages.
Format the message strictly as follows:
1. A single concise subject line (max 50 chars) that describes WHAT changed.
2. A blank line.
3. A detailed bulleted list of changes explaining WHY and HOW.

Use conventional commit prefixes when appropriate:
- feat: new feature
- fix: bug fix
- refactor: code refactoring
- docs: documentation changes
- style: formatting changes
- test: adding tests
- chore: maintenance tasks

IMPORTANT: Return raw text only. Do NOT wrap in markdown code blocks.".

Definition truncationMark : string := NL +:+ "...(truncated)".

(** [GenerateCommitMessage]; [None] is the run-time panic of the slice
    expression [diff[:cfg.AI.MaxDiffSize]] on a negative bound. *)
Definition GenerateCommitMessage
    (diff : string) (cfg : config.Config) (w : Wire)
  : option (string * error) * Wire :=
  if String.eqb (config.APIKey (config.AI cfg)) "" then
    (Some (EmptyString,
           Some "API key not configured. Set it in ~/.config/gitty/config.yaml or OPENAI_API_KEY env var"),
     w)
  else
    let max := config.MaxDiffSize (config.AI cfg) in
    if (max <? Z.of_nat (String.length diff)) && (max <? 0) then (None, w)
    else
      let diff :=
        if max <? Z.of_nat (String.length diff)
        then gostrings.take (Z.to_nat max) diff +:+ truncationMark
        else diff in
      let userPrompt :=
        "Generate a commit message for this diff:" +:+ NL +:+ NL +:+ diff in
      let (r, w) :=
        if String.eqb (config.Provider (config.AI cfg)) "anthropic"
        then generateAnthropicCommit systemPrompt userPrompt cfg w
        else generateOpenAICommit systemPrompt userPrompt cfg w in
      (Some r, w).

(** The [Content] of the last message of the value that is handed to
    [json.Marshal]: the user prompt as [GenerateCommitMessage] builds
    it.  The body that goes over the wire is its JSON encoding, which
    is longer: quotes and line feeds are escaped, and a byte that is
    not valid UTF-8 (the cut [diff[:MaxDiffSize]] can leave some) is
    replaced by U+FFFD. *)
Definition userPrompt (req : Request) : string :=
  match Body req with
  | OpenAIBody r => default EmptyString (oa_Content <$> last (oa_Messages r))
  | AnthropicBody r =>
      default EmptyString (an_Content <$> last (an_Messages r))
  end.

Definition modelOf (req : Request) : string :=
  match Body req with
  | OpenAIBody r => oa_Model r
  | AnthropicBody r => an_Model r
  end.

End Client.

End ai.

(* ===================================================================== *)
(** ** Package [ui] *)
(* ===================================================================== *)

Module ui.

(** *** Messages and commands

    A [tea.Cmd] is returned as data.  [Emit msg] is a closure that only
    returns [msg]; [Run t] is a closure or method value that does
    external work; [Tick d msg] is [tea.Tick]: the runtime delivers [msg]
    after [d] seconds; [LibCmd] is any command built by a widget of the
    Charm libraries.  A closure that reads a field of its model when it
    runs (the tag of a release, the text of an error) is given the value
    the field has when [Update] returns. *)

Inductive Action :=
| ActionNone | ActionAdd | ActionCommit | ActionAICommit | ActionPush
| ActionPull | ActionReset | ActionRollback | ActionPublish | ActionOpen
| ActionLazygit | ActionBranches | ActionQuit.

(** The handle of a [*glamour.TermRenderer]. *)
Definition Renderer := nat.

Inductive Msg :=
| KeyMsg (key : string)                      (* tea.KeyMsg, by its String() *)
| WindowSizeMsg (Width Height : Z)
| spinner_TickMsg
| LibMsg (id : nat)                          (* any other library message *)
| statusMsg (status : option git.Status) (err : error)
| actionCompleteMsg (success : bool) (message : string)
| clearMsgMsg
| ReturnToMenuMsg (Message Type_ : string)
| resetDoneMsg
| resetErrorMsg (err : string)
| rollbackDoneMsg
| rollbackErrorMsg (err : string)
| releaseDoneMsg
| releaseErrorMsg (err : string)
| commitReadyMsg (diff : string)
| commitNoChangesMsg
| commitErrorMsg (err : string)
| commitGeneratedMsg (message : string)
| commitDoneMsg
| rendererMsg (renderer : option Renderer)
| publishRepoCheckedMsg (branch : string) (hasRemote : bool)
| publishErrorMsg (err : string)
| publishDoneMsg (url : string).

(** The form fields of the publish flow that its task reads. *)
Record PublishFields := mkPublishFields {
  pf_repoName : string;
  pf_description : string;
  pf_visibility : string;
  pf_commitMsg : string;
  pf_addTag : bool
}.

Inductive Task :=
| refreshStatus
| directAction (a : Action)   (* the closure executeAction builds for a *)
| execLazygit
| doReset
| doRollback
| doRelease (tagName message : string)
| checkStatusAsync (useAI : bool)
| initRendererCmd
| generateMessage (diff : string)
| doCommit (commitMsg : string)
| checkRepo
| pushToRemote (branch : string)
| doPublish (fields : PublishFields) (tagName : string).

Inductive Cmd :=
| nilCmd
| Batch (cmds : list Cmd)
| Quit
| Tick (seconds : nat) (msg : Msg)
| Emit (msg : Msg)
| Run (t : Task)
| LibCmd (id : nat).

(** The number of [ReturnToMenuMsg] a command delivers. *)
Fixpoint returns (c : Cmd) : nat :=
  match c with
  | Emit (ReturnToMenuMsg _ _) => 1
  | Batch cmds => foldr (fun c n => returns c + n)%nat 0%nat cmds
  | _ => 0
  end.

(** *** The widgets

    The spinner, the [huh] forms, the text fields, the list and the
    markdown renderer belong to the Charm libraries.  A text field is
    the value it holds and its focus; what a widget does with a message
    is an oracle, and so is what a field holds after [SetValue]: the
    text input cuts the text at its [CharLimit] (200 for the title) and
    both fields rewrite some of its bytes.  A form writes the answers
    through the pointers it was given: its update takes the bound
    variables and returns them. *)

Inductive FormState := StateNormal | StateCompleted | StateAborted.

Record TextField := mkField { Value : string; Focused : bool }.

Definition Focus (f : TextField) : TextField := mkField (Value f) true.
Definition Blur (f : TextField) : TextField := mkField (Value f) false.

Record ReleaseFields := mkReleaseFields {
  rf_tagName : string;
  rf_message : string;
  rf_confirm : bool
}.

Inductive menuIcon :=
| IconAdd | IconCommit | IconAI | IconPush | IconPull | IconReset
| IconPublish | IconOpen | IconLazygit | IconBranch | IconQuit.

Record menuItem := mkItem {
  icon : menuIcon;
  title : string;
  desc : string;
  shortcut : string;
  action : Action
}.

Class Widgets := {
  Spinner : Type;
  spinner_New : Spinner;
  spinner_Tick : Spinner -> nat;
  spinner_Update : Spinner -> Msg -> Spinner * nat;
  Form : Type;
  resetForm : Form;
  rollbackForm : Form;
  releaseForm : Form;
  publishForm : string -> Form;
  form_Init : Form -> nat;
  form_State : Form -> FormState;
  confirm_Update : Form -> bool -> Msg -> Form * bool * nat;
  release_Update : Form -> ReleaseFields -> Msg -> Form * ReleaseFields * nat;
  publish_Update : Form -> PublishFields -> Msg -> Form * PublishFields * nat;
  textinput_Blink : nat;
  textinput_Update : TextField -> Msg -> TextField * nat;
  textarea_Update : TextField -> Msg -> TextField * nat;
  textarea_InsertString : string -> TextField -> TextField;
  textinput_SetValue : string -> TextField -> TextField;
  textarea_SetValue : string -> TextField -> TextField;
  ListModel : Type;
  list_New : list menuItem -> ListModel;
  list_SelectedItem : ListModel -> option menuItem;
  list_Update : ListModel -> Msg -> ListModel * nat;
  glamour_Render : Renderer -> string -> string * error;
  git_GetRepoName : string
}.

Definition isCancelKey (key : string) : bool :=
  String.eqb key "ctrl+c" || String.eqb key "esc".

(** *** The reset flow *)

Inductive resetState :=
| resetStateConfirm | resetStateWorking | resetStateDone | resetStateError.

Module ResetModel.
Section Flow.
Context `{Widgets} `{git.Host}.

Record t := mk {
  state : resetState;
  spinner : Spinner;
  form : option Form;
  confirmed : bool;
  err : error
}.

Definition NewResetModel : t :=
  mk resetStateConfirm spinner_New None false None.

Definition Init (m : t) : t * Cmd :=
  let f := resetForm in
  (mk (state m) (spinner m) (Some f) (confirmed m) (err m),
   LibCmd (form_Init f)).

Definition updateForm (m : t) (msg : Msg) : t * Cmd :=
  match state m, form m with
  | resetStateConfirm, Some f =>
      let '(f, confirmed, cmd) := confirm_Update f (confirmed m) msg in
      let m := mk (state m) (spinner m) (Some f) confirmed (err m) in
      match form_State f with
      | StateCompleted =>
          if confirmed
          then (mk resetStateWorking (spinner m) (form m) confirmed (err m),
                Run doReset)
          else (m, Emit (ReturnToMenuMsg "Reset cancelled" "info"))
      | _ => (m, LibCmd cmd)
      end
  | _, _ => (m, nilCmd)
  end.

Definition Update (m : t) (msg : Msg) : t * Cmd :=
  match msg with
  | KeyMsg key =>
      if isCancelKey key
      then (m, Emit (ReturnToMenuMsg "" ""))
      else updateForm m msg
  | spinner_TickMsg =>
      let (s, cmd) := spinner_Update (spinner m) msg in
      (mk (state m) s (form m) (confirmed m) (err m), LibCmd cmd)
  | _ => updateForm m msg
  end.

(** The task [m.doReset]. *)
Definition doReset : git.IO Msg :=
  e ← git.Reset;
  match e with
  | Some text => mret (resetErrorMsg text)
  | None => mret resetDoneMsg
  end.

End Flow.
End ResetModel.

(** *** The rollback flow *)

Inductive rollbackState :=
| rollbackStateConfirm | rollbackStateWorking | rollbackStateDone
| rollbackStateError.

Module RollbackModel.
Section Flow.
Context `{Widgets} `{git.Host}.

Record t := mk {
  state : rollbackState;
  spinner : Spinner;
  form : option Form;
  confirmed : bool;
  err : error
}.

Definition NewRollbackModel : t :=
  mk rollbackStateConfirm spinner_New None false None.

Definition Init (m : t) : t * Cmd :=
  let f := rollbackForm in
  (mk (state m) (spinner m) (Some f) (confirmed m) (err m),
   LibCmd (form_Init f)).

Definition updateForm (m : t) (msg : Msg) : t * Cmd :=
  match state m, form m with
  | rollbackStateConfirm, Some f =>
      let '(f, confirmed, cmd) := confirm_Update f (confirmed m) msg in
      let m := mk (state m) (spinner m) (Some f) confirmed (err m) in
      match form_State f with
      | StateCompleted =>
          if confirmed
          then (mk rollbackStateWorking (spinner m) (form m) confirmed (err m),
                Run doRollback)
          else (m, Emit (ReturnToMenuMsg "Rollback cancelled" "info"))
      | _ => (m, LibCmd cmd)
      end
  | _, _ => (m, nilCmd)
  end.

Definition Update (m : t) (msg : Msg) : t * Cmd :=
  match msg with
  | KeyMsg key =>
      if isCancelKey key
      then (m, Emit (ReturnToMenuMsg "" ""))
      else updateForm m msg
  | spinner_TickMsg =>
      let (s, cmd) := spinner_Update (spinner m) msg in
      (mk (state m) s (form m) (confirmed m) (err m), LibCmd cmd)
  | rollbackDoneMsg =>
      (mk rollbackStateDone (spinner m) (form m) (confirmed m) (err m),
       Emit (ReturnToMenuMsg "Rollback successful" "success"))
  | rollbackErrorMsg e =>
      (mk rollbackStateError (spinner m) (form m) (confirmed m) (Some e),
       nilCmd)
  | _ => updateForm m msg
  end.

(** The task [m.doRollback]. *)
Definition doRollback : git.IO Msg :=
  e ← git.Rollback;
  match e with
  | Some text => mret (rollbackErrorMsg text)
  | None => mret rollbackDoneMsg
  end.

End Flow.
End RollbackModel.

(** *** The release flow *)

Inductive releaseState :=
| releaseStateForm | releaseStateWorking | releaseStateDone | releaseStateError.

Module ReleaseModel.
Section Flow.
Context `{Widgets} `{git.Host}.

Record t := mk {
  state : releaseState;
  spinner : Spinner;
  form : option Form;
  tagName : string;
  message : string;
  confirm : bool;
  err : error
}.

Definition NewReleaseModel : t :=
  mk releaseStateForm spinner_New None "" "" false None.

Definition Init (m : t) : t * Cmd :=
  let f := releaseForm in
  (mk (state m) (spinner m) (Some f) (tagName m) (message m) (confirm m)
     (err m),
   Batch [LibCmd (spinner_Tick (spinner m)); LibCmd (form_Init f)]).

Definition setState (s : releaseState) (m : t) : t :=
  mk s (spinner m) (form m) (tagName m) (message m) (confirm m) (err m).

Definition updateForm (m : t) (msg : Msg) : t * Cmd :=
  match state m, form m with
  | releaseStateForm, Some f =>
      let '(f, b, cmd) :=
        release_Update f
          (mkReleaseFields (tagName m) (message m) (confirm m)) msg in
      let m := mk (state m) (spinner m) (Some f) (rf_tagName b)
                 (rf_message b) (rf_confirm b) (err m) in
      match form_State f with
      | StateCompleted =>
          if confirm m
          then (setState releaseStateWorking m,
                Run (doRelease (tagName m) (message m)))
          else (m, Emit (ReturnToMenuMsg "Release cancelled" "info"))
      | _ => (m, LibCmd cmd)
      end
  | _, _ => (m, nilCmd)
  end.

Definition Update (m : t) (msg : Msg) : t * Cmd :=
  match msg with
  | KeyMsg key =>
      if isCancelKey key
      then (m, Emit (ReturnToMenuMsg "" ""))
      else updateForm m msg
  | spinner_TickMsg =>
      let (s, cmd) := spinner_Update (spinner m) msg in
      (mk (state m) s (form m) (tagName m) (message m) (confirm m) (err m),
       LibCmd cmd)
  | releaseDoneMsg =>
      (setState releaseStateDone m,
       Emit (ReturnToMenuMsg
               ("Release " +:+ tagName m +:+ " created and pushed")
               "success"))
  | releaseErrorMsg e =>
      (mk releaseStateError (spinner m) (form m) (tagName m) (message m)
         (confirm m) (Some e),
       nilCmd)
  | _ => updateForm m msg
  end.

(** The task [m.doRelease], on the tag name and the message of the
    model; [fmt.Errorf("failed to ...: %w", err)] prefixes the text. *)
Definition doRelease (tagName message : string) : git.IO Msg :=
  e ← git.TagAnnotated tagName message;
  match e with
  | Some text => mret (releaseErrorMsg ("failed to create tag: " +:+ text))
  | None =>
      e ← git.PushTags;
      match e with
      | Some text => mret (releaseErrorMsg ("failed to push tags: " +:+ text))
      | None => mret releaseDoneMsg
      end
  end.

End Flow.
End ReleaseModel.

(** *** The commit flow *)

Inductive commitState :=
| commitStateInput | commitStateGenerating | commitStateConfirm
| commitStateCommitting | commitStateDone | commitStateNoChanges
| commitStateError.

Module CommitModel.
Section Flow.
Context `{Widgets} `{git.Host}.

Record t := mk {
  cfg : config.Config;
  useAI : bool;
  state : commitState;
  spinner : Spinner;
  textInput : TextField;
  textArea : TextField;
  commitMsg : string;
  renderedMsg : string;
  renderer : option Renderer;
  err : error;
  diff : string;
  ready : bool
}.

Definition NewCommitModel (cfg : config.Config) (useAI : bool) : t :=
  mk cfg useAI commitStateInput spinner_New
    (mkField "" true)     (* ti.Focus() *)
    (mkField "" false)
    "" "" None None "" false.

Definition Init (m : t) : t * Cmd :=
  (m, Batch [LibCmd (spinner_Tick (spinner m)); LibCmd textinput_Blink;
             Run (checkStatusAsync (useAI m)); Run initRendererCmd]).

Definition setState (s : commitState) (m : t) : t :=
  mk (cfg m) (useAI m) s (spinner m) (textInput m) (textArea m)
    (commitMsg m) (renderedMsg m) (renderer m) (err m) (diff m) (ready m).

Definition setSpinner (s : Spinner) (m : t) : t :=
  mk (cfg m) (useAI m) (state m) s (textInput m) (textArea m)
    (commitMsg m) (renderedMsg m) (renderer m) (err m) (diff m) (ready m).

Definition setTextInput (f : TextField) (m : t) : t :=
  mk (cfg m) (useAI m) (state m) (spinner m) f (textArea m)
    (commitMsg m) (renderedMsg m) (renderer m) (err m) (diff m) (ready m).

Definition setTextArea (f : TextField) (m : t) : t :=
  mk (cfg m) (useAI m) (state m) (spinner m) (textInput m) f
    (commitMsg m) (renderedMsg m) (renderer m) (err m) (diff m) (ready m).

Definition setMessage (msg rendered : string) (m : t) : t :=
  mk (cfg m) (useAI m) (state m) (spinner m) (textInput m) (textArea m)
    msg rendered (renderer m) (err m) (diff m) (ready m).

Definition setRenderer (r : option Renderer) (m : t) : t :=
  mk (cfg m) (useAI m) (state m) (spinner m) (textInput m) (textArea m)
    (commitMsg m) (renderedMsg m) r (err m) (diff m) (ready m).

Definition setErr (e : error) (m : t) : t :=
  mk (cfg m) (useAI m) (state m) (spinner m) (textInput m) (textArea m)
    (commitMsg m) (renderedMsg m) (renderer m) e (diff m) (ready m).

Definition setReady (d : string) (m : t) : t :=
  mk (cfg m) (useAI m) (state m) (spinner m) (textInput m) (textArea m)
    (commitMsg m) (renderedMsg m) (renderer m) (err m) d true.

Definition renderMessage (m : t) (msg : string) : string :=
  match renderer m with
  | None => msg
  | Some r =>
      match glamour_Render r msg with
      | (_, Some _) => msg
      | (out, None) => out
      end
  end.

Definition submitForm (m : t) : t * Cmd :=
  let title := gostrings.TrimSpace (Value (textInput m)) in
  if String.eqb title "" then (m, nilCmd)
  else
    let body := gostrings.TrimSpace (Value (textArea m)) in
    let msg :=
      if negb (String.eqb body "")
      then title +:+ NL +:+ NL +:+ body
      else title in
    (setState commitStateConfirm (setMessage msg (renderMessage m msg) m),
     nilCmd).

(** [fmt.Sprintf("Error: %v", m.err)]; a nil error prints as [<nil>]. *)
Definition errorText (e : error) : string :=
  "Error: " +:+ default "<nil>" e.

Definition handleEnter (m : t) : t * Cmd :=
  match state m with
  | commitStateNoChanges =>
      (m, Emit (ReturnToMenuMsg "No staged changes to commit" "info"))
  | commitStateError =>
      (m, Emit (ReturnToMenuMsg (errorText (err m)) "error"))
  | _ => (m, nilCmd)
  end.

Definition isState (s : commitState) (m : t) : bool :=
  match s, state m with
  | commitStateInput, commitStateInput
  | commitStateGenerating, commitStateGenerating
  | commitStateConfirm, commitStateConfirm
  | commitStateCommitting, commitStateCommitting
  | commitStateDone, commitStateDone
  | commitStateNoChanges, commitStateNoChanges
  | commitStateError, commitStateError => true
  | _, _ => false
  end.

(** The end of [Update]: the text fields see the message in the input
    state. *)
Definition updateInputs (m : t) (msg : Msg) : t * Cmd :=
  if isState commitStateInput m then
    if Focused (textInput m)
    then let (f, cmd) := textinput_Update (textInput m) msg in
         (setTextInput f m, LibCmd cmd)
    else let (f, cmd) := textarea_Update (textArea m) msg in
         (setTextArea f m, LibCmd cmd)
  else (m, nilCmd).

Definition keyIn (key : string) (keys : list string) : bool :=
  existsb (String.eqb key) keys.

(** The "e" case of the confirmation step. *)
Definition editMessage (m : t) : t :=
  let m :=
    setTextInput
      (textinput_SetValue (hd "" (gostrings.Split (commitMsg m) NL))
         (textInput m)) m in
  let m :=
    match gostrings.SplitN2 (commitMsg m) (NL +:+ NL) with
    | _ :: part :: _ => setTextArea (textarea_SetValue part (textArea m)) m
    | _ => m
    end in
  let m := setTextInput (Focus (textInput m)) m in
  setState commitStateInput m.

Definition updateKey (m : t) (key : string) : t * Cmd :=
  let msg := KeyMsg key in
  if keyIn key ["ctrl+c"; "esc"] then
    (m, Emit (ReturnToMenuMsg "Cancelled" "info"))
  else if keyIn key ["enter"] then
    if isState commitStateInput m then submitForm m else handleEnter m
  else if keyIn key ["alt+enter"] then
    if isState commitStateInput m && Focused (textArea m)
    then (setTextArea (textarea_InsertString NL (textArea m)) m, nilCmd)
    else updateInputs m msg
  else if keyIn key ["tab"] then
    let m :=
      if isState commitStateInput m && negb (useAI m) then
        if Focused (textInput m)
        then setTextArea (Focus (textArea m))
               (setTextInput (Blur (textInput m)) m)
        else setTextInput (Focus (textInput m))
               (setTextArea (Blur (textArea m)) m)
      else m in
    updateInputs m msg
  else if keyIn key ["y"; "Y"] then
    if isState commitStateConfirm m
    then (setState commitStateCommitting m, Run (doCommit (commitMsg m)))
    else updateInputs m msg
  else if keyIn key ["n"; "N"] then
    if isState commitStateConfirm m
    then (m, Emit (ReturnToMenuMsg "Commit cancelled" "info"))
    else updateInputs m msg
  else if keyIn key ["e"; "E"] then
    if isState commitStateConfirm m
    then (editMessage m, LibCmd textinput_Blink)
    else updateInputs m msg
  else updateInputs m msg.

Definition Update (m : t) (msg : Msg) : t * Cmd :=
  match msg with
  | KeyMsg key => updateKey m key
  | spinner_TickMsg =>
      let (s, cmd) := spinner_Update (spinner m) msg in
      (setSpinner s m, LibCmd cmd)
  | commitReadyMsg d =>
      let m := setReady d m in
      if useAI m
      then (setState commitStateGenerating m, Run (generateMessage (diff m)))
      else (setState commitStateInput m, LibCmd textinput_Blink)
  | rendererMsg r => (setRenderer r m, nilCmd)
  | commitNoChangesMsg => (setState commitStateNoChanges m, nilCmd)
  | commitGeneratedMsg message =>
      (setState commitStateConfirm
         (setMessage message (renderMessage m message) m), nilCmd)
  | commitErrorMsg e => (setErr (Some e) (setState commitStateError m), nilCmd)
  | commitDoneMsg =>
      (setState commitStateDone m,
       Emit (ReturnToMenuMsg "Commit successful!" "success"))
  | _ => updateInputs m msg
  end.

(** The task [m.doCommit]. *)
Definition doCommit (commitMsg : string) : git.IO Msg :=
  e ← git.Commit commitMsg;
  match e with
  | Some text => mret (commitErrorMsg text)
  | None => mret commitDoneMsg
  end.

End Flow.
End CommitModel.

(** *** The publish flow *)

Inductive publishState :=
| publishStateInit | publishStateCheckRepo | publishStateForm
| publishStateConfirm | publishStateWorking | publishStateDone
| publishStateError.

Module PublishModel.
Section Flow.
Context `{Widgets}.

(** The five variables bound to the form ([repoName], [description],
    [visibility], [commitMsg], [addTag]) are kept together in [fields]. *)
Record t := mk {
  cfg : config.Config;
  state : publishState;
  spinner : Spinner;
  form : option Form;
  fields : PublishFields;
  tagName : string;
  hasRemote : bool;
  branch : string;
  err : error;
  repoURL : string;
  nameInput : TextField;
  descInput : TextField;
  tagInput : TextField
}.

Definition NewPublishModel (cfg : config.Config) : t :=
  let defaultName := git_GetRepoName in
  mk cfg publishStateInit spinner_New None
    (mkPublishFields "" ""
       (config.DefaultVisibility (config.GitHub cfg)) "" false)
    "" false "" None ""
    (mkField defaultName true) (mkField "" false) (mkField "" false).

Definition Init (m : t) : t * Cmd :=
  (m, Batch [LibCmd (spinner_Tick (spinner m)); Run checkRepo]).

Definition setState (s : publishState) (m : t) : t :=
  mk (cfg m) s (spinner m) (form m) (fields m) (tagName m) (hasRemote m)
    (branch m) (err m) (repoURL m) (nameInput m) (descInput m) (tagInput m).

Definition setForm (f : option Form) (b : PublishFields) (m : t) : t :=
  mk (cfg m) (state m) (spinner m) f b (tagName m) (hasRemote m)
    (branch m) (err m) (repoURL m) (nameInput m) (descInput m) (tagInput m).

Definition initForm (m : t) : t * Cmd :=
  let defaultName := git_GetRepoName in
  let f := publishForm defaultName in
  let b := fields m in
  let repoName :=
    if String.eqb (pf_repoName b) "" then defaultName else pf_repoName b in
  let commitMsg :=
    if String.eqb (pf_commitMsg b) "" then "Initial commit"
    else pf_commitMsg b in
  (setForm (Some f)
     (mkPublishFields repoName (pf_description b) (pf_visibility b)
        commitMsg (pf_addTag b)) m,
   LibCmd (form_Init f)).

Definition errorText (e : error) : string :=
  "Error: " +:+ default "<nil>" e.

Definition handleEnter (m : t) : t * Cmd :=
  match state m with
  | publishStateConfirm =>
      (setState publishStateWorking m,
       Run (doPublish (fields m) (tagName m)))
  | publishStateError =>
      (m, Emit (ReturnToMenuMsg (errorText (err m)) "error"))
  | publishStateDone =>
      (m, Emit (ReturnToMenuMsg ("Published to " +:+ repoURL m) "success"))
  | _ => (m, nilCmd)
  end.

Definition updateForm (m : t) (msg : Msg) : t * Cmd :=
  match state m, form m with
  | publishStateForm, Some f =>
      let '(f, b, cmd) := publish_Update f (fields m) msg in
      let m := setForm (Some f) b m in
      match form_State f with
      | StateCompleted => (setState publishStateConfirm m, nilCmd)
      | _ => (m, LibCmd cmd)
      end
  | _, _ => (m, nilCmd)
  end.

Definition inForm (m : t) : bool :=
  match state m with publishStateForm => true | _ => false end.

Definition Update (m : t) (msg : Msg) : t * Cmd :=
  match msg with
  | KeyMsg key =>
      if isCancelKey key then (m, Emit (ReturnToMenuMsg "" ""))
      else if String.eqb key "enter" && negb (inForm m) then handleEnter m
      else updateForm m msg
  | spinner_TickMsg =>
      let (s, cmd) := spinner_Update (spinner m) msg in
      (mk (cfg m) (state m) s (form m) (fields m) (tagName m)
         (hasRemote m) (branch m) (err m) (repoURL m) (nameInput m)
         (descInput m) (tagInput m), LibCmd cmd)
  | publishRepoCheckedMsg br remote =>
      let m :=
        mk (cfg m) (state m) (spinner m) (form m) (fields m) (tagName m)
          remote br (err m) (repoURL m) (nameInput m) (descInput m)
          (tagInput m) in
      if remote
      then (setState publishStateWorking m, Run (pushToRemote (branch m)))
      else initForm (setState publishStateForm m)
  | publishErrorMsg e =>
      (mk (cfg m) publishStateError (spinner m) (form m) (fields m)
         (tagName m) (hasRemote m) (branch m) (Some e) (repoURL m)
         (nameInput m) (descInput m) (tagInput m), nilCmd)
  | publishDoneMsg url =>
      (mk (cfg m) publishStateDone (spinner m) (form m) (fields m)
         (tagName m) (hasRemote m) (branch m) (err m) url
         (nameInput m) (descInput m) (tagInput m),
       Emit (ReturnToMenuMsg ("Published to " +:+ url) "success"))
  | _ => updateForm m msg
  end.

End Flow.
End PublishModel.

(** *** The menu controller *)

Section Menu.
Context `{Widgets} `{git.Host}.

(** The dynamic type of [subModel], a [tea.Model]: one of the flows. *)
Inductive SubModel :=
| SubReset (m : ResetModel.t)
| SubRollback (m : RollbackModel.t)
| SubRelease (m : ReleaseModel.t)
| SubCommit (m : CommitModel.t)
| SubPublish (m : PublishModel.t).

Definition subUpdate (s : SubModel) (msg : Msg) : SubModel * Cmd :=
  match s with
  | SubReset m => let (m, c) := ResetModel.Update m msg in (SubReset m, c)
  | SubRollback m =>
      let (m, c) := RollbackModel.Update m msg in (SubRollback m, c)
  | SubRelease m => let (m, c) := ReleaseModel.Update m msg in (SubRelease m, c)
  | SubCommit m => let (m, c) := CommitModel.Update m msg in (SubCommit m, c)
  | SubPublish m => let (m, c) := PublishModel.Update m msg in (SubPublish m, c)
  end.

Record Model := mkModel {
  menuList : ListModel;   (* the field [list] *)
  items : list menuItem;
  cfg : config.Config;
  status : option git.Status;
  spinner : Spinner;
  loading : bool;
  message : string;
  msgType : string;
  width : Z;
  height : Z;
  quitting : bool;
  subModel : option SubModel;
  inSubView : bool
}.

Definition menuItems : list menuItem :=
  [ mkItem IconAdd "Stage All" "git add ." "a" ActionAdd;
    mkItem IconCommit "Commit" "Commit with message" "c" ActionCommit;
    mkItem IconAI "AI Commit" "Generate commit message with AI" "i"
      ActionAICommit;
    mkItem IconPush "Push" "Push to remote" "p" ActionPush;
    mkItem IconPull "Pull" "Pull from remote" "l" ActionPull;
    mkItem IconReset "Reset" "Reset changes (hard)" "r" ActionReset;
    mkItem IconPublish "Publish" "Publish to GitHub" "u" ActionPublish;
    mkItem IconOpen "Open Repo" "Open repo in browser" "o" ActionOpen;
    mkItem IconLazygit "Lazygit" "Open lazygit" "g" ActionLazygit;
    mkItem IconBranch "Branches" "View branches" "b" ActionBranches;
    mkItem IconQuit "Quit" "Exit gitty" "q" ActionQuit ].

Definition NewModel (cfg : config.Config) : Model :=
  let items := menuItems in
  mkModel (list_New items) items cfg None spinner_New false "" "" 80 24
    false None false.

Definition Init (m : Model) : Cmd :=
  Batch [LibCmd (spinner_Tick (spinner m)); Run refreshStatus].

Definition clearMessageAfter : Cmd := Tick 3 clearMsgMsg.

Definition setQuitting (m : Model) : Model :=
  mkModel (menuList m) (items m) (cfg m) (status m) (spinner m) (loading m)
    (message m) (msgType m) (width m) (height m) true (subModel m)
    (inSubView m).

Definition setLoading (b : bool) (m : Model) : Model :=
  mkModel (menuList m) (items m) (cfg m) (status m) (spinner m) b
    (message m) (msgType m) (width m) (height m) (quitting m) (subModel m)
    (inSubView m).

Definition setMessage (text type : string) (m : Model) : Model :=
  mkModel (menuList m) (items m) (cfg m) (status m) (spinner m) (loading m)
    text type (width m) (height m) (quitting m) (subModel m) (inSubView m).

Definition setSub (s : option SubModel) (active : bool) (m : Model) : Model :=
  mkModel (menuList m) (items m) (cfg m) (status m) (spinner m) (loading m)
    (message m) (msgType m) (width m) (height m) (quitting m) s active.

Definition setList (l : ListModel) (m : Model) : Model :=
  mkModel l (items m) (cfg m) (status m) (spinner m) (loading m)
    (message m) (msgType m) (width m) (height m) (quitting m) (subModel m)
    (inSubView m).

(** [m.inSubView = true; m.subModel = New...(); return m, m.subModel.Init()] *)
Definition enter {A} (wrap : A -> SubModel) (started : A * Cmd) (m : Model)
  : Model * Cmd :=
  (setSub (Some (wrap (fst started))) true m, snd started).

Definition executeAction (m : Model) (a : Action) : Model * Cmd :=
  match a with
  | ActionQuit => (setQuitting m, Quit)
  | ActionAdd | ActionPush | ActionPull | ActionOpen | ActionBranches =>
      (setLoading true m, Run (directAction a))
  | ActionReset =>
      enter SubReset (ResetModel.Init ResetModel.NewResetModel) m
  | ActionCommit =>
      enter SubCommit
        (CommitModel.Init (CommitModel.NewCommitModel (cfg m) false)) m
  | ActionAICommit =>
      enter SubCommit
        (CommitModel.Init (CommitModel.NewCommitModel (cfg m) true)) m
  | ActionPublish =>
      enter SubPublish
        (PublishModel.Init (PublishModel.NewPublishModel (cfg m))) m
  | ActionLazygit => (m, Run execLazygit)
  | ActionNone | ActionRollback => (m, nilCmd)
  end.

Definition updateList (m : Model) (msg : Msg) : Model * Cmd :=
  let (l, cmd) := list_Update (menuList m) msg in
  (setList l m, LibCmd cmd).

Definition subActive (m : Model) : bool :=
  inSubView m && bool_decide (is_Some (subModel m)).

Definition updateKey (m : Model) (key : string) : Model * Cmd :=
  if loading m then (m, nilCmd)
  else if String.eqb key "q" || String.eqb key "ctrl+c" then
    (setQuitting m, Quit)
  else if String.eqb key "enter" || String.eqb key " " then
    match list_SelectedItem (menuList m) with
    | Some item => executeAction m (action item)
    | None => updateList m (KeyMsg key)
    end
  else
    match find (fun item => String.eqb key (shortcut item)) (items m) with
    | Some item => executeAction m (action item)
    | None => updateList m (KeyMsg key)
    end.

Definition Update (m : Model) (msg : Msg) : Model * Cmd :=
  match inSubView m, subModel m with
  | true, Some sub =>
      let (sub, cmd) := subUpdate sub msg in
      let m := setSub (Some sub) (inSubView m) m in
      match msg with
      | ReturnToMenuMsg text type =>
          let m := setSub None false m in
          let m :=
            if negb (String.eqb text "") then setMessage text type m else m in
          (m, Batch [Run refreshStatus; clearMessageAfter])
      | _ => (m, cmd)
      end
  | _, _ =>
      match msg with
      | KeyMsg key => updateKey m key
      | WindowSizeMsg w h =>
          updateList
            (mkModel (menuList m) (items m) (cfg m) (status m) (spinner m)
               (loading m) (message m) (msgType m) w h (quitting m)
               (subModel m) (inSubView m)) msg
      | spinner_TickMsg =>
          let (s, cmd) := spinner_Update (spinner m) msg in
          (mkModel (menuList m) (items m) (cfg m) (status m) s (loading m)
             (message m) (msgType m) (width m) (height m) (quitting m)
             (subModel m) (inSubView m), LibCmd cmd)
      | statusMsg st _ =>
          updateList
            (mkModel (menuList m) (items m) (cfg m) st (spinner m) false
               (message m) (msgType m) (width m) (height m) (quitting m)
               (subModel m) (inSubView m)) msg
      | actionCompleteMsg success text =>
          (setMessage text (if success then "success" else "error")
             (setLoading false m),
           Batch [Run refreshStatus; clearMessageAfter])
      | clearMsgMsg => updateList (setMessage "" "" m) msg
      | _ => updateList m msg
      end
  end.

(** The tasks whose bodies are modelled. *)
Definition perform (t : Task) : option (git.IO Msg) :=
  match t with
  | doReset => Some ResetModel.doReset
  | doRollback => Some RollbackModel.doRollback
  | doRelease tagName message => Some (ReleaseModel.doRelease tagName message)
  | doCommit commitMsg => Some (CommitModel.doCommit commitMsg)
  | _ => None
  end.

(** The states of the menu controller that a run of the program visits. *)
Inductive reachable : Model -> Prop :=
| reach_start (cfg : config.Config) : reachable (NewModel cfg)
| reach_update (m : Model) (msg : Msg) :
    reachable m -> reachable (fst (Update m msg)).

Definition isRollbackOrRelease (s : SubModel) : bool :=
  match s with
  | SubRollback _ | SubRelease _ => true
  | _ => false
  end.

Definition flowsOfTheMenu (s : option SubModel) : Prop :=
  match s with
  | Some sub => isRollbackOrRelease sub = false
  | None => True
  end.

End Menu.

(** *** Runs of the flows *)

Section Runs.
Context `{Widgets} `{git.Host}.

(** The publish models that a run visits. *)
Inductive publishRuns : PublishModel.t -> Prop :=
| publish_new (cfg : config.Config) :
    publishRuns (PublishModel.NewPublishModel cfg)
| publish_update (m : PublishModel.t) (msg : Msg) :
    publishRuns m -> publishRuns (fst (PublishModel.Update m msg)).

(** A flow whose command is in flight. *)
Definition working (s : SubModel) : bool :=
  match s with
  | SubReset m =>
      match ResetModel.state m with resetStateWorking => true | _ => false end
  | SubRollback m =>
      match RollbackModel.state m with
      | rollbackStateWorking => true
      | _ => false
      end
  | SubRelease m =>
      match ReleaseModel.state m with
      | releaseStateWorking => true
      | _ => false
      end
  | SubCommit m =>
      match CommitModel.state m with
      | commitStateGenerating | commitStateCommitting => true
      | _ => false
      end
  | SubPublish m =>
      match PublishModel.state m with
      | publishStateWorking => true
      | _ => false
      end
  end.

End Runs.

(** *** The bodies of the tasks

    The closures and method values that [Update] returns as [Run t],
    other than those given with their flows above. *)

Module task.
Section Bodies.
Context `{git.Shell} `{git.Fmt}.

(** [fmt.Sprintf(format + ": %v", err)] on a non-nil error. *)
Definition failed (what : string) (e : string) : Msg :=
  actionCompleteMsg false (what +:+ ": " +:+ e).

(** [Model.refreshStatus] *)
Definition refreshStatus : git.IO Msg :=
  r ← git.GetStatus;
  match snd r with
  | Some e => mret (statusMsg None (Some e))
  | None => mret (statusMsg (Some (fst r)) None)
  end.

(** The closures of [executeAction] for the direct actions. *)
Definition direct (a : Action) : option (git.IO Msg) :=
  match a with
  | ActionAdd =>
      Some (e ← git.AddAll;
            match e with
            | Some t => mret (failed "Failed to add" t)
            | None => mret (actionCompleteMsg true "All files staged")
            end)
  | ActionPush =>
      Some (e ← git.Push;
            match e with
            | Some t => mret (failed "Push failed" t)
            | None => mret (actionCompleteMsg true "Pushed to remote")
            end)
  | ActionPull =>
      Some (e ← git.Pull;
            match e with
            | Some t => mret (failed "Pull failed" t)
            | None => mret (actionCompleteMsg true "Pulled from remote")
            end)
  | ActionOpen =>
      Some (u ← git.GetGitHubURL;
            match snd u with
            | Some t => mret (failed "Not a GitHub repo" t)
            | None =>
                e ← git.OpenBrowser (fst u);
                match e with
                | Some t => mret (failed "Failed to open" t)
                | None => mret (actionCompleteMsg true "Opened in browser")
                end
            end)
  | ActionBranches =>
      Some (r ← git.GetBranches;
            match snd r with
            | Some t => mret (failed "Failed to get branches" t)
            | None =>
                mret (actionCompleteMsg true
                        ("Branches: " +:+ gostrings.Join (fst r) ", "))
            end)
  | _ => None
  end.

(** [tea.ExecProcess(exec.Command("lazygit"), ...)]: the program runs
    to its end, then the callback builds the message. *)
Definition execLazygit : git.IO Msg :=
  e ← git.Run ["lazygit"];
  match e with
  | Some t => mret (failed "Lazygit error" t)
  | None => mret (actionCompleteMsg true "")
  end.

(** [CommitModel.checkStatusAsync] *)
Definition checkStatusAsync (useAI : bool) : git.IO Msg :=
  staged ← git.HasStagedChanges;
  if negb staged then mret commitNoChangesMsg
  else if negb useAI then mret (commitReadyMsg "")
  else
    r ← git.GetDiff;
    match snd r with
    | Some e => mret (commitErrorMsg e)
    | None => mret (commitReadyMsg (fst r))
    end.

(** [PublishModel.checkRepo] *)
Definition checkRepo : git.IO Msg :=
  repo ← git.IsRepo';
  e ← (if negb repo then git.Init else mret None);
  match e with
  | Some t => mret (publishErrorMsg ("failed to initialize git: " +:+ t))
  | None =>
      b ← git.GetBranch;
      let branch := if String.eqb (fst b) "" then "main" else fst b in
      hasRemote ← git.HasRemote "origin";
      mret (publishRepoCheckedMsg branch hasRemote)
  end.

(** [PublishModel.pushToRemote], on the branch of the model. *)
Definition pushToRemote (branch : string) : git.IO Msg :=
  r ← git.GetStatus;
  let status := fst r in
  _ ← (if git.HasUnstaged status || git.HasUntracked status
       then _ ← git.AddAll; git.Commit "Update"
       else mret None);
  e ← git.PushWithUpstream "origin" branch;
  match e with
  | Some t => mret (publishErrorMsg t)
  | None => u ← git.GetGitHubURL; mret (publishDoneMsg (fst u))
  end.

Definition ghArgs (fields : PublishFields) : list string :=
  ["repo"; "create"; pf_repoName fields; "--" +:+ pf_visibility fields;
   "--source=."; "--remote=origin"; "--push"]
  ++ (if negb (String.eqb (pf_description fields) "")
      then ["--description=" +:+ pf_description fields] else []).

(** [PublishModel.doPublish], on the configuration, the form fields and
    the tag name of the model. *)
Definition doPublish
    (cfg : config.Config) (fields : PublishFields) (tagName : string)
  : git.IO Msg :=
  let user := config.Git cfg in
  _ ← (if negb (String.eqb (config.UserName user) "")
          && negb (String.eqb (config.UserEmail user) "")
       then git.SetUser (config.UserName user) (config.UserEmail user)
       else mret None);
  e ← git.AddAll;
  match e with
  | Some t => mret (publishErrorMsg ("failed to stage changes: " +:+ t))
  | None =>
      r ← git.GetStatus;
      e ← (if git.HasStaged (fst r) then git.Commit (pf_commitMsg fields)
           else mret None);
      match e with
      | Some t => mret (publishErrorMsg ("failed to commit: " +:+ t))
      | None =>
          _ ← (if pf_addTag fields && negb (String.eqb tagName "")
               then git.Tag tagName else mret None);
          out ← git.CombinedOutput ("gh" :: ghArgs fields);
          match snd out with
          | Some t =>
              mret (publishErrorMsg
                      ("gh cli error: " +:+ fst out +:+ " - " +:+ t))
          | None =>
              u ← git.GetGitHubURL;
              if String.eqb (fst u) "" then
                user ← git.Getenv "GITHUB_USER";
                let user := if String.eqb user "" then "user" else user in
                mret (publishDoneMsg
                        ("https://github.com/" +:+ user +:+ "/"
                         +:+ pf_repoName fields))
              else mret (publishDoneMsg (fst u))
          end
      end
  end.

End Bodies.

(** [CommitModel.generateMessage]; [None] when the call panics. *)
Definition generateMessage `{ai.Http}
    (diff : string) (cfg : config.Config) (w : ai.Wire)
  : option Msg * ai.Wire :=
  match ai.GenerateCommitMessage diff cfg w with
  | (Some (_, Some e), w) => (Some (commitErrorMsg e), w)
  | (Some (msg, None), w) => (Some (commitGeneratedMsg msg), w)
  | (None, w) => (None, w)
  end.

End task.

End ui.

(* ===================================================================== *)
(** ** The two programs

    The repository holds two [main] functions: the one of
    [unnamed/part_003] checks the dependencies first, the one of
    [unnamed/part_004] does not.  A run of [main] is followed up to the
    call of [tea.NewProgram(model).Run()]; before it, [main] can only
    print one line and call [os.Exit(1)]. *)
(* ===================================================================== *)

Module styles.

(** [Icons.Cross]: U+F00D, on three bytes. *)
Definition Cross : string :=
  String "239" (String "128" (String "141" EmptyString)).

End styles.

Module program.
Section Main.
Context `{ui.Widgets} `{git.Host}.

Inductive outcome :=
| Exit (status : Z) (printed : string)
| RunProgram (model : ui.Model).

(** The end of both [main]: an error of [p.Run()] is printed, and the
    program exits with status 1; otherwise [main] returns. *)
Definition afterRun (err : error) : Z * string :=
  match err with
  | Some e => (1, styles.Cross +:+ " Error: " +:+ e +:+ NL)
  | None => (0, EmptyString)
  end.

End Main.
End program.

Module part_004.
Section Main.
Context `{ui.Widgets} `{git.Host} `{config.Yaml}.

Definition main (os : config.OS) : program.outcome * config.OS :=
  match config.EnsureConfig os with
  | ((_, Some e), os) =>
      (program.Exit 1
         (styles.Cross +:+ " Failed to load config: " +:+ e +:+ NL), os)
  | ((cfg, None), os) => (program.RunProgram (ui.NewModel cfg), os)
  end.

End Main.
End part_004.

Module part_003.
Section Main.
Context `{ui.Widgets} `{git.Shell} `{git.Fmt} `{config.Yaml}.

(** The loop over [missing] stops at the first required entry. *)
Definition main (s : git.Sys) (os : config.OS)
  : program.outcome * git.Sys * config.OS :=
  let (missing, s) := git.CheckDeps s in
  match find (fun m => gostrings.Contains m "(required)") missing with
  | Some m =>
      (program.Exit 1
         (styles.Cross +:+ " Missing dependency: " +:+ m +:+ NL), s, os)
  | None =>
      match config.EnsureConfig os with
      | ((_, Some e), os) =>
          (program.Exit 1
             (styles.Cross +:+ " Failed to load config: " +:+ e +:+ NL),
           s, os)
      | ((cfg, None), os) => (program.RunProgram (ui.NewModel cfg), s, os)
      end
  end.

End Main.
End part_003.

(* ===================================================================== *)
(** ** The event loop, as far as timers go *)
(* ===================================================================== *)

(** Bubble Tea delivers one message at a time to [Update].  A
    [tea.Tick d] returned by [Update] makes the loop deliver its message
    [d] seconds later.  The messages of the other commands are produced
    by external work and enter a run as events. *)

Module loop.
Section Loop.
Context `{ui.Widgets} `{git.Host}.


Record t := mk {
  now : nat;                          (* seconds since the start *)
  model : ui.Model;
  timers : list (nat * ui.Msg)        (* due time and message, oldest first *)
}.









End Loop.
End loop.

(* ===================================================================== *)
(** ** A scripted environment

    A concrete host, YAML codec and widget set, on which the flows can be
    run: forms are answered by the keys "y" and "n", the list keeps a
    cursor, the title field keeps 200 bytes, commands fail when the host
    lists them as failing. *)
(* ===================================================================== *)

Module scripted.

(** The world is the list of the commands that fail, with their output. *)
Definition host : git.Host := {|
  git.World := list (list string * string);
  git.exec_Command argv w :=
    match find (fun p => bool_decide (fst p = argv)) w with
    | Some p => ((snd p, Some "exit status 1"), w)
    | None => (("", None), w)
    end
|}.

Definition yaml : config.Yaml := {|
  config.Marshal cfg := ("# gitty configuration", None);
  config.Unmarshal data cfg :=
    if String.prefix "{" data then (cfg, Some "yaml: did not find expected node")
    else (cfg, None)
|}.

Definition answer (f : ui.FormState) (msg : ui.Msg) : ui.FormState * bool :=
  match msg with
  | ui.KeyMsg key =>
      if String.eqb key "y" then (ui.StateCompleted, true)
      else if String.eqb key "n" then (ui.StateCompleted, false)
      else (f, false)
  | _ => (f, false)
  end.

Definition widgets : ui.Widgets := {|
  ui.Spinner := nat;
  ui.spinner_New := 0%nat;
  ui.spinner_Tick _ := 1%nat;
  ui.spinner_Update s _ := (S s, 1%nat);
  ui.Form := ui.FormState;
  ui.resetForm := ui.StateNormal;
  ui.rollbackForm := ui.StateNormal;
  ui.releaseForm := ui.StateNormal;
  ui.publishForm _ := ui.StateNormal;
  ui.form_Init _ := 2%nat;
  ui.form_State f := f;
  ui.confirm_Update f b msg :=
    let (f', yes) := answer f msg in
    (f', match f' with ui.StateCompleted => yes | _ => b end, 0%nat);
  ui.release_Update f b msg :=
    let (f', yes) := answer f msg in
    (f',
     match f' with
     | ui.StateCompleted =>
         ui.mkReleaseFields "v1.0.0" (ui.rf_message b) yes
     | _ => b
     end, 0%nat);
  ui.publish_Update f b msg := (fst (answer f msg), b, 0%nat);
  ui.textinput_Blink := 3%nat;
  ui.textinput_Update f _ := (f, 0%nat);
  ui.textarea_Update f _ := (f, 0%nat);
  ui.textarea_InsertString s f := ui.mkField (ui.Value f +:+ s) (ui.Focused f);
  ui.textinput_SetValue s f := ui.mkField (gostrings.take 200 s) (ui.Focused f);
  ui.textarea_SetValue s f := ui.mkField s (ui.Focused f);
  ui.ListModel := nat;
  ui.list_New _ := 0%nat;
  ui.list_SelectedItem i := ui.menuItems !! i;
  ui.list_Update i msg :=
    match msg with
    | ui.KeyMsg key =>
        if String.eqb key "down" then (S i, 0%nat)
        else if String.eqb key "up" then (pred i, 0%nat)
        else (i, 0%nat)
    | _ => (i, 0%nat)
    end;
  ui.glamour_Render _ s := (s, None);
  ui.git_GetRepoName := "gitty"
|}.

#[local] Existing Instance host.
#[local] Existing Instance yaml.
#[local] Existing Instance widgets.

(** The menu at start. *)
Definition menu : ui.Model := ui.NewModel config.DefaultConfig.

(** A manual commit with the title and the body typed in. *)
Definition typed : ui.CommitModel.t :=
  ui.CommitModel.setTextArea (ui.mkField "- detail" false)
    (ui.CommitModel.setTextInput (ui.mkField "fix bug" true)
       (fst (ui.CommitModel.Update
               (ui.CommitModel.NewCommitModel config.DefaultConfig false)
               (ui.commitReadyMsg "")))).

(** A generated message whose first paragraph has two lines. *)
Definition generatedMsg : string :=
  "feat: add menu" +:+ NL +:+ "and shortcuts" +:+ NL +:+ NL +:+ "- list".

(** A host without configuration file, with the API key in the
    environment; the same with a configuration file that cannot be read. *)
Definition freshHome : config.OS :=
  config.mkOS (Some "/home/dev") ∅ {[ "OPENAI_API_KEY" := "sk-test" ]}
    None None.

Definition lockedHome : config.OS :=
  config.mkOS (Some "/home/dev")
    {[ "/home/dev/.config/gitty/config.yaml" := config.Unreadable ]}
    {[ "OPENAI_API_KEY" := "sk-test" ]} None None.

(** The reset flow after "r" at the menu and "y" on the form. *)
Definition resetting : ui.Model :=
  fst (ui.Update (fst (ui.Update menu (ui.KeyMsg "r"))) (ui.KeyMsg "y")).

(** Its reset model: confirmed, at work. *)
Definition resetWorking : ui.ResetModel.t :=
  @ui.ResetModel.mk widgets ui.resetStateWorking 0%nat
    (Some ui.StateCompleted) true None.

(** A host on which the tag v1.0.0 exists already. *)
Definition tagExists : git.Sys :=
  git.mkSys
    [(["git"; "tag"; "v1.0.0"], "fatal: tag 'v1.0.0' already exists")] [].

(** The answers of the scripted host to the queries: a clone of the
    repository on GitHub, on the branch main, two commits ahead and one
    behind, with one modified and one untracked file; git, gh and
    xdg-open are installed. *)
Definition canned (argv : list string) : string :=
  if bool_decide (argv = ["git"; "branch"; "--show-current"])
  then "main" +:+ NL
  else if bool_decide (argv = ["git"; "remote"; "get-url"; "origin"])
  then "git@github.com:0mykull/gitty.git" +:+ NL
  else if bool_decide (argv = ["git"; "status"; "--porcelain"])
  then " M menu.go" +:+ NL +:+ "?? notes.txt" +:+ NL
  else if bool_decide (argv = ["git"; "branch"; "-a"])
  then "* main" +:+ NL +:+ "  dev" +:+ NL
  else if bool_decide
            (argv = ["git"; "rev-list"; "--left-right"; "--count";
                     "HEAD...@{upstream}"])
  then "2" +:+ String "009" ("1" +:+ NL)
  else "".

Definition failing (argv : list string) (w : list (list string * string))
  : bool :=
  bool_decide (is_Some (find (fun p => bool_decide (fst p = argv)) w)).

Definition shell : git.Shell := {|
  git.exec_Output argv w :=
    if failing argv w then (("", Some "exit status 128"), w)
    else ((canned argv, None), w);
  git.exec_Start argv w :=
    if failing argv w then (Some "exec: not started", w) else (None, w);
  git.os_Getenv key w := "";
  git.exec_LookPath file w :=
    bool_decide (file ∈ ["git"; "gh"; "xdg-open"])
|}.

Fixpoint digitsValue (acc : Z) (s : string) : Z :=
  match s with
  | EmptyString => acc
  | String c s' =>
      let d := Z.of_N (N_of_ascii c) - 48 in
      if (0 <=? d) && (d <=? 9) then digitsValue (10 * acc + d) s' else acc
  end.

(** Decimal digits only. *)
Definition fmt : git.Fmt := {|
  git.Sscanf_d s :=
    match s with
    | EmptyString => None
    | String c _ =>
        let d := Z.of_N (N_of_ascii c) - 48 in
        if (0 <=? d) && (d <=? 9) then Some (digitsValue 0 s) else None
    end
|}.

(** A network that answers from a list of replies; a reply body is the
    text of the one choice. *)
Definition http : ai.Http := {|
  ai.Net := list (ai.Response + string);
  ai.client_Do req n :=
    match n with
    | [] => (inr "dial tcp: no route to host", [])
    | r :: rest => (r, rest)
    end;
  ai.json_openAI payload :=
    if String.eqb payload "" then inr "unexpected end of JSON input"
    else inl (ai.mkOpenAIResponse [ai.mkOpenAIMessage "assistant" payload]
                None);
  ai.json_anthropic payload :=
    if String.eqb payload "" then inr "unexpected end of JSON input"
    else inl (ai.mkAnthropicResponse [payload] None)
|}.

#[local] Existing Instance shell.
#[local] Existing Instance fmt.
#[local] Existing Instance http.

(** A host on which nothing fails, and one outside any repository. *)
Definition clone : git.Sys := git.mkSys [] [].

Definition noRepo : git.Sys :=
  git.mkSys [(["git"; "rev-parse"; "--is-inside-work-tree"], "")] [].

(** A configuration with an API key. *)
Definition keyed : config.Config :=
  config.setAPIKey "sk-test" config.DefaultConfig.

(** A home whose configuration file does not parse, and the same on a
    disk that cannot be written. *)
Definition brokenHome : config.OS :=
  config.mkOS (Some "/home/dev")
    {[ "/home/dev/.config/gitty/config.yaml" := config.Readable "{ai:" ]}
    ∅ None None.

Definition readOnlyHome : config.OS :=
  config.mkOS (Some "/home/dev")
    {[ "/home/dev/.config/gitty/config.yaml" := config.Readable "{ai:" ]}
    ∅ None (Some "read-only file system").

(** A host on which staging fails, and one on which the work tree
    cannot be listed. *)
Definition addFails : git.Sys :=
  git.mkSys [(["git"; "add"; "."], "fatal: index.lock exists")] [].

Definition unlisted : git.Sys :=
  git.mkSys [(["git"; "status"; "--porcelain"], "")] [].

(** The publish flow at its confirmation step: no remote was found and
    the form was completed. *)
Definition confirming : ui.PublishModel.t :=
  fst (ui.PublishModel.Update
         (fst (ui.PublishModel.Update
                 (ui.PublishModel.NewPublishModel config.DefaultConfig)
                 (ui.publishRepoCheckedMsg "main" false)))
         (ui.KeyMsg "y")).

End scripted.

(* ===================================================================== *)
(** * Properties *)
(* ===================================================================== *)

(** ** Strings *)

Lemma prefix_cons (a b : ascii) (s1 s2 : string) :
  String.prefix (String a s1) (String b s2) =
    if ascii_dec a b then String.prefix s1 s2 else false.
Proof. reflexivity. Qed.

Lemma prefix_empty (s : string) : String.prefix EmptyString s = true.
Proof. destruct s; reflexivity. Qed.

Lemma prefix_NL (s : string) :
  String.prefix NL s =
    match s with String c _ => Ascii.eqb c LF | _ => false end.
Proof.
  destruct s as [|c s]; [reflexivity|].
  unfold NL. rewrite prefix_cons.
  destruct (ascii_dec LF c) as [<-|Hne].
  - rewrite Ascii.eqb_refl. apply prefix_empty.
  - symmetry. apply Ascii.eqb_neq. congruence.
Qed.

Lemma prefix_NLNL (s : string) :
  String.prefix (NL +:+ NL) s =
    match s with
    | String c (String d _) => Ascii.eqb c LF && Ascii.eqb d LF
    | _ => false
    end.
Proof.
  destruct s as [|c s]; [reflexivity|].
  change (NL +:+ NL) with (String LF NL). rewrite prefix_cons.
  destruct (ascii_dec LF c) as [<-|Hne].
  - rewrite Ascii.eqb_refl, prefix_NL. destruct s; reflexivity.
  - replace (Ascii.eqb c LF) with false
      by (symmetry; apply Ascii.eqb_neq; congruence).
    destruct s; reflexivity.
Qed.

Lemma Cut_unfold (s sep : string) :
  gostrings.Cut s sep =
    if String.prefix sep s then Some (EmptyString, gostrings.drop (String.length sep) s)
    else match s with
         | EmptyString => None
         | String c s' =>
             match gostrings.Cut s' sep with
             | Some (before, after) => Some (String c before, after)
             | None => None
             end
         end.
Proof. destruct s; reflexivity. Qed.

Lemma Cut_line (t rest : string) :
  oneLine t = true -> gostrings.Cut (t +:+ NL +:+ rest) NL = Some (t, rest).
Proof.
  induction t as [|c t IH]; intros Hl.
  - change (EmptyString +:+ NL +:+ rest) with (String LF rest).
    rewrite Cut_unfold, prefix_NL, Ascii.eqb_refl. reflexivity.
  - cbn [oneLine] in Hl. apply andb_prop in Hl as [Hc Ht].
    change (String c t +:+ NL +:+ rest) with (String c (t +:+ NL +:+ rest)).
    rewrite Cut_unfold, prefix_NL.
    rewrite (negb_true_iff _) in Hc. rewrite Hc, (IH Ht). reflexivity.
Qed.

Lemma Cut_blank_line (t rest : string) :
  oneLine t = true ->
  gostrings.Cut (t +:+ NL +:+ NL +:+ rest) (NL +:+ NL) = Some (t, rest).
Proof.
  induction t as [|c t IH]; intros Hl.
  - change (EmptyString +:+ NL +:+ NL +:+ rest) with (String LF (String LF rest)).
    rewrite Cut_unfold, prefix_NLNL, Ascii.eqb_refl. reflexivity.
  - cbn [oneLine] in Hl. apply andb_prop in Hl as [Hc Ht].
    change (String c t +:+ NL +:+ NL +:+ rest)
      with (String c (t +:+ NL +:+ NL +:+ rest)).
    rewrite Cut_unfold, prefix_NLNL.
    rewrite (negb_true_iff _) in Hc. rewrite Hc, (IH Ht).
    destruct (t +:+ NL +:+ NL +:+ rest); reflexivity.
Qed.

(** What [Cut] finds is the leftmost separator. *)
Lemma Cut_NL_Some (s a b : string) :
  gostrings.Cut s NL = Some (a, b) -> s = a +:+ NL +:+ b /\ oneLine a = true.
Proof.
  revert a b. induction s as [|c s IH]; intros a b.
  - discriminate.
  - rewrite Cut_unfold, prefix_NL.
    destruct (Ascii.eqb_spec c LF) as [->|Hne].
    + intros [= <- <-]. split; reflexivity.
    + destruct (gostrings.Cut s NL) as [[a' b']|]; [|discriminate].
      intros [= <- <-]. destruct (IH _ _ eq_refl) as [-> Ha].
      split; [reflexivity|]. cbn [oneLine]. rewrite Ha.
      apply Ascii.eqb_neq in Hne. rewrite Hne. reflexivity.
Qed.

Lemma Cut_NL_None (s : string) :
  gostrings.Cut s NL = None -> oneLine s = true.
Proof.
  induction s as [|c s IH]; [reflexivity|].
  rewrite Cut_unfold, prefix_NL.
  destruct (Ascii.eqb_spec c LF) as [->|Hne]; [discriminate|].
  destruct (gostrings.Cut s NL) as [[a' b']|]; [discriminate|].
  intros _. cbn [oneLine]. rewrite (IH eq_refl).
  apply Ascii.eqb_neq in Hne. rewrite Hne. reflexivity.
Qed.


Lemma prefix_drop (sep s : string) :
  String.prefix sep s = true ->
  s = sep +:+ gostrings.drop (String.length sep) s.
Proof.
  revert s. induction sep as [|a sep IH]; intros s Hp; [reflexivity|].
  destruct s as [|b s]; [discriminate|].
  rewrite prefix_cons in Hp. destruct (ascii_dec a b) as [<-|]; [|discriminate].
  cbn [String.length gostrings.drop].
  change (String a s = String a (sep +:+ gostrings.drop (String.length sep) s)).
  f_equal. apply IH, Hp.
Qed.

(** [Cut] takes the text apart around one occurrence of the separator. *)
Lemma Cut_Some_app (sep s a b : string) :
  gostrings.Cut s sep = Some (a, b) -> s = a +:+ sep +:+ b.
Proof.
  revert a b. induction s as [|c s IH]; intros a b; rewrite Cut_unfold;
    destruct (String.prefix sep _) eqn:Hp.
  - intros [= <- <-]. apply (prefix_drop _ _ Hp).
  - discriminate.
  - intros [= <- <-]. apply (prefix_drop _ _ Hp).
  - destruct (gostrings.Cut s sep) as [[a' b']|]; [|discriminate].
    intros [= <- <-]. change (String c s = String c (a' +:+ sep +:+ b')).
    f_equal. apply IH. reflexivity.
Qed.

Example Split_lines :
  gostrings.Split ("MM a.go" +:+ NL +:+ "?? b.go" +:+ NL) NL =
    ["MM a.go"; "?? b.go"; ""].
Proof. reflexivity. Qed.

Example TrimSpace_unicode :
  gostrings.TrimSpace
    (String "009" " fix  bug " +:+ String "194" (String "160" NL)) =
    "fix  bug".
Proof. reflexivity. Qed.

Lemma Split_first (s : string) :
  hd EmptyString (gostrings.Split s NL) =
    match gostrings.Cut s NL with Some (a, _) => a | None => s end.
Proof.
  unfold gostrings.Split. destruct s as [|c s]; [reflexivity|].
  cbn [String.length gostrings.splitFuel].
  destruct (gostrings.Cut (String c s) NL) as [[a b]|]; reflexivity.
Qed.

(** ** The status scan *)

Lemma app_singleton_ne {A} (l : list A) (a : A) : l ++ [a] <> l.
Proof.
  intros E. apply (f_equal length) in E. rewrite length_app in E.
  simpl in E. lia.
Qed.

Lemma byteIs_spec (c lit : ascii) : reflect (c = lit) (git.byteIs c lit).
Proof. unfold git.byteIs. apply Ascii.eqb_spec. Qed.

(** A line of fewer than three bytes is skipped. *)
Lemma scanLine_short (st : git.Status) (line : string) :
  (String.length line < 3)%nat -> git.scanLine st line = st.
Proof.
  destruct line as [|x [|y [|c rest]]]; cbn [String.length]; intros Hlen;
    first [reflexivity | lia].
Qed.

Example scanPorcelain_output :
  let st :=
    git.scanPorcelain git.emptyStatus
      ("MM a.go" +:+ NL +:+ "?? new file.txt" +:+ NL +:+ " M b.go" +:+ NL
       +:+ "A  c.go" +:+ NL) in
  git.StagedFiles st = ["a.go"; "c.go"] /\
  git.ModifiedFiles st = ["a.go"; "b.go"] /\
  git.UntrackedFiles st = ["new file.txt"] /\
  (git.HasStaged st, git.HasUnstaged st, git.HasUntracked st) =
    (true, true, true).
Proof. vm_compute. repeat split. Qed.

(** The body of the loop on one record: with index byte [x] and
    worktree byte [y], the file is appended to the staged files iff [x]
    is neither a space nor '?', to the modified files iff [y] is neither
    a space nor '?', and to the untracked files iff both are '?', in
    which case it is appended to nothing else; the three flags follow;
    the record "MM main.go" is both staged and modified. *)
Lemma scanLine_classification :
  forall (st : git.Status) (x y c : ascii) (rest : string),
    let file := gostrings.TrimSpace rest in
    let st' := git.scanLine st (String x (String y (String c rest))) in
    (* staged *)
    ((x <> " "%char /\ x <> "?"%char) <->
       git.StagedFiles st' = git.StagedFiles st ++ [file]) /\
    (git.StagedFiles st' = git.StagedFiles st ++ [file] \/
     git.StagedFiles st' = git.StagedFiles st) /\
    (* modified *)
    ((y <> " "%char /\ y <> "?"%char) <->
       git.ModifiedFiles st' = git.ModifiedFiles st ++ [file]) /\
    (git.ModifiedFiles st' = git.ModifiedFiles st ++ [file] \/
     git.ModifiedFiles st' = git.ModifiedFiles st) /\
    (* untracked, and then nothing else *)
    ((x = "?"%char /\ y = "?"%char) <->
       git.UntrackedFiles st' = git.UntrackedFiles st ++ [file]) /\
    (git.UntrackedFiles st' = git.UntrackedFiles st ++ [file] \/
     git.UntrackedFiles st' = git.UntrackedFiles st) /\
    (x = "?"%char /\ y = "?"%char ->
       git.StagedFiles st' = git.StagedFiles st /\
       git.ModifiedFiles st' = git.ModifiedFiles st) /\
    (* the flags follow the lists *)
    (git.HasStaged st' =
       git.HasStaged st || bool_decide (x <> " "%char /\ x <> "?"%char)) /\
    (git.HasUnstaged st' =
       git.HasUnstaged st || bool_decide (y <> " "%char /\ y <> "?"%char)) /\
    (git.HasUntracked st' =
       git.HasUntracked st || bool_decide (x = "?"%char /\ y = "?"%char)) /\
    (* both at once *)
    (let both := git.scanLine git.emptyStatus "MM main.go" in
     git.StagedFiles both = ["main.go"] /\
     git.ModifiedFiles both = ["main.go"] /\
     git.UntrackedFiles both = []).
Proof.
  intros st x y c rest file st'. subst st'. unfold git.scanLine.
  fold file.
  destruct (byteIs_spec x " "), (byteIs_spec x "?"),
    (byteIs_spec y " "), (byteIs_spec y "?"); subst; simpl;
    repeat (rewrite ?orb_true_r, ?orb_false_r;
       match goal with
      | |- _ /\ _ => split
      | |- _ <-> _ => split; intros
      | |- _ -> _ => intros
      | H : _ /\ _ |- _ => destruct H
      | H : ?l ++ [_] = ?l |- _ => destruct (app_singleton_ne _ _ H)
      | H : ?l = ?l ++ [_] |- _ => destruct (app_singleton_ne _ _ (eq_sym H))
      | H : ?a <> ?a |- _ => destruct (H eq_refl)
      | |- _ \/ _ => first [left; reflexivity | right; reflexivity]
      | |- context [bool_decide ?P] =>
          first [ rewrite (bool_decide_eq_true_2 P) by (split; congruence)
                | rewrite (bool_decide_eq_false_2 P)
                    by (intros [? ?]; congruence) ]
      | _ => first [reflexivity | congruence | discriminate]
      end).
Qed.

(** ** The commit flow *)

Section CommitFacts.
Context `{ui.Widgets} `{git.Host}.
Import ui.CommitModel.

Ltac eval_keys :=
  repeat match goal with
  | |- context [keyIn ?k ?l] =>
      let v := eval vm_compute in (keyIn k l) in
      change (keyIn k l) with v
  end; cbv iota.

Lemma isState_true (s : ui.commitState) (m : t) :
  state m = s -> isState s m = true.
Proof. intros <-. unfold isState. destruct (state m); reflexivity. Qed.

(** C9: submitting the manual form (enter in the input state) with a
    non-empty trimmed title composes the message: the title alone when
    the trimmed body is empty, otherwise the title, one blank line and
    the body; "fix bug" with "- detail" gives "fix bug\n\n- detail" and
    "fix bug" with an empty body gives "fix bug". *)
Theorem manual_commit_message (m : t) :
  state m = ui.commitStateInput ->
  gostrings.TrimSpace (ui.Value (textInput m)) <> EmptyString ->
  let title := gostrings.TrimSpace (ui.Value (textInput m)) in
  let body := gostrings.TrimSpace (ui.Value (textArea m)) in
  let m' := fst (Update m (ui.KeyMsg "enter")) in
  state m' = ui.commitStateConfirm /\
  (body <> EmptyString -> commitMsg m' = title +:+ NL +:+ NL +:+ body) /\
  (body = EmptyString -> commitMsg m' = title) /\
  (ui.Value (textInput m) = "fix bug" -> ui.Value (textArea m) = "- detail" ->
   commitMsg m' = "fix bug" +:+ NL +:+ NL +:+ "- detail") /\
  (ui.Value (textInput m) = "fix bug" -> ui.Value (textArea m) = "" ->
   commitMsg m' = "fix bug").
Proof.
  intros Hst Htitle title body m'.
  assert (Hm' : m' = setState ui.commitStateConfirm
            (setMessage
               (if negb (String.eqb body "") then title +:+ NL +:+ NL +:+ body
                else title)
               (renderMessage m
                  (if negb (String.eqb body "")
                   then title +:+ NL +:+ NL +:+ body else title)) m)).
  { subst m'. unfold Update, updateKey. eval_keys.
    rewrite (isState_true _ _ Hst). unfold submitForm. fold title body.
    destruct (String.eqb_spec title ""); [contradiction|]. reflexivity. }
  rewrite Hm'. cbn [setState setMessage state commitMsg].
  split; [reflexivity|]. split; [|split; [|split]].
  - intros Hb. destruct (String.eqb_spec body ""); [contradiction|reflexivity].
  - intros ->. reflexivity.
  - subst title body. intros -> ->. reflexivity.
  - subst title body. intros -> ->. reflexivity.
Qed.

Lemma Cut_blank_none (t : string) :
  oneLine t = true -> gostrings.Cut t (NL +:+ NL) = None.
Proof.
  induction t as [|c t IH]; [reflexivity|].
  cbn [oneLine]. intros Hl. apply andb_prop in Hl as [Hc Ht].
  rewrite Cut_unfold, prefix_NLNL.
  replace (Ascii.eqb c LF) with false
    by (symmetry; apply negb_true_iff; exact Hc).
  replace (match t with
           | String d _ => false && Ascii.eqb d LF
           | _ => false
           end) with false by (destruct t; reflexivity).
  rewrite (IH Ht). reflexivity.
Qed.

(** The "e" key at the confirmation step, whatever the message: the
    title field is given the first line, the body field what follows
    the first blank line, when there is one. *)
Lemma edit_takes_first_line (g : t) :
  state g = ui.commitStateConfirm ->
  Update g (ui.KeyMsg "e") =
    (setState ui.commitStateInput
       (setTextInput
          (ui.Focus
             (ui.textinput_SetValue
                (match gostrings.Cut (commitMsg g) NL with
                 | Some (a, _) => a
                 | None => commitMsg g
                 end) (textInput g)))
          (match gostrings.Cut (commitMsg g) (NL +:+ NL) with
           | Some (_, after) =>
               setTextArea (ui.textarea_SetValue after (textArea g)) g
           | None => g
           end)),
     ui.LibCmd ui.textinput_Blink).
Proof.
  intros Hst. unfold Update, updateKey. eval_keys.
  rewrite (isState_true _ _ Hst). unfold editMessage.
  rewrite Split_first. unfold gostrings.SplitN2. cbn [setTextInput commitMsg].
  destruct (gostrings.Cut (commitMsg g) (NL +:+ NL)) as [[a b]|];
    reflexivity.
Qed.

(** C6: a message composed at the input step from a title of one line
    and a body (enter, with a title that is not empty once trimmed) is
    split back by the edit action of the confirmation step ("e") on its
    first blank line: [textinput.SetValue] is given the text before it,
    the title, and [textarea.SetValue] the text after it, the body; the
    flow is back at the input step with the title focused; a message
    composed without body has no blank line: the title field is given
    the whole of it and the body field is left as it is; the title
    "fix bug" with the body "- detail" gives "fix bug\n\n- detail", which
    is split back into the two. *)
Theorem edit_repopulates_fields (m0 : t) :
  state m0 = ui.commitStateInput ->
  let title := gostrings.TrimSpace (ui.Value (textInput m0)) in
  let body := gostrings.TrimSpace (ui.Value (textArea m0)) in
  title <> EmptyString ->
  oneLine title = true ->
  let m := fst (Update m0 (ui.KeyMsg "enter")) in
  let m' := fst (Update m (ui.KeyMsg "e")) in
  state m = ui.commitStateConfirm /\
  state m' = ui.commitStateInput /\
  snd (Update m (ui.KeyMsg "e")) = ui.LibCmd ui.textinput_Blink /\
  textInput m' = ui.Focus (ui.textinput_SetValue title (textInput m0)) /\
  (body <> EmptyString ->
   commitMsg m = title +:+ NL +:+ NL +:+ body /\
   gostrings.Cut (commitMsg m) (NL +:+ NL) = Some (title, body) /\
   textArea m' = ui.textarea_SetValue body (textArea m0)) /\
  (body = EmptyString ->
   commitMsg m = title /\
   gostrings.Cut (commitMsg m) (NL +:+ NL) = None /\
   textArea m' = textArea m0) /\
  (ui.Value (textInput m0) = "fix bug" ->
   ui.Value (textArea m0) = "- detail" ->
   commitMsg m = "fix bug" +:+ NL +:+ NL +:+ "- detail" /\
   textInput m' = ui.Focus (ui.textinput_SetValue "fix bug" (textInput m0)) /\
   textArea m' = ui.textarea_SetValue "- detail" (textArea m0)).
Proof.
  intros Hst title body Htitle Hline m m'.
  set (msg := if negb (String.eqb body "") then title +:+ NL +:+ NL +:+ body
              else title).
  assert (Hm : m = setState ui.commitStateConfirm
                 (setMessage msg (renderMessage m0 msg) m0)).
  { subst m. unfold Update, updateKey. eval_keys.
    rewrite (isState_true _ _ Hst). unfold submitForm. fold title body.
    destruct (String.eqb_spec title ""); [contradiction|]. reflexivity. }
  assert (Hmsg : commitMsg m = msg) by (rewrite Hm; reflexivity).
  assert (Hconf : state m = ui.commitStateConfirm) by (rewrite Hm; reflexivity).
  assert (Hin : textInput m = textInput m0) by (rewrite Hm; reflexivity).
  assert (Har : textArea m = textArea m0) by (rewrite Hm; reflexivity).
  assert (Hfirst : match gostrings.Cut msg NL with
                   | Some (a, _) => a
                   | None => msg
                   end = title).
  { subst msg. destruct (negb (String.eqb body "")).
    - rewrite (Cut_line title (NL +:+ body) Hline). reflexivity.
    - destruct (gostrings.Cut title NL) as [[a b]|] eqn:E; [|reflexivity].
      exfalso. destruct (Cut_NL_Some _ _ _ E) as [Heq _].
      assert (Hone : oneLine (a +:+ NL +:+ b) = false).
      { clear. induction a as [|c a IH]; [reflexivity|].
        change (String c a +:+ NL +:+ b) with (String c (a +:+ NL +:+ b)).
        cbn [oneLine]. rewrite IH. apply andb_false_r. }
      rewrite <- Heq, Hline in Hone. discriminate. }
  assert (Hbody : body <> EmptyString ->
            commitMsg m = title +:+ NL +:+ NL +:+ body /\
            gostrings.Cut (commitMsg m) (NL +:+ NL) = Some (title, body) /\
            textArea m' = ui.textarea_SetValue body (textArea m0)).
  { intros Hb. rewrite Hmsg. subst msg.
    destruct (String.eqb_spec body ""); [contradiction|]. cbn [negb].
    split; [reflexivity|]. split; [apply Cut_blank_line, Hline|].
    subst m'. rewrite (edit_takes_first_line m Hconf), Hmsg.
    destruct (String.eqb_spec body ""); [contradiction|]. cbn [negb fst].
    rewrite (Cut_blank_line _ _ Hline). cbn. rewrite Har. reflexivity. }
  split; [exact Hconf|].
  split; [subst m'; rewrite (edit_takes_first_line m Hconf); reflexivity|].
  split; [rewrite (edit_takes_first_line m Hconf); reflexivity|].
  split.
  { subst m'. rewrite (edit_takes_first_line m Hconf), Hmsg, Hfirst.
    cbn [fst setState textInput setTextInput]. rewrite Hin. reflexivity. }
  split; [exact Hbody|]. split.
  - intros Hb. rewrite Hmsg. subst msg. rewrite Hb. cbn [String.eqb negb].
    split; [reflexivity|]. split; [apply Cut_blank_none, Hline|].
    subst m'. rewrite (edit_takes_first_line m Hconf), Hmsg.
    rewrite Hb. cbn [String.eqb negb fst].
    rewrite (Cut_blank_none _ Hline). cbn. exact Har.
  - intros Hti Hta.
    assert (Et : title = "fix bug") by (subst title; rewrite Hti; reflexivity).
    assert (Eb : body = "- detail") by (subst body; rewrite Hta; reflexivity).
    assert (Hne : body <> EmptyString) by (rewrite Eb; discriminate).
    destruct (Hbody Hne) as (H1 & _ & H3).
    rewrite H1, H3, Et, Eb. split; [reflexivity|]. split; [|reflexivity].
    subst m'. rewrite (edit_takes_first_line m Hconf), Hmsg, Hfirst.
    cbn [fst setState textInput setTextInput]. rewrite Hin, Et. reflexivity.
Qed.

End CommitFacts.

Section CommitExamples.
#[local] Existing Instance scripted.host.
#[local] Existing Instance scripted.widgets.
Import ui.CommitModel.

Lemma manual_commit_message_witness :
  let m' := fst (Update scripted.typed (ui.KeyMsg "enter")) in
  state m' = ui.commitStateConfirm /\
  commitMsg m' = "fix bug" +:+ NL +:+ NL +:+ "- detail".
Proof.
  destruct (manual_commit_message scripted.typed eq_refl
              ltac:(vm_compute; discriminate)) as (Hs & _ & _ & Hex & _).
  split; [exact Hs | exact (Hex eq_refl eq_refl)].
Defined.

Lemma edit_repopulates_fields_witness :
  let m := fst (Update scripted.typed (ui.KeyMsg "enter")) in
  let m' := fst (Update m (ui.KeyMsg "e")) in
  commitMsg m = "fix bug" +:+ NL +:+ NL +:+ "- detail" /\
  ui.Value (textInput m') = "fix bug" /\ ui.Value (textArea m') = "- detail".
Proof.
  destruct (edit_repopulates_fields scripted.typed eq_refl
              ltac:(vm_compute; discriminate) eq_refl)
    as (_ & _ & _ & _ & _ & _ & Hex).
  destruct (Hex eq_refl eq_refl) as (Hmsg & Hti & Hta).
  cbv zeta. rewrite Hmsg, Hti, Hta. repeat split.
Defined.

End CommitExamples.

(** ** The release flow *)

Section ReleaseFacts.
Context `{ui.Widgets} `{git.Host}.
Import ui.ReleaseModel.

Lemma doRelease_runs (tagName message : string) (s : git.Sys) :
  let tag :=
    if String.eqb message "" then ["git"; "tag"; tagName]
    else ["git"; "tag"; "-a"; tagName; "-m"; message] in
  let push := ["git"; "push"; "--tags"] in
  let tagged := git.exec_Command tag (git.world s) in
  let pushed := git.exec_Command push (snd tagged) in
  doRelease tagName message s =
    match snd (fst tagged) with
    | Some e =>
        (ui.releaseErrorMsg
           ("failed to create tag: " +:+ fst (fst tagged) +:+ ": " +:+ e),
         git.mkSys (snd tagged) (git.issued s ++ [tag]))
    | None =>
        (match snd (fst pushed) with
         | Some e => ui.releaseErrorMsg ("failed to push tags: " +:+ e)
         | None => ui.releaseDoneMsg
         end,
         git.mkSys (snd pushed) (git.issued s ++ [tag; push]))
    end.
Proof.
  intros tag push tagged pushed.
  unfold doRelease, git.TagAnnotated, git.PushTags, git.Run,
    git.CombinedOutput, mbind, mret, git.IO_bind, git.IO_ret, git.bind,
    git.ret.
  fold tag. cbn [git.world git.issued].
  subst pushed push. change (git.exec_Command tag (git.world s)) with tagged.
  destruct tagged as [[out1 [e1|]] w1]; cbn.
  - reflexivity.
  - destruct (git.exec_Command _ w1) as [[out2 [e2|]] w2]; cbn;
      rewrite <- app_assoc; reflexivity.
Qed.

(** A message that is neither a cancel key, a tick of the spinner nor
    a completion of the task goes to the form. *)
Lemma release_Update_form (m : t) (msg : ui.Msg) :
  (forall key, msg = ui.KeyMsg key -> ui.isCancelKey key = false) ->
  msg <> ui.spinner_TickMsg ->
  msg <> ui.releaseDoneMsg ->
  (forall e, msg <> ui.releaseErrorMsg e) ->
  Update m msg = updateForm m msg.
Proof.
  intros Hkey Htick Hdone Herr. unfold Update.
  destruct msg; try reflexivity.
  - rewrite (Hkey key eq_refl). reflexivity.
  - destruct (Htick eq_refl).
  - destruct (Hdone eq_refl).
  - destruct (Herr err0 eq_refl).
Qed.

(** C7: when a message that [Update] passes to the release form
    completes it with a positive answer, [Update] enters the working
    state and starts [doRelease], which runs [git tag name] for an empty
    message and [git tag -a name -m message] otherwise; when that
    command fails it is the only command issued (the push is not
    attempted), and the message of the task, given to [Update], puts the
    flow in its error state with the error "failed to create tag: ...";
    when it succeeds, [git push --tags] follows, and its failure puts
    the flow in its error state with the error "failed to push tags:
    ..."; when both succeed the flow is done and returns to the menu
    with a success message; the two error texts never coincide. *)
Theorem release_tags_then_pushes
    (m : t) (f : ui.Form) (msg : ui.Msg) (s : git.Sys) :
  state m = ui.releaseStateForm ->
  form m = Some f ->
  (forall key, msg = ui.KeyMsg key -> ui.isCancelKey key = false) ->
  msg <> ui.spinner_TickMsg ->
  msg <> ui.releaseDoneMsg ->
  (forall e, msg <> ui.releaseErrorMsg e) ->
  let answered :=
    ui.release_Update f (ui.mkReleaseFields (tagName m) (message m) (confirm m))
      msg in
  let b := snd (fst answered) in
  ui.form_State (fst (fst answered)) = ui.StateCompleted ->
  ui.rf_confirm b = true ->
  let tag :=
    if String.eqb (ui.rf_message b) ""
    then ["git"; "tag"; ui.rf_tagName b]
    else ["git"; "tag"; "-a"; ui.rf_tagName b; "-m"; ui.rf_message b] in
  let push := ["git"; "push"; "--tags"] in
  let tagged := git.exec_Command tag (git.world s) in
  let pushed := git.exec_Command push (snd tagged) in
  let result := doRelease (ui.rf_tagName b) (ui.rf_message b) s in
  let working := fst (Update m msg) in
  let reported := Update working (fst result) in
  state working = ui.releaseStateWorking /\
  snd (Update m msg) =
    ui.Run (ui.doRelease (ui.rf_tagName b) (ui.rf_message b)) /\
  ui.perform (ui.doRelease (ui.rf_tagName b) (ui.rf_message b)) =
    Some (doRelease (ui.rf_tagName b) (ui.rf_message b)) /\
  (* the task, and what [Update] makes of its message *)
  match snd (fst tagged) with
  | Some e =>
      let text :=
        "failed to create tag: " +:+ fst (fst tagged) +:+ ": " +:+ e in
      git.issued (snd result) = git.issued s ++ [tag] /\
      tag <> push /\
      fst result = ui.releaseErrorMsg text /\
      state (fst reported) = ui.releaseStateError /\
      err (fst reported) = Some text /\
      snd reported = ui.nilCmd
  | None =>
      git.issued (snd result) = git.issued s ++ [tag; push] /\
      match snd (fst pushed) with
      | Some e =>
          let text := "failed to push tags: " +:+ e in
          fst result = ui.releaseErrorMsg text /\
          state (fst reported) = ui.releaseStateError /\
          err (fst reported) = Some text /\
          snd reported = ui.nilCmd
      | None =>
          fst result = ui.releaseDoneMsg /\
          state (fst reported) = ui.releaseStateDone /\
          snd reported =
            ui.Emit
              (ui.ReturnToMenuMsg
                 ("Release " +:+ ui.rf_tagName b +:+ " created and pushed")
                 "success")
      end
  end /\
  (* the two failures never read the same *)
  (forall e1 e2 : string,
     "failed to create tag: " +:+ e1 <> "failed to push tags: " +:+ e2).
Proof.
  intros Hst Hf Hkey Htick Hdone' Herr answered b Hdone Hyes tag push tagged
    pushed result working reported.
  assert (Hupd : Update m msg =
            (setState ui.releaseStateWorking
               (mk (state m) (spinner m) (Some (fst (fst answered)))
                  (ui.rf_tagName b) (ui.rf_message b) (ui.rf_confirm b) (err m)),
             ui.Run (ui.doRelease (ui.rf_tagName b) (ui.rf_message b)))).
  { rewrite (release_Update_form m msg Hkey Htick Hdone' Herr).
    unfold updateForm. rewrite Hst, Hf. fold answered. subst b.
    destruct answered as [[f' b'] c]. cbn [fst snd] in *.
    rewrite Hdone. cbn [confirm]. rewrite Hyes. reflexivity. }
  subst reported working. rewrite Hupd. cbn [fst snd].
  split; [reflexivity|]. split; [reflexivity|]. split; [reflexivity|].
  split.
  - subst result. rewrite doRelease_runs. fold tag push tagged pushed.
    destruct (snd (fst tagged)) as [e|]; cbn [fst snd git.issued].
    + split; [reflexivity|]. split; [|repeat split].
      subst tag push. destruct (String.eqb _ _); discriminate.
    + split; [reflexivity|].
      destruct (snd (fst pushed)) as [e|]; repeat split.
  - intros e1 e2. discriminate.
Qed.

End ReleaseFacts.

(** ** Configuration *)

Section ConfigFacts.
Context `{config.Yaml}.
Import config.

Lemma Load_cases (os : OS) :
  match files os !! ConfigPath os with
  | None => Load os = ((DefaultConfig, None), snd (Save DefaultConfig os))
  | Some Unreadable => Load os = ((DefaultConfig, None), os)
  | Some (Readable data) =>
      match Unmarshal data DefaultConfig with
      | (_, Some e) => Load os = ((DefaultConfig, Some e), os)
      | (cfg, None) =>
          Load os =
            ((if String.eqb (APIKey (AI cfg)) ""
              then setAPIKey (Getenv "OPENAI_API_KEY" os) cfg else cfg,
              None), os)
      end
  end.
Proof.
  unfold Load, ReadFile.
  destruct (files os !! ConfigPath os) as [[data|]|]; cbn [IsNotExist].
  - destruct (Unmarshal data DefaultConfig) as [cfg [e|]]; reflexivity.
  - reflexivity.
  - destruct (Save DefaultConfig os); reflexivity.
Qed.

Lemma Save_creates (cfg : Config) (os : OS) (data : string) :
  mkdirErr os = None -> writeErr os = None -> Marshal cfg = (data, None) ->
  Save cfg os =
    (None, mkOS (home os) (<[ConfigPath os := Readable data]> (files os))
             (env os) None None).
Proof.
  intros Hm Hw Hy. unfold Save, WriteFile. rewrite Hm, Hy, Hw. reflexivity.
Qed.

End ConfigFacts.

Section ConfigExample.
#[local] Existing Instance scripted.yaml.
Import config.

(** C8: evaluation of [Load] where the claim fails.  Without
    configuration file, and with OPENAI_API_KEY set, the file is created
    with the defaults but the returned key is empty; the same holds for
    a file that cannot be read; only a second run, which reads the file
    written by the first, takes the key from the environment. *)
Theorem Load_missing_file_ignores_env :
  let os := scripted.freshHome in
  let path := "/home/dev/.config/gitty/config.yaml" in
  let loaded := Load os in
  ConfigPath os = path /\
  files os !! path = None /\
  Getenv "OPENAI_API_KEY" os = "sk-test" /\
  fst loaded = (DefaultConfig, None) /\
  files (snd loaded) !! path = Some (Readable "# gitty configuration") /\
  APIKey (AI (fst (fst loaded))) = "" /\
  APIKey (AI (fst (fst (Load (snd loaded))))) = "sk-test" /\
  Load scripted.lockedHome = ((DefaultConfig, None), scripted.lockedHome) /\
  Getenv "OPENAI_API_KEY" scripted.lockedHome = "sk-test".
Proof. vm_compute. repeat split. Qed.
End ConfigExample.

(** ** The menu controller and the flows *)

Section MenuFacts.
Context `{ui.Widgets} `{git.Host}.
Import ui.

Lemma subActive_false (m : Model) :
  subActive m = false ->
  forall msg, Update m msg =
    match msg with
    | KeyMsg key => updateKey m key
    | WindowSizeMsg w h =>
        updateList
          (mkModel (menuList m) (items m) (cfg m) (status m) (spinner m)
             (loading m) (message m) (msgType m) w h (quitting m)
             (subModel m) (inSubView m)) msg
    | spinner_TickMsg =>
        let (s, cmd) := spinner_Update (spinner m) msg in
        (mkModel (menuList m) (items m) (cfg m) (status m) s (loading m)
           (message m) (msgType m) (width m) (height m) (quitting m)
           (subModel m) (inSubView m), LibCmd cmd)
    | statusMsg st _ =>
        updateList
          (mkModel (menuList m) (items m) (cfg m) st (spinner m) false
             (message m) (msgType m) (width m) (height m) (quitting m)
             (subModel m) (inSubView m)) msg
    | actionCompleteMsg success text =>
        (setMessage text (if success then "success" else "error")
           (setLoading false m),
         Batch [Run refreshStatus; clearMessageAfter])
    | clearMsgMsg => updateList (setMessage "" "" m) msg
    | _ => updateList m msg
    end.
Proof.
  unfold subActive, Update. intros Hoff msg.
  destruct (inSubView m), (subModel m) as [sub|]; try reflexivity.
  exfalso. rewrite bool_decide_eq_true_2 in Hoff by eauto. discriminate.
Qed.

Lemma subActive_true (m : Model) (sub : SubModel) :
  inSubView m = true -> subModel m = Some sub ->
  forall msg, Update m msg =
    let (sub', cmd) := subUpdate sub msg in
    let m' := setSub (Some sub') true m in
    match msg with
    | ReturnToMenuMsg text type =>
        (let m0 := setSub None false m' in
         if negb (String.eqb text "") then setMessage text type m0 else m0,
         Batch [Run refreshStatus; clearMessageAfter])
    | _ => (m', cmd)
    end.
Proof.
  intros Hin Hsub msg. unfold Update. rewrite Hin, Hsub.
  destruct (subUpdate sub msg) as [sub' cmd]. destruct msg; reflexivity.
Qed.

(** C1: evaluation of the reset flow where the claim fails.  In the
    working state [ResetModel.Update] has no case for [resetDoneMsg] nor
    [resetErrorMsg]: the model stays as it is, no command is returned,
    and the menu, which forwards the message, stays in the sub-flow; no
    [ReturnToMenuMsg] is delivered. *)
Theorem reset_completion_is_dropped
    (M : Model) (m : ResetModel.t) (e : string) :
  inSubView M = true ->
  subModel M = Some (SubReset m) ->
  ResetModel.state m = resetStateWorking ->
  ResetModel.Update m resetDoneMsg = (m, nilCmd) /\
  ResetModel.Update m (resetErrorMsg e) = (m, nilCmd) /\
  Update M resetDoneMsg = (M, nilCmd) /\
  Update M (resetErrorMsg e) = (M, nilCmd) /\
  returns nilCmd = 0%nat.
Proof.
  intros Hin Hsub Hst.
  assert (Hdrop : forall msg, ResetModel.updateForm m msg = (m, nilCmd)).
  { intros msg. unfold ResetModel.updateForm. rewrite Hst. reflexivity. }
  assert (H1 : ResetModel.Update m resetDoneMsg = (m, nilCmd))
    by apply Hdrop.
  assert (H2 : ResetModel.Update m (resetErrorMsg e) = (m, nilCmd))
    by apply Hdrop.
  split; [exact H1|]. split; [exact H2|].
  rewrite !(subActive_true M _ Hin Hsub). unfold subUpdate.
  rewrite H1, H2. destruct M; cbn in Hin, Hsub; subst.
  repeat split; reflexivity.
Qed.

(** The rollback flow, of the same shape, handles its completion. *)
Lemma rollback_completion_returns_once (m : RollbackModel.t) :
  let (m', cmd) := RollbackModel.Update m rollbackDoneMsg in
  RollbackModel.state m' = rollbackStateDone /\
  cmd = Emit (ReturnToMenuMsg "Rollback successful" "success") /\
  returns cmd = 1%nat.
Proof. cbn. repeat split; reflexivity. Qed.

Lemma isCancelKey_keyIn (key : string) :
  CommitModel.keyIn key ["ctrl+c"; "esc"] = isCancelKey key.
Proof.
  unfold CommitModel.keyIn, isCancelKey. cbn [existsb].
  rewrite orb_false_r. reflexivity.
Qed.

(** C2 (amended): the cancel key (escape or ctrl+c), at any state,
    makes a flow return one [ReturnToMenuMsg]; in the reset, rollback,
    release and publish flows it carries no text, and the menu keeps the
    message it had; in the commit flow it carries the info message
    "Cancelled", which the menu shows; in both cases the menu leaves the
    sub-flow. *)
Theorem cancel_key_returns (key : string) :
  isCancelKey key = true ->
  (forall m : ResetModel.t,
     ResetModel.Update m (KeyMsg key) = (m, Emit (ReturnToMenuMsg "" ""))) /\
  (forall m : RollbackModel.t,
     RollbackModel.Update m (KeyMsg key) = (m, Emit (ReturnToMenuMsg "" ""))) /\
  (forall m : ReleaseModel.t,
     ReleaseModel.Update m (KeyMsg key) = (m, Emit (ReturnToMenuMsg "" ""))) /\
  (forall m : PublishModel.t,
     PublishModel.Update m (KeyMsg key) = (m, Emit (ReturnToMenuMsg "" ""))) /\
  (forall m : CommitModel.t,
     CommitModel.Update m (KeyMsg key) =
       (m, Emit (ReturnToMenuMsg "Cancelled" "info"))) /\
  (forall (M : Model) (sub : SubModel),
     inSubView M = true -> subModel M = Some sub ->
     let silent := fst (Update M (ReturnToMenuMsg "" "")) in
     let told := fst (Update M (ReturnToMenuMsg "Cancelled" "info")) in
     subActive silent = false /\ subModel silent = None /\
     message silent = message M /\ msgType silent = msgType M /\
     subActive told = false /\ subModel told = None /\
     message told = "Cancelled" /\ msgType told = "info").
Proof.
  intros Hkey. repeat split.
  - intros m. unfold ResetModel.Update. rewrite Hkey. reflexivity.
  - intros m. unfold RollbackModel.Update. rewrite Hkey. reflexivity.
  - intros m. unfold ReleaseModel.Update. rewrite Hkey. reflexivity.
  - intros m. unfold PublishModel.Update. rewrite Hkey. reflexivity.
  - intros m. unfold CommitModel.Update, CommitModel.updateKey.
    rewrite isCancelKey_keyIn, Hkey. reflexivity.
  - rewrite (subActive_true M _ H1 H2). destruct (subUpdate _ _). reflexivity.
  - rewrite (subActive_true M _ H1 H2). destruct (subUpdate _ _). reflexivity.
  - rewrite (subActive_true M _ H1 H2). destruct (subUpdate _ _). reflexivity.
  - rewrite (subActive_true M _ H1 H2). destruct (subUpdate _ _). reflexivity.
  - rewrite (subActive_true M _ H1 H2). destruct (subUpdate _ _). reflexivity.
  - rewrite (subActive_true M _ H1 H2). destruct (subUpdate _ _). reflexivity.
  - rewrite (subActive_true M _ H1 H2). destruct (subUpdate _ _). reflexivity.
  - rewrite (subActive_true M _ H1 H2). destruct (subUpdate _ _). reflexivity.
Qed.

(** C4 (amended): with no sub-flow active and no direct action in
    flight, "q" and ctrl+c set [quitting] and return [tea.Quit]; while
    [loading] is set every key, the quit key included, is ignored. *)
Theorem quit_key_unless_loading (m : Model) (key : string) :
  subActive m = false ->
  key = "q" \/ key = "ctrl+c" ->
  Update m (KeyMsg key) =
    (if loading m then (m, nilCmd) else (setQuitting m, Quit)) /\
  (forall other : string,
     loading m = true -> Update m (KeyMsg other) = (m, nilCmd)).
Proof.
  intros Hoff Hkey. split.
  - rewrite (subActive_false m Hoff). unfold updateKey.
    destruct (loading m); [reflexivity|].
    destruct Hkey as [-> | ->]; reflexivity.
  - intros other Hl. rewrite (subActive_false m Hoff). unfold updateKey.
    rewrite Hl. reflexivity.
Qed.

Lemma subUpdate_kind (s : SubModel) (msg : Msg) :
  isRollbackOrRelease (fst (subUpdate s msg)) = isRollbackOrRelease s.
Proof.
  destruct s as [m|m|m|m|m]; unfold subUpdate;
    match goal with |- context [let (_, _) := ?u in _] => destruct u end;
    reflexivity.
Qed.

Lemma executeAction_kind (m : Model) (a : Action) :
  flowsOfTheMenu (subModel m) ->
  flowsOfTheMenu (subModel (fst (executeAction m a))).
Proof. intros Hm. destruct a; cbn; first [exact Hm | reflexivity]. Qed.

Lemma updateList_sub (m : Model) (msg : Msg) :
  subModel (fst (updateList m msg)) = subModel m.
Proof. unfold updateList. destruct (list_Update _ _). reflexivity. Qed.

Lemma updateKey_kind (m : Model) (key : string) :
  flowsOfTheMenu (subModel m) ->
  flowsOfTheMenu (subModel (fst (updateKey m key))).
Proof.
  intros Hm. unfold updateKey.
  repeat match goal with
  | |- context [if ?b then _ else _] => destruct b
  | |- context [match ?o with Some _ => _ | None => _ end] => destruct o
  end; rewrite ?updateList_sub; try exact Hm;
    apply executeAction_kind, Hm.
Qed.

Lemma Update_kind (m : Model) (msg : Msg) :
  flowsOfTheMenu (subModel m) ->
  flowsOfTheMenu (subModel (fst (Update m msg))).
Proof.
  intros Hm. unfold Update.
  destruct (inSubView m), (subModel m) as [sub|] eqn:Hsub.
  1: { pose proof (subUpdate_kind sub msg) as Hk.
       destruct (subUpdate sub msg) as [sub' cmd]. cbn [fst] in Hk.
       destruct msg; cbn; try (rewrite Hk; exact Hm);
         destruct (negb _); exact I. }
  all: destruct msg;
    first
      [ apply updateKey_kind; rewrite Hsub; exact Hm
      | rewrite updateList_sub; cbn; rewrite ?Hsub; exact Hm
      | destruct (spinner_Update _ _); cbn; rewrite ?Hsub; exact Hm
      | cbn; rewrite ?Hsub; exact Hm ].
Qed.

Lemma updateList_items (m : Model) (msg : Msg) :
  items (fst (updateList m msg)) = items m.
Proof. unfold updateList. destruct (list_Update _ _). reflexivity. Qed.

Lemma executeAction_items (m : Model) (a : Action) :
  items (fst (executeAction m a)) = items m.
Proof. destruct a; reflexivity. Qed.

Lemma Update_items (m : Model) (msg : Msg) :
  items (fst (Update m msg)) = items m.
Proof.
  unfold Update.
  destruct (inSubView m), (subModel m) as [sub|];
    [destruct (subUpdate sub msg); destruct msg; cbn;
       try reflexivity; destruct (negb _); reflexivity | ..].
  all: destruct msg;
    first
      [ rewrite updateList_items; reflexivity
      | destruct (spinner_Update _ _); reflexivity
      | reflexivity
      | unfold updateKey;
        repeat match goal with
        | |- context [if ?b then _ else _] => destruct b
        | |- context [match ?o with Some _ => _ | None => _ end] => destruct o
        end;
        rewrite ?updateList_items, ?executeAction_items; reflexivity ].
Qed.

(** C10: no menu item and no shortcut leads to [ActionRollback];
    [executeAction] leaves the sub-flow as it is or starts a reset,
    commit or publish flow; hence in every state the menu controller
    reaches, the sub-flow is neither the rollback nor the release
    flow. *)
Theorem rollback_and_release_unreachable (m : Model) :
  reachable m ->
  Forall (fun item => action item <> ActionRollback) menuItems /\
  (forall key item,
     find (fun item => String.eqb key (shortcut item)) menuItems = Some item ->
     action item <> ActionRollback) /\
  (forall (m0 : Model) (a : Action),
     subModel (fst (executeAction m0 a)) = subModel m0 \/
     exists sub, subModel (fst (executeAction m0 a)) = Some sub /\
                 isRollbackOrRelease sub = false) /\
  items m = menuItems /\
  match subModel m with
  | Some sub => isRollbackOrRelease sub = false
  | None => True
  end.
Proof.
  intros Hreach.
  assert (Hitems : Forall (fun item => action item <> ActionRollback) menuItems).
  { unfold menuItems. repeat constructor; discriminate. }
  split; [exact Hitems|]. split; [|split; [|split]].
  - intros key item Hfind. apply find_some in Hfind as [Hin _].
    rewrite Forall_forall in Hitems. apply Hitems.
    apply list_elem_of_In. exact Hin.
  - intros m0 a. destruct a; cbn; eauto.
  - induction Hreach as [cfg0|m0 msg _ IH]; [reflexivity|].
    rewrite Update_items. exact IH.
  - change (flowsOfTheMenu (subModel m)).
    induction Hreach as [cfg0|m0 msg _ IH]; [exact I|].
    apply Update_kind, IH.
Qed.

End MenuFacts.

(** ** Status messages and their expiry *)

Section LoopFacts.
Context `{ui.Widgets} `{git.Host}.
Import ui.






End LoopFacts.

Section LoopExample.
#[local] Existing Instance scripted.host.
#[local] Existing Instance scripted.widgets.
Import ui.


End LoopExample.

Section MenuExamples.
#[local] Existing Instance scripted.host.
#[local] Existing Instance scripted.widgets.
Import ui.

Lemma reset_completion_is_dropped_witness :
  ResetModel.state scripted.resetWorking = resetStateWorking /\
  subModel scripted.resetting = Some (SubReset scripted.resetWorking) /\
  Update scripted.resetting resetDoneMsg = (scripted.resetting, nilCmd).
Proof.
  destruct (reset_completion_is_dropped scripted.resetting
              scripted.resetWorking "exit status 128" eq_refl eq_refl eq_refl)
    as (_ & _ & Hdrop & _).
  exact (conj eq_refl (conj eq_refl Hdrop)).
Defined.

(** C2: the claim fails both ways: escape in the reset, rollback,
    release and publish flows returns no text, not "X cancelled"; escape
    in the commit flow returns the info message "Cancelled", which the
    menu shows. *)
Lemma cancel_messages_are_the_other_way_round :
  let esc := KeyMsg "esc" in
  let inReset := fst (Update scripted.menu (KeyMsg "r")) in
  let inCommit := fst (Update scripted.menu (KeyMsg "c")) in
  let inPublish := fst (Update scripted.menu (KeyMsg "u")) in
  snd (Update inReset esc) = Emit (ReturnToMenuMsg "" "") /\
  snd (Update inReset esc) <> Emit (ReturnToMenuMsg "Reset cancelled" "info") /\
  message (fst (Update inReset (ReturnToMenuMsg "" ""))) = "" /\
  snd (Update inPublish esc) = Emit (ReturnToMenuMsg "" "") /\
  snd (RollbackModel.Update
         (fst (RollbackModel.Init RollbackModel.NewRollbackModel)) esc) =
    Emit (ReturnToMenuMsg "" "") /\
  snd (ReleaseModel.Update
         (fst (ReleaseModel.Init ReleaseModel.NewReleaseModel)) esc) =
    Emit (ReturnToMenuMsg "" "") /\
  snd (Update inCommit esc) = Emit (ReturnToMenuMsg "Cancelled" "info") /\
  message (fst (Update inCommit (ReturnToMenuMsg "Cancelled" "info"))) =
    "Cancelled".
Proof. vm_compute. repeat split; discriminate. Qed.

Lemma cancel_key_returns_witness :
  isCancelKey "esc" = true /\
  CommitModel.Update scripted.typed (KeyMsg "esc") =
    (scripted.typed, Emit (ReturnToMenuMsg "Cancelled" "info")).
Proof.
  destruct (cancel_key_returns "esc" eq_refl) as (_ & _ & _ & _ & Hcommit & _).
  exact (conj eq_refl (Hcommit scripted.typed)).
Defined.

(** C4: the claim fails while a direct action is in flight: after "a"
    (stage all) the menu is loading, no sub-flow is active, and "q" and
    ctrl+c change nothing and return no command. *)
Lemma quit_key_ignored_while_loading :
  let m := fst (Update scripted.menu (KeyMsg "a")) in
  subActive m = false /\
  loading m = true /\
  Update m (KeyMsg "q") = (m, nilCmd) /\
  quitting (fst (Update m (KeyMsg "q"))) = false /\
  snd (Update m (KeyMsg "q")) <> Quit /\
  snd (Update m (KeyMsg "ctrl+c")) <> Quit.
Proof. vm_compute. repeat split; discriminate. Qed.

Lemma quit_key_unless_loading_witness :
  subActive scripted.menu = false /\
  Update scripted.menu (KeyMsg "q") = (setQuitting scripted.menu, Quit).
Proof.
  destruct (quit_key_unless_loading scripted.menu "q" eq_refl (or_introl eq_refl))
    as [Hquit _].
  exact (conj eq_refl Hquit).
Defined.

Lemma rollback_and_release_unreachable_witness :
  let m := fst (Update scripted.menu (KeyMsg "r")) in
  items m = menuItems /\ flowsOfTheMenu (subModel m).
Proof.
  destruct (rollback_and_release_unreachable
              (fst (Update scripted.menu (KeyMsg "r")))
              (reach_update _ _ (reach_start _)))
    as (_ & _ & _ & Hitems & Hsub).
  exact (conj Hitems Hsub).
Defined.

Lemma release_tags_then_pushes_witness :
  let m := fst (ReleaseModel.Init ReleaseModel.NewReleaseModel) in
  let started := ReleaseModel.Update m (KeyMsg "y") in
  let result := ReleaseModel.doRelease "v1.0.0" "" scripted.tagExists in
  let reported := ReleaseModel.Update (fst started) (fst result) in
  ReleaseModel.state (fst started) = releaseStateWorking /\
  snd started = Run (doRelease "v1.0.0" "") /\
  git.issued (snd result) = [["git"; "tag"; "v1.0.0"]] /\
  fst result =
    releaseErrorMsg
      "failed to create tag: fatal: tag 'v1.0.0' already exists: exit status 1" /\
  ReleaseModel.state (fst reported) = releaseStateError /\
  ReleaseModel.err (fst reported) =
    Some
      "failed to create tag: fatal: tag 'v1.0.0' already exists: exit status 1".
Proof.
  destruct (@release_tags_then_pushes scripted.widgets scripted.host
              (fst (ReleaseModel.Init ReleaseModel.NewReleaseModel))
              StateNormal (KeyMsg "y") scripted.tagExists
              eq_refl eq_refl
              ltac:(intros key [= <-]; reflexivity)
              ltac:(discriminate) ltac:(discriminate)
              ltac:(intros e; discriminate)
              eq_refl eq_refl)
    as (Hstate & Hcmd & _ & (Hissued & _ & Hmsg & Hrep & Herr & _) & _).
  exact (conj Hstate (conj Hcmd (conj Hissued (conj Hmsg (conj Hrep Herr))))).
Defined.

End MenuExamples.

(** ** The status of the repository *)

Lemma append_length (a b : string) :
  String.length (a +:+ b) = (String.length a + String.length b)%nat.
Proof.
  induction a as [|c a IH]; [reflexivity|].
  change (S (String.length (a +:+ b)) = S (String.length a + String.length b)).
  rewrite IH. reflexivity.
Qed.

Lemma Cut_shorter (s sep a b : string) :
  gostrings.Cut s sep = Some (a, b) ->
  (String.length b + String.length sep <= String.length s)%nat.
Proof.
  intros Hcut. rewrite (Cut_Some_app _ _ _ _ Hcut), !append_length. lia.
Qed.

Lemma splitFuel_enough (n m : nat) (s : string) :
  (String.length s <= n)%nat -> (String.length s <= m)%nat ->
  gostrings.splitFuel n s NL = gostrings.splitFuel m s NL.
Proof.
  revert m s. induction n as [|n IH]; intros m s Hn Hm.
  - destruct s; [|cbn in Hn; lia]. destruct m; reflexivity.
  - destruct m as [|m].
    + destruct s; [reflexivity|cbn in Hm; lia].
    + cbn [gostrings.splitFuel].
      destruct (gostrings.Cut s NL) as [[a b]|] eqn:Hcut; [|reflexivity].
      apply Cut_shorter in Hcut. cbn [String.length NL] in Hcut.
      f_equal. apply IH; lia.
Qed.

Lemma Split_unfold (s : string) :
  gostrings.Split s NL =
    match gostrings.Cut s NL with
    | Some (a, b) => a :: gostrings.Split b NL
    | None => [s]
    end.
Proof.
  unfold gostrings.Split. destruct s as [|c s]; [reflexivity|].
  cbn [String.length gostrings.splitFuel].
  destruct (gostrings.Cut (String c s) NL) as [[a b]|] eqn:Hcut; [|reflexivity].
  apply Cut_shorter in Hcut. cbn [String.length NL] in Hcut.
  f_equal. apply splitFuel_enough; lia.
Qed.

Lemma Split_cons (c : ascii) (s : string) :
  gostrings.Split (String c s) NL =
    if Ascii.eqb c LF then EmptyString :: gostrings.Split s NL
    else match gostrings.Split s NL with
         | h :: t => String c h :: t
         | [] => []
         end.
Proof.
  rewrite (Split_unfold (String c s)), Cut_unfold, prefix_NL.
  destruct (Ascii.eqb c LF); [reflexivity|].
  rewrite (Split_unfold s).
  destruct (gostrings.Cut s NL) as [[a b]|]; reflexivity.
Qed.

Lemma Split_lines_app (a b : string) :
  gostrings.Split (a +:+ NL +:+ b) NL =
    gostrings.Split a NL ++ gostrings.Split b NL.
Proof.
  induction a as [|c a IH].
  - change (EmptyString +:+ NL +:+ b) with (String LF b).
    rewrite Split_cons, Ascii.eqb_refl. reflexivity.
  - change (String c a +:+ NL +:+ b) with (String c (a +:+ NL +:+ b)).
    rewrite !Split_cons, IH. destruct (Ascii.eqb c LF); [reflexivity|].
    rewrite (Split_unfold a).
    destruct (gostrings.Cut a NL) as [[x y]|]; reflexivity.
Qed.

(** X1: the porcelain output is scanned line by line: the scan of two
    pieces joined by a line feed is the scan of the second from the
    status the first gives; a final line feed adds nothing; an empty
    output leaves the status as it is. *)
Theorem scanPorcelain_line_by_line (st : git.Status) (a b : string) :
  git.scanPorcelain st (a +:+ NL +:+ b) =
    git.scanPorcelain (git.scanPorcelain st a) b /\
  git.scanPorcelain st (a +:+ NL) = git.scanPorcelain st a /\
  git.scanPorcelain st EmptyString = st.
Proof.
  unfold git.scanPorcelain. split; [|split].
  - rewrite Split_lines_app, foldl_app. reflexivity.
  - replace (a +:+ NL) with (a +:+ NL +:+ EmptyString) by reflexivity.
    rewrite Split_lines_app, foldl_app. reflexivity.
  - reflexivity.
Qed.

Ltac io_unfold :=
  repeat (progress unfold mbind, mret, git.IO_bind, git.IO_ret, git.bind,
            git.ret, git.Run, git.CombinedOutput, git.Output, git.Start,
            git.Getenv, git.LookPath);
  cbv beta.

Ltac io_step :=
  match goal with
  | |- context [git.exec_Command ?a ?w] =>
      let o := fresh "out" in let e := fresh "e" in let w' := fresh "w" in
      destruct (git.exec_Command a w) as [[o [e|]] w'] eqn:?
  | |- context [git.exec_Output ?a ?w] =>
      let o := fresh "out" in let e := fresh "e" in let w' := fresh "w" in
      destruct (git.exec_Output a w) as [[o [e|]] w'] eqn:?
  end;
  cbn [fst snd git.world git.issued git.isNil negb]; cbv beta.

Lemma app_nonempty {A} (l : list A) (a : A) : l ++ [a] <> [].
Proof. destruct l; discriminate. Qed.

Lemma scanLine_agree (st : git.Status) (line : string) :
  git.flagsAgree st -> git.flagsAgree (git.scanLine st line).
Proof.
  intros (H1 & H2 & H3). unfold git.scanLine.
  destruct line as [|x [|y [|c rest]]]; try (repeat split; assumption).
  destruct (negb (git.byteIs x " ") && negb (git.byteIs x "?")),
    (negb (git.byteIs y " ") && negb (git.byteIs y "?")),
    (git.byteIs x "?" && git.byteIs y "?");
    repeat split; cbn;
    first [ assumption
          | symmetry; apply bool_decide_eq_true_2, app_nonempty ].
Qed.

Lemma scanPorcelain_agree (st : git.Status) (output : string) :
  git.flagsAgree st -> git.flagsAgree (git.scanPorcelain st output).
Proof.
  unfold git.scanPorcelain. revert st.
  induction (gostrings.Split output NL) as [|line lines IH]; intros st Hst.
  - exact Hst.
  - cbn [foldl]. apply IH, scanLine_agree, Hst.
Qed.

Section StatusFacts.
Context `{git.Shell} `{git.Fmt}.

Lemma scanAheadBehind_files (ab : string) (st : git.Status) :
  let st' := git.scanAheadBehind ab st in
  git.IsRepo st' = git.IsRepo st /\ git.Branch st' = git.Branch st /\
  git.RemoteURL st' = git.RemoteURL st /\
  git.HasStaged st' = git.HasStaged st /\
  git.HasUnstaged st' = git.HasUnstaged st /\
  git.HasUntracked st' = git.HasUntracked st /\
  git.StagedFiles st' = git.StagedFiles st /\
  git.ModifiedFiles st' = git.ModifiedFiles st /\
  git.UntrackedFiles st' = git.UntrackedFiles st.
Proof.
  cbv zeta. unfold git.scanAheadBehind.
  destruct (0 <? String.length ab)%nat; [|repeat split].
  destruct (gostrings.Fields ab) as [|a [|b [|c l]]]; try (repeat split).
  all: destruct (git.Sscanf_d a), (git.Sscanf_d b); reflexivity.
Qed.

(** The three shapes of the status [GetStatus] returns. *)
Lemma GetStatus_shape (s : git.Sys) :
  snd (fst (git.GetStatus s)) = None /\
  (fst (fst (git.GetStatus s)) = git.emptyStatus \/
   exists branch url,
     fst (fst (git.GetStatus s)) = git.setRepo branch url git.emptyStatus \/
     exists out w,
       fst (fst (git.GetStatus s)) =
         git.scanAheadBehind
           (fst (fst (git.exec_Output
                        ["git"; "rev-list"; "--left-right"; "--count";
                         "HEAD...@{upstream}"] w)))
           (git.scanPorcelain (git.setRepo branch url git.emptyStatus) out)).
Proof.
  unfold git.GetStatus, git.IsRepo', git.GetBranch, git.GetRemoteURL.
  io_unfold.
  repeat first
    [ io_step
    | match goal with
      | |- context [if String.eqb ?a ?b then _ else _] =>
          destruct (String.eqb a b); cbv beta
      end ].
  all: (split; [reflexivity|]);
    first [ left; reflexivity
          | right; do 2 eexists; left; reflexivity
          | right; do 2 eexists; right; do 2 eexists;
            match goal with
            | E : git.exec_Output (_ :: _ :: "--left-right" :: _) _ = _ |- _ =>
                rewrite E
            end; reflexivity ].
Qed.

(** X2: [GetStatus] returns no error, and each flag of the status it
    returns is set exactly when the list of files it goes with is not
    empty. *)
Theorem GetStatus_flags_agree (s : git.Sys) :
  let st := fst (fst (git.GetStatus s)) in
  snd (fst (git.GetStatus s)) = None /\
  git.HasStaged st = bool_decide (git.StagedFiles st <> []) /\
  git.HasUnstaged st = bool_decide (git.ModifiedFiles st <> []) /\
  git.HasUntracked st = bool_decide (git.UntrackedFiles st <> []).
Proof.
  cbv zeta. destruct (GetStatus_shape s) as [Herr Hshape].
  split; [exact Herr|].
  assert (Hempty : forall b u, git.flagsAgree (git.setRepo b u git.emptyStatus))
    by (intros; repeat split).
  change (git.flagsAgree (fst (fst (git.GetStatus s)))).
  destruct Hshape as [-> | (b & u & [-> | (out & w & ->)])].
  - repeat split.
  - apply Hempty.
  - destruct (scanPorcelain_agree _ out (Hempty b u)) as (Ha & Hb & Hc).
    destruct (scanAheadBehind_files
                (fst (fst (git.exec_Output
                             ["git"; "rev-list"; "--left-right"; "--count";
                              "HEAD...@{upstream}"] w)))
                (git.scanPorcelain (git.setRepo b u git.emptyStatus) out))
      as (_ & _ & _ & E1 & E2 & E3 & E4 & E5 & E6).
    unfold git.flagsAgree. rewrite E1, E2, E3, E4, E5, E6. repeat split; assumption.
Qed.

End StatusFacts.

(** *** The records of the porcelain output *)

Lemma scanLine_files (st : git.Status) (line : string) :
  git.StagedFiles (git.scanLine st line) =
    git.StagedFiles st ++ git.StagedFiles (git.scanLine git.emptyStatus line) /\
  git.ModifiedFiles (git.scanLine st line) =
    git.ModifiedFiles st
    ++ git.ModifiedFiles (git.scanLine git.emptyStatus line) /\
  git.UntrackedFiles (git.scanLine st line) =
    git.UntrackedFiles st
    ++ git.UntrackedFiles (git.scanLine git.emptyStatus line).
Proof.
  unfold git.scanLine.
  destruct line as [|x [|y [|c rest]]];
    try (cbn; rewrite !app_nil_r; repeat split; reflexivity).
  destruct (negb (git.byteIs x " ") && negb (git.byteIs x "?")),
    (negb (git.byteIs y " ") && negb (git.byteIs y "?")),
    (git.byteIs x "?" && git.byteIs y "?");
    cbn; rewrite ?app_nil_r; repeat split; reflexivity.
Qed.

Lemma scanLines_files (lines : list string) (st : git.Status) :
  git.StagedFiles (foldl git.scanLine st lines) =
    git.StagedFiles st
    ++ flat_map (fun line =>
                   git.StagedFiles (git.scanLine git.emptyStatus line)) lines /\
  git.ModifiedFiles (foldl git.scanLine st lines) =
    git.ModifiedFiles st
    ++ flat_map (fun line =>
                   git.ModifiedFiles (git.scanLine git.emptyStatus line))
         lines /\
  git.UntrackedFiles (foldl git.scanLine st lines) =
    git.UntrackedFiles st
    ++ flat_map (fun line =>
                   git.UntrackedFiles (git.scanLine git.emptyStatus line))
         lines.
Proof.
  revert st. induction lines as [|line lines IH]; intros st.
  - cbn. rewrite !app_nil_r. repeat split; reflexivity.
  - cbn [foldl flat_map]. destruct (IH (git.scanLine st line)) as (A & B & C).
    destruct (scanLine_files st line) as (A' & B' & C').
    rewrite A, B, C, A', B', C', <- !app_assoc. repeat split; reflexivity.
Qed.

Section StatusRecords.
Context `{git.Shell} `{git.Fmt}.

Lemma GetStatus_scans (s : git.Sys) :
  let revparse := ["git"; "rev-parse"; "--is-inside-work-tree"] in
  let w1 := snd (git.exec_Command revparse (git.world s)) in
  let w2 := snd (git.exec_Output ["git"; "branch"; "--show-current"] w1) in
  let w3 := snd (git.exec_Output ["git"; "remote"; "get-url"; "origin"] w2) in
  let answer := fst (git.exec_Output ["git"; "status"; "--porcelain"] w3) in
  snd (fst (git.exec_Command revparse (git.world s))) = None ->
  snd answer = None ->
  exists branch url ab,
    fst (fst (git.GetStatus s)) =
      git.scanAheadBehind ab
        (git.scanPorcelain (git.setRepo branch url git.emptyStatus)
           (fst answer)).
Proof.
  cbv zeta. unfold git.GetStatus, git.IsRepo', git.GetBranch,
    git.GetRemoteURL. io_unfold.
  destruct (git.exec_Command _ _) as [[o1 e1] w1]. cbn [fst snd].
  intros ->. cbn [git.isNil negb git.world git.issued fst snd]. cbv beta.
  destruct (git.exec_Output ["git"; "branch"; "--show-current"] w1)
    as [[o2 e2] w2]. cbn [fst snd].
  destruct e2 as [e2|]; cbn [fst snd git.world git.issued]; cbv beta;
    try destruct (String.eqb _ _); cbn [fst snd git.world git.issued];
    cbv beta;
    destruct (git.exec_Output ["git"; "remote"; "get-url"; "origin"] w2)
      as [[o3 e3] w3]; cbn [fst snd git.world git.issued];
    destruct e3 as [e3|]; cbn [fst snd git.world git.issued]; cbv beta;
    destruct (git.exec_Output ["git"; "status"; "--porcelain"] w3)
      as [[o4 e4] w4]; cbn [fst snd git.world git.issued];
    intros ->; cbn [fst snd git.world git.issued]; cbv beta;
    destruct (git.exec_Output _ w4) as [[o5 e5] w5];
    cbn [fst snd]; do 3 eexists; reflexivity.
Qed.

(** C5: [GetStatus], in a repository where [git status --porcelain]
    answers, classifies every record of the answer on its own, in the
    order of the answer: its staged, modified and untracked files are
    those that the records give one by one, and each flag is set exactly
    when its list is not empty; a record with index byte [x] and
    worktree byte [y] gives its file to the staged files iff [x] is
    neither a space nor '?', to the modified files iff [y] is neither a
    space nor '?', and to the untracked files iff both are '?', in which
    case it gives it to nothing else; the record "MM main.go" is both
    staged and modified. *)
Theorem porcelain_classification
    (s : git.Sys) (st : git.Status) (x y c : ascii) (rest : string) :
  let revparse := ["git"; "rev-parse"; "--is-inside-work-tree"] in
  let w1 := snd (git.exec_Command revparse (git.world s)) in
  let w2 := snd (git.exec_Output ["git"; "branch"; "--show-current"] w1) in
  let w3 := snd (git.exec_Output ["git"; "remote"; "get-url"; "origin"] w2) in
  let answer := fst (git.exec_Output ["git"; "status"; "--porcelain"] w3) in
  let records := gostrings.Split (fst answer) NL in
  let got := fst (fst (git.GetStatus s)) in
  (* every record of the answer, one by one *)
  (snd (fst (git.exec_Command revparse (git.world s))) = None ->
   snd answer = None ->
   git.StagedFiles got =
     flat_map (fun record =>
                 git.StagedFiles (git.scanLine git.emptyStatus record))
       records /\
   git.ModifiedFiles got =
     flat_map (fun record =>
                 git.ModifiedFiles (git.scanLine git.emptyStatus record))
       records /\
   git.UntrackedFiles got =
     flat_map (fun record =>
                 git.UntrackedFiles (git.scanLine git.emptyStatus record))
       records /\
   git.HasStaged got = bool_decide (git.StagedFiles got <> []) /\
   git.HasUnstaged got = bool_decide (git.ModifiedFiles got <> []) /\
   git.HasUntracked got = bool_decide (git.UntrackedFiles got <> [])) /\
  (* one record *)
  let file := gostrings.TrimSpace rest in
  let st' := git.scanLine st (String x (String y (String c rest))) in
  ((x <> " "%char /\ x <> "?"%char) <->
     git.StagedFiles st' = git.StagedFiles st ++ [file]) /\
  (git.StagedFiles st' = git.StagedFiles st ++ [file] \/
   git.StagedFiles st' = git.StagedFiles st) /\
  ((y <> " "%char /\ y <> "?"%char) <->
     git.ModifiedFiles st' = git.ModifiedFiles st ++ [file]) /\
  (git.ModifiedFiles st' = git.ModifiedFiles st ++ [file] \/
   git.ModifiedFiles st' = git.ModifiedFiles st) /\
  ((x = "?"%char /\ y = "?"%char) <->
     git.UntrackedFiles st' = git.UntrackedFiles st ++ [file]) /\
  (git.UntrackedFiles st' = git.UntrackedFiles st ++ [file] \/
   git.UntrackedFiles st' = git.UntrackedFiles st) /\
  (x = "?"%char /\ y = "?"%char ->
     git.StagedFiles st' = git.StagedFiles st /\
     git.ModifiedFiles st' = git.ModifiedFiles st) /\
  (git.HasStaged st' =
     git.HasStaged st || bool_decide (x <> " "%char /\ x <> "?"%char)) /\
  (git.HasUnstaged st' =
     git.HasUnstaged st || bool_decide (y <> " "%char /\ y <> "?"%char)) /\
  (git.HasUntracked st' =
     git.HasUntracked st || bool_decide (x = "?"%char /\ y = "?"%char)) /\
  (let both := git.scanLine git.emptyStatus "MM main.go" in
   git.StagedFiles both = ["main.go"] /\
   git.ModifiedFiles both = ["main.go"] /\
   git.UntrackedFiles both = []).
Proof.
  intros revparse w1 w2 w3 answer records got.
  split; [|exact (scanLine_classification st x y c rest)].
  intros Hrepo Hanswer.
  destruct (GetStatus_scans s Hrepo Hanswer) as (b & u & ab & Hgot).
  subst got records answer w3 w2 w1 revparse. cbv zeta in Hgot.
  rewrite Hgot. clear Hgot.
  set (out := fst (fst (git.exec_Output ["git"; "status"; "--porcelain"] _))).
  set (st0 := git.setRepo b u git.emptyStatus).
  destruct (scanAheadBehind_files ab (git.scanPorcelain st0 out))
    as (_ & _ & _ & E1 & E2 & E3 & E4 & E5 & E6).
  assert (Hflags : git.flagsAgree (git.scanPorcelain st0 out))
    by (apply scanPorcelain_agree; repeat split).
  destruct Hflags as (F1 & F2 & F3).
  destruct (scanLines_files (gostrings.Split out NL) st0) as (A & B & C).
  rewrite E1, E2, E3, E4, E5, E6.
  unfold git.scanPorcelain in *.
  rewrite A, B, C in *. cbn [st0 git.setRepo git.StagedFiles
    git.ModifiedFiles git.UntrackedFiles git.emptyStatus app] in *.
  repeat split; assumption || reflexivity.
Qed.


End StatusRecords.

Section IssuesFacts.
Context `{git.Shell} `{git.Fmt}.
Variable P : list string -> Prop.

Lemma issues_ret {A} (a : A) : git.issues P (mret a).
Proof. intros s. exists []. rewrite app_nil_r. split; [reflexivity|constructor]. Qed.

Lemma issues_bind {A B} (m : git.IO A) (k : A -> git.IO B) :
  git.issues P m -> (forall a, git.issues P (k a)) -> git.issues P (m ≫= k).
Proof.
  intros Hm Hk s. unfold mbind, git.IO_bind, git.bind.
  destruct (Hm s) as (tr1 & E1 & F1). destruct (m s) as [a s1].
  destruct (Hk a s1) as (tr2 & E2 & F2). exists (tr1 ++ tr2).
  cbn [snd] in *. rewrite E2, E1, app_assoc. split; [reflexivity|].
  apply Forall_app. split; assumption.
Qed.

Lemma issues_CombinedOutput (argv : list string) :
  P argv -> git.issues P (git.CombinedOutput argv).
Proof.
  intros Hp s. exists [argv]. unfold git.CombinedOutput.
  destruct (git.exec_Command _ _). split; [reflexivity|].
  repeat constructor. exact Hp.
Qed.

Lemma issues_Run (argv : list string) : P argv -> git.issues P (git.Run argv).
Proof.
  intros Hp. unfold git.Run. apply issues_bind.
  - apply issues_CombinedOutput, Hp.
  - intros a. apply issues_ret.
Qed.

Lemma issues_Output (argv : list string) :
  P argv -> git.issues P (git.Output argv).
Proof.
  intros Hp s. exists [argv]. unfold git.Output.
  destruct (git.exec_Output _ _). split; [reflexivity|].
  repeat constructor. exact Hp.
Qed.

Lemma issues_Start (argv : list string) : P argv -> git.issues P (git.Start argv).
Proof.
  intros Hp s. exists [argv]. unfold git.Start.
  destruct (git.exec_Start _ _). split; [reflexivity|].
  repeat constructor. exact Hp.
Qed.

Lemma issues_Getenv (key : string) : git.issues P (git.Getenv key).
Proof. intros s. exists []. rewrite app_nil_r. split; [reflexivity|constructor]. Qed.

Lemma issues_LookPath (file : string) : git.issues P (git.LookPath file).
Proof. intros s. exists []. rewrite app_nil_r. split; [reflexivity|constructor]. Qed.

End IssuesFacts.

Ltac issues_step :=
  first
    [ apply issues_ret
    | apply issues_Getenv
    | apply issues_LookPath
    | apply issues_Run
    | apply issues_Output
    | apply issues_CombinedOutput
    | apply issues_Start
    | apply issues_bind; [|intros ?]
    | match goal with
      | |- git.issues _ (match ?x with _ => _ end) => destruct x
      end ].

Ltac issues_auto := repeat issues_step.

Section TaskFacts.
Context `{git.Shell} `{git.Fmt}.

Lemma GetStatus_issues (P : list string -> Prop) :
  (forall argv, argv ∈ git.statusQueries -> P argv) -> git.issues P git.GetStatus.
Proof.
  intros HP. unfold git.GetStatus, git.IsRepo', git.GetBranch,
    git.GetRemoteURL.
  issues_auto; apply HP; unfold git.statusQueries; set_solver.
Qed.

Lemma GetGitHubURL_issues (P : list string -> Prop) :
  P ["git"; "remote"; "get-url"; "origin"] -> git.issues P git.GetGitHubURL.
Proof.
  intros HP. unfold git.GetGitHubURL, git.GetRemoteURL.
  issues_auto; exact HP.
Qed.

(** X3: [refreshStatus] always delivers a status and never an error,
    and runs only the five queries of [GetStatus]. *)
Theorem refreshStatus_reads_only (s : git.Sys) :
  (exists st, fst (ui.task.refreshStatus s) = ui.statusMsg (Some st) None) /\
  exists tr,
    git.issued (snd (ui.task.refreshStatus s)) = git.issued s ++ tr /\
    Forall (fun argv => argv ∈ git.statusQueries) tr.
Proof.
  split.
  - unfold ui.task.refreshStatus, mbind, git.IO_bind, git.bind.
    destruct (GetStatus_shape s) as [Herr _].
    destruct (git.GetStatus s) as [[st e] s']. cbn [fst snd] in *.
    subst e. exists st. reflexivity.
  - apply (issues_bind _ git.GetStatus).
    + apply GetStatus_issues. auto.
    + intros a. issues_auto.
Qed.

(** X4: no task other than the reset and the rollback runs
    [git reset]: not the status refresh, lazygit, the check of the
    staged changes, the check of the repository, the push, the publish,
    the release, the commit, nor any direct action of the menu. *)
Theorem only_reset_and_rollback_discard
    (cfg : config.Config) (fields : ui.PublishFields)
    (tagName message branch : string) (useAI : bool) (a : ui.Action)
    (body : git.IO ui.Msg) :
  body ∈ [ ui.task.refreshStatus; ui.task.execLazygit;
           ui.task.checkStatusAsync useAI; ui.task.checkRepo;
           ui.task.pushToRemote branch; ui.task.doPublish cfg fields tagName;
           ui.ReleaseModel.doRelease tagName message;
           ui.CommitModel.doCommit message ] \/
  ui.task.direct a = Some body ->
  forall s, exists tr,
    git.issued (snd (body s)) = git.issued s ++ tr /\
    Forall (fun argv => take 2 argv <> ["git"; "reset"]) tr.
Proof.
  assert (Hst : git.issues (fun argv => take 2 argv <> ["git"; "reset"]) git.GetStatus).
  { apply GetStatus_issues. unfold git.statusQueries. intros argv Hin.
    repeat (apply elem_of_cons in Hin as [->|Hin]; [discriminate|]).
    inversion Hin. }
  assert (Hurl : git.issues (fun argv => take 2 argv <> ["git"; "reset"]) git.GetGitHubURL).
  { apply GetGitHubURL_issues. discriminate. }
  intros Hbody. change (git.issues (fun argv => take 2 argv <> ["git"; "reset"]) body).
  destruct Hbody as [Hin | Hdirect].
  - repeat (apply elem_of_cons in Hin as [->|Hin]);
      [ .. | inversion Hin ];
      unfold ui.task.refreshStatus, ui.task.execLazygit,
        ui.task.checkStatusAsync, ui.task.checkRepo, ui.task.pushToRemote,
        ui.task.doPublish, ui.ReleaseModel.doRelease, ui.CommitModel.doCommit,
        git.HasStagedChanges, git.GetDiff, git.IsRepo', git.Init,
        git.GetBranch, git.HasRemote, git.AddAll, git.Add, git.Commit,
        git.PushWithUpstream, git.SetUser, git.SetConfig, git.Tag,
        git.TagAnnotated, git.PushTags;
      repeat first [ exact Hst | exact Hurl | issues_step ];
      try discriminate.
    destruct (String.eqb _ _); discriminate.
  - destruct a; try discriminate Hdirect; injection Hdirect as <-;
      unfold git.AddAll, git.Add, git.Push, git.Pull, git.OpenBrowser,
        git.GetBranches;
      repeat first [ exact Hst | exact Hurl | issues_step ];
      try discriminate.
Qed.

End TaskFacts.

Lemma scanLine_counts (st : git.Status) (line : string) :
  git.Ahead (git.scanLine st line) = git.Ahead st /\
  git.Behind (git.scanLine st line) = git.Behind st.
Proof.
  unfold git.scanLine. destruct line as [|x [|y [|c rest]]]; try (split; reflexivity).
  destruct (negb _ && negb _), (negb _ && negb _), (git.byteIs x "?" && _);
    split; reflexivity.
Qed.

Lemma scanPorcelain_counts (st : git.Status) (output : string) :
  git.Ahead (git.scanPorcelain st output) = git.Ahead st /\
  git.Behind (git.scanPorcelain st output) = git.Behind st.
Proof.
  unfold git.scanPorcelain. revert st.
  induction (gostrings.Split output NL) as [|line lines IH]; intros st.
  - split; reflexivity.
  - cbn [foldl]. destruct (IH (git.scanLine st line)) as [-> ->].
    apply scanLine_counts.
Qed.

Section StatusMore.
Context `{git.Shell} `{git.Fmt}.

(** X5: outside a repository, when [git rev-parse] fails, [GetStatus]
    returns the empty status with no error and runs no other command. *)
Theorem GetStatus_outside_repository (s : git.Sys) :
  let query := ["git"; "rev-parse"; "--is-inside-work-tree"] in
  snd (fst (git.exec_Command query (git.world s))) <> None ->
  git.GetStatus s =
    ((git.emptyStatus, None),
     git.mkSys (snd (git.exec_Command query (git.world s)))
       (git.issued s ++ [query])).
Proof.
  intros query Hfail. unfold git.GetStatus, git.IsRepo'. io_unfold.
  subst query. destruct (git.exec_Command _ _) as [[out [e|]] w].
  - reflexivity.
  - destruct (Hfail eq_refl).
Qed.

(** X6: a count of commits ahead or behind that is not zero was read
    from an output of [git rev-list] of exactly two fields, by
    [Sscanf]. *)
Theorem counts_need_two_fields (s : git.Sys) :
  let st := fst (fst (git.GetStatus s)) in
  git.Ahead st <> 0 \/ git.Behind st <> 0 ->
  exists (w : git.World) (ahead behind : string),
    gostrings.Fields
      (fst (fst (git.exec_Output
                   ["git"; "rev-list"; "--left-right"; "--count";
                    "HEAD...@{upstream}"] w))) = [ahead; behind] /\
    (git.Ahead st = 0 \/ git.Sscanf_d ahead = Some (git.Ahead st)) /\
    (git.Behind st = 0 \/ git.Sscanf_d behind = Some (git.Behind st)).
Proof.
  cbv zeta. destruct (GetStatus_shape s) as [_ Hshape].
  destruct Hshape as [-> | (b & u & [-> | (out & w & ->)])].
  - intros [Hne | Hne]; destruct (Hne eq_refl).
  - intros [Hne | Hne]; destruct (Hne eq_refl).
  - set (ab := fst (fst (git.exec_Output _ w))).
    set (st0 := git.scanPorcelain _ out).
    assert (Hz : git.Ahead st0 = 0 /\ git.Behind st0 = 0)
      by apply scanPorcelain_counts.
    destruct Hz as [Ha Hb]. unfold git.scanAheadBehind.
    destruct (0 <? String.length ab)%nat;
      [|rewrite Ha, Hb; intros [Hne | Hne]; destruct (Hne eq_refl)].
    destruct (gostrings.Fields ab) as [|f1 [|f2 [|f3 l]]] eqn:Hf;
      try (rewrite Ha, Hb; intros [Hne | Hne]; destruct (Hne eq_refl)).
    intros _. exists w, f1, f2. fold ab. split; [exact Hf|].
    destruct (git.Sscanf_d f1) as [n1|], (git.Sscanf_d f2) as [n2|];
      cbn; rewrite ?Ha, ?Hb; split; auto.
Qed.

(** X7: [GetBranch] returns a branch name that is not empty or an
    error with an empty name ("main" stands for an empty answer), and
    the branch the publish flow is told is never empty. *)
Theorem branch_is_never_empty (s : git.Sys) :
  (snd (fst (git.GetBranch s)) = None ->
   fst (fst (git.GetBranch s)) <> EmptyString) /\
  (snd (fst (git.GetBranch s)) <> None ->
   fst (fst (git.GetBranch s)) = EmptyString) /\
  (forall branch hasRemote,
     fst (ui.task.checkRepo s) = ui.publishRepoCheckedMsg branch hasRemote ->
     branch <> EmptyString).
Proof.
  assert (Hb : forall s0,
    (snd (fst (git.GetBranch s0)) = None ->
     fst (fst (git.GetBranch s0)) <> EmptyString) /\
    (snd (fst (git.GetBranch s0)) <> None ->
     fst (fst (git.GetBranch s0)) = EmptyString)).
  { intros s0. unfold git.GetBranch. io_unfold.
    destruct (git.exec_Output _ _) as [[out [e|]] w]; cbn [fst snd].
    - split; [discriminate|reflexivity].
    - destruct (String.eqb_spec (gostrings.TrimSpace out) ""); cbn [fst snd];
        (split; [|intros Hne; destruct (Hne eq_refl)]).
      + discriminate.
      + intros _. assumption. }
  split; [apply Hb|]. split; [apply Hb|].
  intros branch hasRemote.
  unfold ui.task.checkRepo, git.IsRepo', git.Init, git.GetBranch,
    git.HasRemote.
  io_unfold.
  repeat first
    [ io_step
    | match goal with
      | |- context [String.eqb (gostrings.TrimSpace ?o) ""] =>
          destruct (String.eqb_spec (gostrings.TrimSpace o) "");
          cbn [fst snd]; cbv beta
      end ];
    cbn; intros Heq; inversion Heq; subst; first [discriminate | assumption].
Qed.

Lemma branches_of_lines (lines : list string) :
  flat_map git.branchOfLine lines =
    List.filter (fun branch => negb (String.eqb branch ""))
      (map (fun line => gostrings.TrimSpace (gostrings.TrimPrefix line "*"))
         lines).
Proof.
  induction lines as [|line lines IH]; [reflexivity|].
  cbn [flat_map map List.filter]. unfold git.branchOfLine at 1.
  destruct (negb (String.eqb _ "")); rewrite IH; reflexivity.
Qed.

(** X8: when [git branch -a] answers, [GetBranches] returns, in the
    order of the answer, every line of it without its leading star and
    its surrounding white space, the empty ones left out, so no name is
    empty; when the command fails it returns the error and no
    branch. *)
Theorem branches_have_names (s : git.Sys) :
  let answer := fst (git.exec_Output ["git"; "branch"; "-a"] (git.world s)) in
  let r := fst (git.GetBranches s) in
  (snd answer <> None -> r = ([], snd answer)) /\
  (snd answer = None ->
   snd r = None /\
   fst r =
     List.filter (fun branch => negb (String.eqb branch ""))
       (map (fun line => gostrings.TrimSpace (gostrings.TrimPrefix line "*"))
          (gostrings.Split (fst answer) NL)) /\
   Forall (fun branch => branch <> EmptyString) (fst r)).
Proof.
  cbv zeta. unfold git.GetBranches. io_unfold.
  destruct (git.exec_Output _ _) as [[out [e|]] w]; cbn [fst snd].
  - split; [reflexivity|discriminate].
  - split; [intros Hne; destruct (Hne eq_refl)|]. intros _.
    split; [reflexivity|]. rewrite branches_of_lines. split; [reflexivity|].
    apply Forall_forall. intros b Hin.
    apply list_elem_of_In, filter_In in Hin as [_ Hb].
    intros ->. discriminate.
Qed.

End StatusMore.

(** ** Prefixes and suffixes *)

Lemma prefix_app (p x : string) : String.prefix p (p +:+ x) = true.
Proof.
  induction p as [|c p IH]; [apply prefix_empty|].
  change (String c p +:+ x) with (String c (p +:+ x)).
  rewrite prefix_cons. destruct (ascii_dec c c); [exact IH|congruence].
Qed.

Lemma drop_app (p x : string) : gostrings.drop (String.length p) (p +:+ x) = x.
Proof. induction p as [|c p IH]; [reflexivity|exact IH]. Qed.

Lemma take_app (p x : string) : gostrings.take (String.length p) (p +:+ x) = p.
Proof.
  induction p as [|c p IH]; [reflexivity|].
  change (String c (gostrings.take (String.length p) (p +:+ x)) = String c p).
  rewrite IH. reflexivity.
Qed.

Lemma TrimPrefix_app (p x : string) : gostrings.TrimPrefix (p +:+ x) p = x.
Proof.
  unfold gostrings.TrimPrefix, gostrings.HasPrefix.
  rewrite prefix_app. apply drop_app.
Qed.

Lemma TrimSuffix_app (x suffix : string) :
  gostrings.TrimSuffix (x +:+ suffix) suffix = x.
Proof.
  unfold gostrings.TrimSuffix, gostrings.HasSuffix.
  rewrite append_length.
  replace (String.length x + String.length suffix - String.length suffix)%nat
    with (String.length x) by lia.
  rewrite drop_app, take_app, String.eqb_refl.
  replace (String.length suffix <=? String.length x + String.length suffix)%nat
    with true by (symmetry; apply Nat.leb_le; lia).
  reflexivity.
Qed.

Lemma prefix_char (c : ascii) (s : string) :
  String.prefix (String c EmptyString) s =
    match s with String d _ => Ascii.eqb d c | _ => false end.
Proof.
  destruct s as [|d s]; [reflexivity|]. rewrite prefix_cons.
  destruct (ascii_dec c d) as [<-|Hne].
  - rewrite Ascii.eqb_refl. apply prefix_empty.
  - symmetry. apply Ascii.eqb_neq. congruence.
Qed.

Lemma Cut_char (c : ascii) (before after : string) :
  gostrings.Contains before (String c EmptyString) = false ->
  gostrings.Cut (before +:+ String c after) (String c EmptyString) =
    Some (before, after).
Proof.
  unfold gostrings.Contains.
  induction before as [|d before IH]; intros Hfree.
  - change (EmptyString +:+ String c after) with (String c after).
    rewrite Cut_unfold, prefix_char, Ascii.eqb_refl. reflexivity.
  - change (String d before +:+ String c after)
      with (String d (before +:+ String c after)).
    rewrite Cut_unfold, prefix_char in Hfree |- *.
    destruct (Ascii.eqb d c); [discriminate|].
    destruct (gostrings.Cut before _) as [[? ?]|]; [discriminate|].
    rewrite IH by reflexivity. reflexivity.
Qed.

Lemma append_assoc (a b c : string) : (a +:+ b) +:+ c = a +:+ b +:+ c.
Proof.
  induction a as [|x a IH]; [reflexivity|].
  change (String x ((a +:+ b) +:+ c) = String x (a +:+ b +:+ c)).
  rewrite IH. reflexivity.
Qed.

Lemma webURL_ssh (host path : string) :
  gostrings.Contains host ":" = false ->
  git.webURL ("git@" +:+ host +:+ ":" +:+ path +:+ ".git") =
    "https://" +:+ host +:+ "/" +:+ path.
Proof.
  intros Hhost. unfold git.webURL, gostrings.HasPrefix.
  rewrite prefix_app, TrimPrefix_app. unfold gostrings.ReplaceFirst.
  change (":" +:+ path +:+ ".git") with (String ":" (path +:+ ".git")).
  rewrite (Cut_char ":" host _ Hhost).
  replace ("https://" +:+ host +:+ "/" +:+ path +:+ ".git")
    with (("https://" +:+ host +:+ "/" +:+ path) +:+ ".git").
  - apply TrimSuffix_app.
  - rewrite !append_assoc. reflexivity.
Qed.

Lemma append_cons (c : ascii) (s x : string) :
  String c s +:+ x = String c (s +:+ x).
Proof. reflexivity. Qed.

Section RemoteFacts.
Context `{git.Shell} `{git.Fmt}.

(** X10: an SSH remote [git@host:path.git] on GitHub is turned into
    [https://host/path]. *)
Theorem ssh_remote_becomes_web_address
    (s : git.Sys) (host path : string) :
  let remote := "git@" +:+ host +:+ ":" +:+ path +:+ ".git" in
  let answer :=
    git.exec_Output ["git"; "remote"; "get-url"; "origin"] (git.world s) in
  snd (fst answer) = None ->
  gostrings.TrimSpace (fst (fst answer)) = remote ->
  gostrings.Contains remote "github.com" = true ->
  gostrings.Contains host ":" = false ->
  fst (git.GetGitHubURL s) = ("https://" +:+ host +:+ "/" +:+ path, None).
Proof.
  intros remote answer Hok Hremote Hgithub Hhost.
  unfold git.GetGitHubURL, git.GetRemoteURL. io_unfold.
  subst answer. destruct (git.exec_Output _ _) as [[out e] w].
  cbn [fst snd] in *. subst e. cbn [fst snd]. cbv beta.
  rewrite Hremote, Hgithub. cbn [negb fst].
  subst remote. rewrite (webURL_ssh host path Hhost). reflexivity.
Qed.

(** X11: [GetGitHubURL] fails exactly when [git remote get-url origin]
    fails or its trimmed answer does not contain "github.com", and then
    returns an empty address; otherwise, for an answer that does not
    start with "git@", it returns the answer without its ".git" ending,
    and the answer itself when it has no such ending. *)
Theorem web_address_or_error (s : git.Sys) (url : string) :
  let answer :=
    fst (git.exec_Output ["git"; "remote"; "get-url"; "origin"]
           (git.world s)) in
  let remote := gostrings.TrimSpace (fst answer) in
  let r := fst (git.GetGitHubURL s) in
  (snd r <> None <->
   snd answer <> None \/ gostrings.Contains remote "github.com" = false) /\
  (snd r <> None -> fst r = EmptyString) /\
  (snd r = None -> gostrings.HasPrefix remote "git@" = false ->
   (remote = url +:+ ".git" -> fst r = url) /\
   (gostrings.HasSuffix remote ".git" = false -> fst r = remote)).
Proof.
  cbv zeta. unfold git.GetGitHubURL, git.GetRemoteURL. io_unfold.
  destruct (git.exec_Output _ _) as [[out [e|]] w]; cbn [fst snd]; cbv beta.
  - split; [split; [intros _; left; discriminate|discriminate]|].
    split; [reflexivity|discriminate].
  - destruct (gostrings.Contains (gostrings.TrimSpace out) "github.com")
      eqn:Hg; cbn [negb fst snd].
    + split.
      { split; [intros Hne; destruct (Hne eq_refl)|].
        intros [Hne|Hne]; [destruct (Hne eq_refl)|discriminate]. }
      split; [intros Hne; destruct (Hne eq_refl)|].
      intros _ Hp. unfold git.webURL. rewrite Hp. split.
      * intros ->. apply TrimSuffix_app.
      * intros Hs. unfold gostrings.TrimSuffix. rewrite Hs. reflexivity.
    + split; [split; [intros _; right; reflexivity|discriminate]|].
      split; [reflexivity|discriminate].
Qed.

(** X12: when [git add .] fails, the publish reports "failed to stage
    changes" and runs nothing after it. *)
Theorem publish_stops_when_staging_fails
    (cfg : config.Config) (fields : ui.PublishFields) (tagName e : string)
    (s : git.Sys) :
  config.UserName (config.Git cfg) = EmptyString ->
  snd (fst (git.exec_Command ["git"; "add"; "."] (git.world s))) = Some e ->
  ui.task.doPublish cfg fields tagName s =
    (ui.publishErrorMsg ("failed to stage changes: " +:+ e),
     git.mkSys (snd (git.exec_Command ["git"; "add"; "."] (git.world s)))
       (git.issued s ++ [["git"; "add"; "."]])).
Proof.
  intros Huser Hfail. unfold ui.task.doPublish, git.AddAll, git.Add.
  rewrite Huser. cbn [String.eqb negb andb]. io_unfold.
  destruct (git.exec_Command _ _) as [[out e'] w]. cbn [fst snd] in *.
  subst e'. reflexivity.
Qed.

Lemma publish_Update_tagName `{ui.Widgets} (m : ui.PublishModel.t) (msg : ui.Msg) :
  ui.PublishModel.tagName (fst (ui.PublishModel.Update m msg)) =
    ui.PublishModel.tagName m.
Proof.
  unfold ui.PublishModel.Update, ui.PublishModel.updateForm,
    ui.PublishModel.handleEnter, ui.PublishModel.initForm.
  destruct msg;
    repeat match goal with
    | |- context [if ?b then _ else _] => destruct b
    | |- context [match ui.PublishModel.state m with _ => _ end] =>
        destruct (ui.PublishModel.state m)
    | |- context [match ui.PublishModel.form m with _ => _ end] =>
        destruct (ui.PublishModel.form m)
    | |- context [let (_, _) := ?x in _] => destruct x
    | |- context [match ui.form_State ?f with _ => _ end] =>
        destruct (ui.form_State f)
    end; reflexivity.
Qed.

End RemoteFacts.

Section PublishFacts.
Context `{ui.Widgets} `{git.Shell} `{git.Fmt}.

Lemma publishRuns_tagName (m : ui.PublishModel.t) :
  ui.publishRuns m -> ui.PublishModel.tagName m = EmptyString.
Proof.
  induction 1 as [cfg|m msg _ IH]; [reflexivity|].
  rewrite publish_Update_tagName. exact IH.
Qed.

Lemma publish_dispatch (m : ui.PublishModel.t) (msg : ui.Msg)
    (fields : ui.PublishFields) (tagName : string) :
  snd (ui.PublishModel.Update m msg) = ui.Run (ui.doPublish fields tagName) ->
  ui.PublishModel.state m = ui.publishStateConfirm /\
  msg = ui.KeyMsg "enter" /\
  fields = ui.PublishModel.fields m /\
  tagName = ui.PublishModel.tagName m.
Proof.
  unfold ui.PublishModel.Update, ui.PublishModel.updateForm,
    ui.PublishModel.handleEnter, ui.PublishModel.initForm.
  destruct msg as [key| | | | | | | | | | | | | | | | | | | | | |];
    try (repeat match goal with
         | |- context [if ?b then _ else _] => destruct b
         | |- context [match ui.PublishModel.state m with _ => _ end] =>
             destruct (ui.PublishModel.state m)
         | |- context [match ui.PublishModel.form m with _ => _ end] =>
             destruct (ui.PublishModel.form m)
         | |- context [let (_, _) := ?x in _] => destruct x
         | |- context [match ui.form_State ?f with _ => _ end] =>
             destruct (ui.form_State f)
         end; cbn; discriminate).
  destruct (ui.isCancelKey key); [cbn; discriminate|].
  destruct (String.eqb_spec key "enter") as [->|Hne]; cbn [andb].
  - unfold ui.PublishModel.inForm.
    destruct (ui.PublishModel.state m) eqn:Hst; cbn [negb];
      try (cbn; discriminate).
    + destruct (ui.PublishModel.form m); [|cbn; discriminate].
      destruct (ui.publish_Update _ _ _) as [[? ?] ?].
      destruct (ui.form_State _); cbn; discriminate.
    + cbn. intros [= <- <-]. repeat split; reflexivity.
  - destruct (ui.PublishModel.state m); try (cbn; discriminate).
    destruct (ui.PublishModel.form m); [|cbn; discriminate].
    destruct (ui.publish_Update _ _ _) as [[? ?] ?].
    destruct (ui.form_State _); cbn; discriminate.
Qed.

Lemma doPublish_no_tag (cfg : config.Config) (fields : ui.PublishFields) :
  git.issues (fun argv => take 2 argv <> ["git"; "tag"])
    (ui.task.doPublish cfg fields EmptyString).
Proof.
  assert (Hst : git.issues (fun argv => take 2 argv <> ["git"; "tag"])
                  git.GetStatus).
  { apply GetStatus_issues. unfold git.statusQueries. intros argv Hin.
    repeat (apply elem_of_cons in Hin as [->|Hin]; [discriminate|]).
    inversion Hin. }
  assert (Hurl : git.issues (fun argv => take 2 argv <> ["git"; "tag"])
                   git.GetGitHubURL).
  { apply GetGitHubURL_issues. discriminate. }
  unfold ui.task.doPublish, git.AddAll, git.Add, git.Commit, git.SetUser,
    git.SetConfig.
  rewrite andb_false_r.
  repeat first [ exact Hst | exact Hurl | issues_step ]; discriminate.
Qed.

(** X13: the tag name of the publish flow is never set, so a publish
    that the flow starts creates no tag, whatever the form says. *)
Theorem publish_never_tags
    (m : ui.PublishModel.t) (msg : ui.Msg) (fields : ui.PublishFields)
    (tagName : string) :
  ui.publishRuns m ->
  snd (ui.PublishModel.Update m msg) = ui.Run (ui.doPublish fields tagName) ->
  tagName = EmptyString /\
  forall s, exists tr,
    git.issued (snd (ui.task.doPublish (ui.PublishModel.cfg m) fields tagName s))
      = git.issued s ++ tr /\
    Forall (fun argv => take 2 argv <> ["git"; "tag"]) tr.
Proof.
  intros Hruns Hcmd. destruct (publish_dispatch _ _ _ _ Hcmd) as (_ & _ & _ & ->).
  rewrite (publishRuns_tagName m Hruns). split; [reflexivity|].
  apply doPublish_no_tag.
Qed.

(** X14: the publish flow starts [doPublish] only on enter at the
    confirmation step, with the fields of the model, and the
    confirmation step is entered only by a completed form. *)
Theorem publish_runs_only_after_the_form
    (m : ui.PublishModel.t) (msg : ui.Msg) :
  (forall fields tagName,
     snd (ui.PublishModel.Update m msg) = ui.Run (ui.doPublish fields tagName) ->
     ui.PublishModel.state m = ui.publishStateConfirm /\
     msg = ui.KeyMsg "enter" /\
     fields = ui.PublishModel.fields m) /\
  (ui.PublishModel.state (fst (ui.PublishModel.Update m msg)) =
     ui.publishStateConfirm ->
   ui.PublishModel.state m = ui.publishStateConfirm \/
   ui.PublishModel.state m = ui.publishStateForm /\
   exists f,
     ui.PublishModel.form m = Some f /\
     ui.form_State
       (fst (fst (ui.publish_Update f (ui.PublishModel.fields m) msg))) =
       ui.StateCompleted).
Proof.
  split.
  - intros fields tagName Hcmd.
    destruct (publish_dispatch _ _ _ _ Hcmd) as (? & ? & ? & _). auto.
  - unfold ui.PublishModel.Update, ui.PublishModel.updateForm,
      ui.PublishModel.handleEnter, ui.PublishModel.initForm,
      ui.PublishModel.inForm.
    destruct (ui.PublishModel.state m) eqn:Hst; auto;
      destruct msg;
      repeat match goal with
      | |- context [if ?b then _ else _] => destruct b
      | |- context [let (_, _) := ui.spinner_Update ?a ?b in _] =>
          destruct (ui.spinner_Update a b)
      | |- context [match ui.PublishModel.form m with _ => _ end] =>
          destruct (ui.PublishModel.form m) eqn:?
      | |- context [let (_, _) := ui.publish_Update ?f ?b ?c in _] =>
          destruct (ui.publish_Update f b c) as [[? ?] ?] eqn:?
      | |- context [match ui.form_State ?f with _ => _ end] =>
          destruct (ui.form_State f) eqn:?
      end; cbn; rewrite ?Hst; intros Hc; try discriminate Hc;
      right; (split; [reflexivity|]); eexists; (split; [reflexivity|]);
      match goal with
      | Hup : ui.publish_Update _ _ _ = _ |- _ => rewrite Hup
      end; assumption.
Qed.

End PublishFacts.

Section PushFacts.
Context `{git.Shell} `{git.Fmt}.

(** X15: the commands of the push to an existing remote are, in this
    order: queries of [GetStatus]; [git add .] and [git commit -m
    Update] exactly when the status has modified or untracked files
    (staged files alone are not committed); [git push -u origin branch],
    always, whatever became of the two before; then at most the query of
    the remote. *)
Theorem push_commits_only_unstaged_work (branch : string) (s : git.Sys) :
  let st := fst (fst (git.GetStatus s)) in
  let dirty := git.HasUnstaged st || git.HasUntracked st in
  exists before after,
    git.issued (snd (ui.task.pushToRemote branch s)) =
      git.issued s ++ before
      ++ (if dirty
          then [["git"; "add"; "."]; ["git"; "commit"; "-m"; "Update"]]
          else [])
      ++ [["git"; "push"; "-u"; "origin"; branch]] ++ after /\
    Forall (fun argv => argv ∈ git.statusQueries) before /\
    Forall (fun argv => argv = ["git"; "remote"; "get-url"; "origin"]) after.
Proof.
  cbv zeta.
  assert (Hst : git.issues (fun argv => argv ∈ git.statusQueries) git.GetStatus)
    by (apply GetStatus_issues; auto).
  destruct (Hst s) as (tr0 & E0 & F0). exists tr0.
  unfold ui.task.pushToRemote. unfold mbind at 1. unfold git.IO_bind, git.bind.
  destruct (git.GetStatus s) as [[st e] s1]. cbn [fst snd] in *.
  unfold git.PushWithUpstream, git.GetGitHubURL, git.GetRemoteURL,
    git.AddAll, git.Add, git.Commit.
  io_unfold.
  destruct (git.HasUnstaged st || git.HasUntracked st);
    cbn [fst snd git.world git.issued]; cbv beta;
    repeat (io_step; cbn [git.withOutput fst snd git.world git.issued];
            cbv beta);
    try destruct (negb _); cbn [fst snd git.issued]; rewrite E0;
    first
      [ exists []; split; [rewrite <- ?app_assoc; reflexivity|];
        split; [exact F0|constructor]
      | exists [["git"; "remote"; "get-url"; "origin"]];
        split; [rewrite <- ?app_assoc; reflexivity|];
        split; [exact F0|repeat constructor] ].
Qed.

End PushFacts.

(** ** Loading and saving the configuration *)

Section ConfigMore.
Context `{config.Yaml}.
Import config.

(** X16: [Load] changes nothing on the host when the configuration
    file exists, whether it can be read and parsed or not: nothing is
    created or written then. *)
Theorem Load_leaves_an_existing_file (os : OS) :
  files os !! ConfigPath os <> None ->
  snd (Load os) = os.
Proof.
  intros Hex. pose proof (Load_cases os) as L.
  destruct (files os !! ConfigPath os) as [[data|]|]; [| |contradiction].
  - destruct (Unmarshal data DefaultConfig) as [cfg [e|]]; rewrite L;
      reflexivity.
  - rewrite L. reflexivity.
Qed.

(** X17: [Load] reports an error exactly for a file that is read and
    does not parse, and then returns the untouched defaults; a failure
    to read or to create the file is never reported. *)
Theorem Load_error_is_a_parse_error (os : OS) (e : string) :
  (snd (fst (Load os)) = Some e <->
   exists data, files os !! ConfigPath os = Some (Readable data) /\
                snd (Unmarshal data DefaultConfig) = Some e) /\
  (snd (fst (Load os)) <> None -> fst (fst (Load os)) = DefaultConfig).
Proof.
  pose proof (Load_cases os) as L.
  destruct (files os !! ConfigPath os) as [[data|]|] eqn:E.
  - destruct (Unmarshal data DefaultConfig) as [cfg [e'|]] eqn:U;
      rewrite L; cbn [fst snd]; split.
    + split.
      * intros [= ->]. exists data. rewrite U. auto.
      * intros (d & [= <-] & Hd). rewrite U in Hd. exact Hd.
    + reflexivity.
    + split; [discriminate|].
      intros (d & [= <-] & Hd). rewrite U in Hd. discriminate.
    + congruence.
  - rewrite L; cbn [fst snd]. split; [|congruence].
    split; [discriminate|]. intros (d & Hd & _). discriminate.
  - rewrite L; cbn [fst snd]. split; [|congruence].
    split; [discriminate|]. intros (d & Hd & _). discriminate.
Qed.

(** X18: [EnsureConfig] replaces a configuration file that does not
    parse by the defaults, and returns them without error. *)
Theorem EnsureConfig_overwrites_a_broken_file
    (os : OS) (data fresh e : string) :
  files os !! ConfigPath os = Some (Readable data) ->
  snd (Unmarshal data DefaultConfig) = Some e ->
  mkdirErr os = None -> writeErr os = None ->
  Marshal DefaultConfig = (fresh, None) ->
  let r := EnsureConfig os in
  fst r = (DefaultConfig, None) /\
  files (snd r) !! ConfigPath os = Some (Readable fresh).
Proof.
  intros Hf Hu Hm Hw Hy. cbn zeta. unfold EnsureConfig.
  pose proof (Load_cases os) as L. rewrite Hf in L.
  destruct (Unmarshal data DefaultConfig) as [cfg [e'|]]; [|discriminate].
  rewrite L. rewrite (Save_creates _ _ fresh Hm Hw Hy). cbn [fst snd files].
  split; [reflexivity|]. apply lookup_insert_eq.
Qed.

(** X19: [EnsureConfig] fails only when the file does not parse and
    the defaults cannot be saved over it; the error is the one of
    [Save], and the defaults are returned. *)
Theorem EnsureConfig_error_is_a_save_error (os : OS) (e : string) :
  snd (fst (EnsureConfig os)) = Some e ->
  fst (fst (EnsureConfig os)) = DefaultConfig /\
  fst (Save DefaultConfig os) = Some e /\
  exists data e', files os !! ConfigPath os = Some (Readable data) /\
                  snd (Unmarshal data DefaultConfig) = Some e'.
Proof.
  unfold EnsureConfig. pose proof (Load_cases os) as L.
  destruct (files os !! ConfigPath os) as [[data|]|] eqn:E.
  - destruct (Unmarshal data DefaultConfig) as [cfg [e'|]] eqn:U; rewrite L.
    + destruct (Save DefaultConfig os) as [[se|] os']; cbn [fst snd];
        [|discriminate].
      intros [= ->]. split; [reflexivity|]. split; [reflexivity|].
      exists data, e'. rewrite U. split; reflexivity.
    + cbn. discriminate.
  - rewrite L. cbn. discriminate.
  - rewrite L. cbn. discriminate.
Qed.

(** X20: what [Save] wrote, [Load] reads back, for a configuration the
    codec round-trips; an empty API key comes back as the one of the
    environment. *)
Theorem Save_then_Load (cfg : Config) (os : OS) (data : string) :
  mkdirErr os = None -> writeErr os = None ->
  Marshal cfg = (data, None) ->
  Unmarshal data DefaultConfig = (cfg, None) ->
  fst (Load (snd (Save cfg os))) =
    (if String.eqb (APIKey (AI cfg)) ""
     then setAPIKey (Getenv "OPENAI_API_KEY" os) cfg else cfg, None).
Proof.
  intros Hm Hw Hy Hu. rewrite (Save_creates _ _ data Hm Hw Hy). cbn [snd].
  set (os' := mkOS _ _ _ _ _).
  pose proof (Load_cases os') as L.
  assert (P : ConfigPath os' = ConfigPath os) by reflexivity.
  rewrite P in L. unfold os' in L at 1. cbn [files] in L.
  rewrite lookup_insert_eq in L. rewrite Hu in L. rewrite L. reflexivity.
Qed.

End ConfigMore.

(** ** The commit message service *)

Lemma take_exact (n : nat) (s : string) :
  (n <= String.length s)%nat -> String.length (gostrings.take n s) = n.
Proof.
  revert s. induction n as [|n IH]; intros [|c s]; cbn; try lia.
  intros Hle. rewrite IH; lia.
Qed.

Lemma replaceFuel_absent (fuel : nat) (s old new : string) :
  gostrings.Cut s old = None -> gostrings.replaceFuel fuel s old new = s.
Proof. intros Hc. destruct fuel; cbn [gostrings.replaceFuel]; [reflexivity|]. rewrite Hc. reflexivity. Qed.

Lemma prefix_weaken (a b s : string) :
  String.prefix (a +:+ b) s = true -> String.prefix a s = true.
Proof.
  revert s. induction a as [|c a IH]; intros s.
  - intros _. apply prefix_empty.
  - destruct s as [|d s]; [discriminate|].
    change (String c a +:+ b) with (String c (a +:+ b)).
    rewrite !prefix_cons. destruct (ascii_dec c d); [apply IH|discriminate].
Qed.

Lemma Cut_absent_longer (s a b : string) :
  gostrings.Cut s a = None -> gostrings.Cut s (a +:+ b) = None.
Proof.
  induction s as [|c s IH].
  - rewrite (Cut_unfold "" a), (Cut_unfold "" (a +:+ b)).
    destruct (String.prefix a "") eqn:Pa; [discriminate|]. intros _.
    destruct (String.prefix (a +:+ b) "") eqn:Pb; [|reflexivity].
    apply prefix_weaken in Pb. congruence.
  - rewrite (Cut_unfold (String c s) a), (Cut_unfold (String c s) (a +:+ b)).
    destruct (String.prefix a (String c s)) eqn:Pa; [discriminate|].
    destruct (String.prefix (a +:+ b) (String c s)) eqn:Pb.
    { apply prefix_weaken in Pb. congruence. }
    destruct (gostrings.Cut s a) as [[x y]|]; [discriminate|].
    intros _. rewrite IH; reflexivity.
Qed.

Section AiFacts.
Context `{ai.Http}.
Import ai.

(** X21: [cleanMarkdown] only trims a text that holds no code
    fence. *)
Theorem cleanMarkdown_without_fence (content : string) :
  gostrings.Contains content "```" = false ->
  cleanMarkdown content = gostrings.TrimSpace content.
Proof.
  unfold gostrings.Contains, cleanMarkdown, gostrings.ReplaceAll.
  destruct (gostrings.Cut content "```") eqn:Hc; [discriminate|]. intros _.
  rewrite (replaceFuel_absent _ content "```markdown" "").
  - rewrite replaceFuel_absent; [reflexivity|exact Hc].
  - exact (Cut_absent_longer content "```" "markdown" Hc).
Qed.

Lemma openAI_sent (sp up : string) (cfg : config.Config) (w : Wire) :
  let r := generateOpenAICommit sp up cfg w in
  (sent (snd r) = sent w /\ snd (fst r) <> None /\ fst (fst r) = EmptyString) \/
  (marshalError (config.Temperature (config.AI cfg)) = None /\
   (snd (fst r) <> None -> fst (fst r) = EmptyString) /\
   sent (snd r) = sent w ++
     [mkRequest "POST" OpenAIURL
        [ ("Content-Type", "application/json");
          ("Authorization", "Bearer " +:+ config.APIKey (config.AI cfg)) ]
        (OpenAIBody
           (mkOpenAIRequest (config.Model (config.AI cfg))
              [ mkOpenAIMessage "system" sp; mkOpenAIMessage "user" up ]
              (config.Temperature (config.AI cfg))))]).
Proof.
  cbn zeta. unfold generateOpenAICommit. cbn [oa_Temperature].
  destruct (marshalError _) eqn:M; [left; cbn; auto|]. right.
  split; [reflexivity|]. unfold Do.
  destruct (client_Do _ _) as [[resp|e] n]; cbn [fst snd sent];
    [|auto].
  destruct (negb _); [cbn; auto|].
  destruct (json_openAI _) as [a|e]; [|cbn; auto].
  destruct (oa_Error a); [cbn; auto|].
  destruct (oa_Choices a); cbn; split; auto; congruence.
Qed.

Lemma anthropic_sent (sp up : string) (cfg : config.Config) (w : Wire) :
  let r := generateAnthropicCommit sp up cfg w in
  (sent (snd r) = sent w /\ snd (fst r) <> None /\ fst (fst r) = EmptyString) \/
  (marshalError (config.Temperature (config.AI cfg)) = None /\
   (snd (fst r) <> None -> fst (fst r) = EmptyString) /\
   sent (snd r) = sent w ++
     [mkRequest "POST" AnthropicURL
        [ ("Content-Type", "application/json");
          ("x-api-key", config.APIKey (config.AI cfg));
          ("anthropic-version", "2023-06-01") ]
        (AnthropicBody
           (mkAnthropicRequest
              (if negb (gostrings.HasPrefix (config.Model (config.AI cfg))
                          "claude")
               then "claude-3-5-sonnet-20241022"
               else config.Model (config.AI cfg))
              1024 sp [mkAnthropicMessage "user" up]
              (config.Temperature (config.AI cfg))))]).
Proof.
  cbn zeta. unfold generateAnthropicCommit. cbn [an_Temperature].
  destruct (marshalError _) eqn:M; [left; cbn; auto|]. right.
  split; [reflexivity|]. unfold Do.
  destruct (client_Do _ _) as [[resp|e] n]; cbn [fst snd sent];
    [|auto].
  destruct (negb _); [cbn; auto|].
  destruct (json_anthropic _) as [a|e]; [|cbn; auto].
  destruct (an_Error a); [cbn; auto|].
  destruct (an_Blocks a); cbn; split; auto; congruence.
Qed.

Lemma Generate_sent (diff : string) (cfg : config.Config) (w : Wire) :
  let r := GenerateCommitMessage diff cfg w in
  let ai := config.AI cfg in
  let anthropic := String.eqb (config.Provider ai) "anthropic" in
  sent (snd r) = sent w \/
  exists req,
    sent (snd r) = sent w ++ [req] /\
    config.APIKey ai <> "" /\
    0 <= config.MaxDiffSize ai /\
    marshalError (config.Temperature ai) = None /\
    Method req = "POST" /\
    URL req = (if anthropic then AnthropicURL else OpenAIURL) /\
    (if anthropic then ("x-api-key", config.APIKey ai)
     else ("Authorization", "Bearer " +:+ config.APIKey ai)) ∈ Header req /\
    modelOf req =
      (if anthropic && negb (gostrings.HasPrefix (config.Model ai) "claude")
       then "claude-3-5-sonnet-20241022" else config.Model ai) /\
    userPrompt req =
      "Generate a commit message for this diff:" +:+ NL +:+ NL +:+
      (if config.MaxDiffSize ai <? Z.of_nat (String.length diff)
       then gostrings.take (Z.to_nat (config.MaxDiffSize ai)) diff
            +:+ truncationMark
       else diff).
Proof.
  cbn zeta. unfold GenerateCommitMessage.
  destruct (String.eqb_spec (config.APIKey (config.AI cfg)) "") as [K|K];
    [left; reflexivity|].
  destruct ((_ <? _) && (_ <? 0)) eqn:G; [left; reflexivity|].
  assert (0 <= config.MaxDiffSize (config.AI cfg)) as Hmax.
  { apply andb_false_iff in G. rewrite !Z.ltb_ge in G. lia. }
  destruct (String.eqb (config.Provider (config.AI cfg)) "anthropic").
  - match goal with |- context [generateAnthropicCommit ?sp ?up cfg w] =>
      pose proof (anthropic_sent sp up cfg w) as S;
      destruct (generateAnthropicCommit sp up cfg w) as [r w'] end.
    cbn [fst snd] in *. destruct S as [(S & _)|(M & _ & S)]; [left; exact S|].
    right. eexists. split; [exact S|].
    cbn [Method URL Header modelOf userPrompt Body an_Model an_Messages
         andb last fmap option_fmap option_map default an_Content].
    repeat split; auto.
    apply elem_of_cons; right; apply elem_of_cons; left; reflexivity.
  - match goal with |- context [generateOpenAICommit ?sp ?up cfg w] =>
      pose proof (openAI_sent sp up cfg w) as S;
      destruct (generateOpenAICommit sp up cfg w) as [r w'] end.
    cbn [fst snd] in *. destruct S as [(S & _)|(M & _ & S)]; [left; exact S|].
    right. eexists. split; [exact S|].
    cbn [Method URL Header modelOf userPrompt Body oa_Model oa_Messages
         andb last fmap option_fmap option_map default oa_Content].
    repeat split; auto.
    apply elem_of_cons; right; apply elem_of_cons; left; reflexivity.
Qed.

(** X22: [GenerateCommitMessage] sends at most one request, and none
    without API key or with a temperature that is not finite; the
    request is a POST to the provider of the configuration, OpenAI unless
    the provider is "anthropic", with the key in its header. *)
Theorem generate_sends_at_most_one_request
    (diff : string) (cfg : config.Config) (w : Wire) :
  let r := GenerateCommitMessage diff cfg w in
  let ai := config.AI cfg in
  let anthropic := String.eqb (config.Provider ai) "anthropic" in
  sent (snd r) = sent w \/
  exists req,
    sent (snd r) = sent w ++ [req] /\
    config.APIKey ai <> "" /\
    marshalError (config.Temperature ai) = None /\
    Method req = "POST" /\
    URL req = (if anthropic then AnthropicURL else OpenAIURL) /\
    (if anthropic then ("x-api-key", config.APIKey ai)
     else ("Authorization", "Bearer " +:+ config.APIKey ai)) ∈ Header req.
Proof.
  cbn zeta.
  destruct (Generate_sent diff cfg w) as [S|(req & S & K & _ & M & P & U & Hd & _)];
    [left; exact S|].
  right. exists req. repeat (split; [assumption|]). assumption.
Qed.

(** X23: the user prompt that [GenerateCommitMessage] builds, the
    [Content] of the user message of the value it hands to
    [json.Marshal], is 42 bytes of heading and the diff when the diff has
    at most [MaxDiffSize] bytes, and exactly [MaxDiffSize + 57] bytes
    when the diff is longer and was cut (the cut is on bytes); this is
    before the JSON encoding, which can only make it longer. *)
Theorem prompt_is_bounded (diff : string) (cfg : config.Config) (w : Wire) :
  let max := config.MaxDiffSize (config.AI cfg) in
  exists new,
    sent (snd (GenerateCommitMessage diff cfg w)) = sent w ++ new /\
    Forall (fun req =>
              Z.of_nat (String.length (userPrompt req)) <= max + 57 /\
              (max < Z.of_nat (String.length diff) ->
               Z.of_nat (String.length (userPrompt req)) = max + 57) /\
              (Z.of_nat (String.length diff) <= max ->
               Z.of_nat (String.length (userPrompt req)) =
                 Z.of_nat (String.length diff) + 42)) new.
Proof.
  cbv zeta. destruct (Generate_sent diff cfg w)
    as [S|(req & S & _ & Hmax & _ & _ & _ & _ & _ & P)].
  - exists []. rewrite app_nil_r. split; [exact S|constructor].
  - exists [req]. split; [exact S|]. constructor; [|constructor].
    rewrite P. rewrite !append_length. unfold NL, LF. cbn [String.length].
    destruct (Z.ltb_spec (config.MaxDiffSize (config.AI cfg))
                (Z.of_nat (String.length diff))) as [Hlt|Hge].
    + rewrite append_length. unfold truncationMark, NL, LF.
      rewrite append_length. cbn [String.length].
      rewrite (take_exact (Z.to_nat (config.MaxDiffSize (config.AI cfg)))
                 diff) by lia.
      repeat split; lia.
    + repeat split; lia.
Qed.

(** X24: a request to Anthropic names a model that starts with
    "claude", whatever the configuration says; a request to OpenAI names
    the configured model. *)
Theorem anthropic_gets_a_claude_model
    (diff : string) (cfg : config.Config) (w : Wire) :
  exists new,
    sent (snd (GenerateCommitMessage diff cfg w)) = sent w ++ new /\
    Forall (fun req =>
              if String.eqb (URL req) AnthropicURL
              then gostrings.HasPrefix (modelOf req) "claude" = true
              else modelOf req = config.Model (config.AI cfg)) new.
Proof.
  destruct (Generate_sent diff cfg w)
    as [S|(req & S & _ & _ & _ & _ & U & _ & Md & _)].
  - exists []. rewrite app_nil_r. split; [exact S|constructor].
  - exists [req]. split; [exact S|]. constructor; [|constructor].
    rewrite U, Md.
    destruct (String.eqb (config.Provider (config.AI cfg)) "anthropic");
      cbn [andb]; [|reflexivity].
    change (String.eqb AnthropicURL AnthropicURL) with true. cbv iota.
    destruct (gostrings.HasPrefix (config.Model (config.AI cfg)) "claude")
      eqn:E; cbn [negb]; [exact E|reflexivity].
Qed.

(** X25: [GenerateCommitMessage] panics exactly when an API key is
    set and [MaxDiffSize] is negative, whatever the diff. *)
Theorem generate_panics_on_negative_bound
    (diff : string) (cfg : config.Config) (w : Wire) :
  fst (GenerateCommitMessage diff cfg w) = None <->
  config.APIKey (config.AI cfg) <> "" /\
  config.MaxDiffSize (config.AI cfg) < 0.
Proof.
  unfold GenerateCommitMessage.
  destruct (String.eqb_spec (config.APIKey (config.AI cfg)) "") as [K|K].
  - cbn. split; [discriminate|]. intros [? _]. contradiction.
  - destruct ((_ <? _) && (_ <? 0)) eqn:G.
    + cbn. split; [|reflexivity]. intros _. split; [exact K|].
      apply andb_true_iff in G. rewrite !Z.ltb_lt in G. lia.
    + destruct (if String.eqb _ _ then _ else _) as [r w']. cbn.
      split; [discriminate|]. intros [_ Hneg].
      apply andb_false_iff in G. rewrite !Z.ltb_ge in G. lia.
Qed.

End AiFacts.

(** ** The menu and its flows, continued *)

Ltac flow_cases :=
  repeat match goal with
  | |- context [let (_, _) := ?u in _] => destruct u
  | |- context [ui.confirm_Update ?f ?b ?g] =>
      destruct (ui.confirm_Update f b g) as [[? ?] ?]
  | |- context [ui.release_Update ?f ?b ?g] =>
      destruct (ui.release_Update f b g) as [[? ?] ?]
  | |- context [ui.publish_Update ?f ?b ?g] =>
      destruct (ui.publish_Update f b g) as [[? ?] ?]
  | |- context [if ?b then _ else _] => destruct b eqn:?
  | |- context [match ?x with ui.StateNormal => _ | _ => _ end] =>
      destruct x eqn:?
  end.

Section FlowFacts.
Context `{ui.Widgets} `{git.Host}.
Import ui.

Lemma reset_no_quit (m : ResetModel.t) (msg : Msg) :
  snd (ResetModel.Update m msg) <> Quit.
Proof.
  unfold ResetModel.Update, ResetModel.updateForm.
  destruct msg, (ResetModel.state m), (ResetModel.form m);
    flow_cases; cbn; discriminate.
Qed.

Lemma rollback_no_quit (m : RollbackModel.t) (msg : Msg) :
  snd (RollbackModel.Update m msg) <> Quit.
Proof.
  unfold RollbackModel.Update, RollbackModel.updateForm.
  destruct msg, (RollbackModel.state m), (RollbackModel.form m);
    flow_cases; cbn; discriminate.
Qed.

Lemma release_no_quit (m : ReleaseModel.t) (msg : Msg) :
  snd (ReleaseModel.Update m msg) <> Quit.
Proof.
  unfold ReleaseModel.Update, ReleaseModel.updateForm.
  destruct msg, (ReleaseModel.state m), (ReleaseModel.form m);
    flow_cases; cbn; discriminate.
Qed.

Lemma commit_inputs_no_quit (m : CommitModel.t) (msg : Msg) :
  snd (CommitModel.updateInputs m msg) <> Quit.
Proof. unfold CommitModel.updateInputs. flow_cases; cbn; discriminate. Qed.

Lemma commit_no_quit (m : CommitModel.t) (msg : Msg) :
  snd (CommitModel.Update m msg) <> Quit.
Proof.
  unfold CommitModel.Update, CommitModel.updateKey, CommitModel.submitForm,
    CommitModel.handleEnter.
  destruct msg; try apply commit_inputs_no_quit;
    repeat match goal with
    | |- snd (CommitModel.updateInputs _ _) <> _ =>
        apply commit_inputs_no_quit
    | |- context [let (_, _) := ?u in _] => destruct u
    | |- context [if ?b then _ else _] => destruct b eqn:?
    | |- context [match CommitModel.state ?x with _ => _ end] =>
        destruct (CommitModel.state x)
    end; cbn; discriminate.
Qed.

Lemma publish_no_quit (m : PublishModel.t) (msg : Msg) :
  snd (PublishModel.Update m msg) <> Quit.
Proof.
  unfold PublishModel.Update, PublishModel.updateForm,
    PublishModel.handleEnter, PublishModel.initForm.
  destruct msg, (PublishModel.state m), (PublishModel.form m);
    flow_cases; cbn; discriminate.
Qed.

Lemma subUpdate_no_quit (s : SubModel) (msg : Msg) :
  snd (subUpdate s msg) <> Quit.
Proof.
  destruct s as [m|m|m|m|m]; unfold subUpdate.
  - pose proof (reset_no_quit m msg). destruct (ResetModel.Update m msg). auto.
  - pose proof (rollback_no_quit m msg).
    destruct (RollbackModel.Update m msg). auto.
  - pose proof (release_no_quit m msg).
    destruct (ReleaseModel.Update m msg). auto.
  - pose proof (commit_no_quit m msg). destruct (CommitModel.Update m msg). auto.
  - pose proof (publish_no_quit m msg).
    destruct (PublishModel.Update m msg). auto.
Qed.

Lemma updateList_cmd (m : Model) (msg : Msg) :
  exists id, snd (updateList m msg) = LibCmd id.
Proof. unfold updateList. destruct (list_Update _ _). eexists. reflexivity. Qed.

Lemma executeAction_quit (m : Model) (a : Action) :
  snd (executeAction m a) = Quit ->
  quitting (fst (executeAction m a)) = true.
Proof. destruct a; cbn; try discriminate. reflexivity. Qed.

(** X26: [tea.Quit] is returned only for a key, at the menu, with no
    flow shown and no direct action in flight, and [quitting] is set
    with it; no flow ever quits the program. *)
Theorem quit_only_from_the_menu (M : Model) (msg : Msg) :
  snd (Update M msg) = Quit ->
  subActive M = false /\ loading M = false /\
  (exists key, msg = KeyMsg key) /\
  quitting (fst (Update M msg)) = true.
Proof.
  intros Hq. destruct (subActive M) eqn:Hact.
  - exfalso. unfold subActive in Hact. apply andb_true_iff in Hact as [Hin Hs].
    apply bool_decide_eq_true in Hs as [sub Hs].
    rewrite (subActive_true M sub Hin Hs) in Hq.
    pose proof (subUpdate_no_quit sub msg) as Hn.
    destruct (subUpdate sub msg) as [sub' cmd]. cbn [snd] in Hn.
    destruct msg; cbn in Hq; congruence.
  - split; [reflexivity|]. revert Hq. rewrite (subActive_false M Hact).
    destruct msg;
      try (intros Hq; exfalso;
           match type of Hq with
           | snd (updateList ?m ?g) = _ =>
               destruct (updateList_cmd m g) as [? ?]; congruence
           | _ => first [discriminate Hq
                        | destruct (spinner_Update _ _); discriminate Hq]
           end).
    unfold updateKey. destruct (loading M); [discriminate|].
    intros Hq. split; [reflexivity|]. split; [eauto|]. revert Hq.
    repeat match goal with
    | |- context [if ?b then _ else _] => destruct b
    | |- context [match ?o with Some _ => _ | None => _ end] => destruct o
    end;
    first [ apply executeAction_quit
          | intros _; reflexivity
          | intros Hq;
            match type of Hq with
            | snd (updateList ?m ?g) = _ =>
                destruct (updateList_cmd m g) as [? ?]; congruence
            end ].
Qed.

End FlowFacts.

Section ViewFacts.
Context `{ui.Widgets} `{git.Host}.
Import ui.

Lemma executeAction_view (m : Model) (a : Action) :
  inSubView m = bool_decide (is_Some (subModel m)) ->
  inSubView (fst (executeAction m a)) =
    bool_decide (is_Some (subModel (fst (executeAction m a)))).
Proof. intros Hm. destruct a; cbn; first [exact Hm | reflexivity]. Qed.

Lemma updateList_view (m : Model) (msg : Msg) :
  inSubView (fst (updateList m msg)) = inSubView m.
Proof. unfold updateList. destruct (list_Update _ _). reflexivity. Qed.

Lemma updateKey_view (m : Model) (key : string) :
  inSubView m = bool_decide (is_Some (subModel m)) ->
  inSubView (fst (updateKey m key)) =
    bool_decide (is_Some (subModel (fst (updateKey m key)))).
Proof.
  intros Hm. unfold updateKey.
  repeat match goal with
  | |- context [if ?b then _ else _] => destruct b
  | |- context [match ?o with Some _ => _ | None => _ end] => destruct o
  end; rewrite ?updateList_sub, ?updateList_view; try exact Hm;
    apply executeAction_view, Hm.
Qed.

Lemma Update_view (m : Model) (msg : Msg) :
  inSubView m = bool_decide (is_Some (subModel m)) ->
  inSubView (fst (Update m msg)) =
    bool_decide (is_Some (subModel (fst (Update m msg)))).
Proof.
  intros Hm. unfold Update.
  destruct (inSubView m) eqn:Hin, (subModel m) as [sub|] eqn:Hsub;
    try discriminate Hm.
  - destruct (subUpdate sub msg) as [sub' cmd].
    destruct msg; cbn; rewrite ?Hin; try reflexivity.
    destruct (negb _); reflexivity.
  - destruct msg;
      first
        [ apply updateKey_view; rewrite Hin, Hsub; reflexivity
        | rewrite updateList_sub, updateList_view; cbn;
          rewrite ?Hin, ?Hsub; reflexivity
        | destruct (spinner_Update _ _); cbn; rewrite ?Hin, ?Hsub;
          reflexivity
        | cbn; rewrite ?Hin, ?Hsub; reflexivity ].
Qed.

(** X27: in every state the menu controller reaches, [inSubView] is set
    exactly when [subModel] holds a flow. *)
Theorem sub_view_holds_a_flow (m : Model) :
  reachable m ->
  inSubView m = bool_decide (is_Some (subModel m)) /\
  subActive m = inSubView m.
Proof.
  intros Hreach.
  assert (Hv : inSubView m = bool_decide (is_Some (subModel m))).
  { induction Hreach as [cfg0|m0 msg _ IH]; [reflexivity|].
    apply Update_view, IH. }
  split; [exact Hv|]. unfold subActive. rewrite <- Hv.
  destruct (inSubView m); reflexivity.
Qed.

Lemma working_ignores_key (sub : SubModel) (key : string) :
  working sub = true -> isCancelKey key = false ->
  subUpdate sub (KeyMsg key) = (sub, nilCmd).
Proof.
  intros Hw Hk. destruct sub as [m|m|m|m|m]; cbn [working] in Hw; unfold subUpdate.
  - unfold ResetModel.Update, ResetModel.updateForm. rewrite Hk.
    destruct (ResetModel.state m); try discriminate. reflexivity.
  - unfold RollbackModel.Update, RollbackModel.updateForm. rewrite Hk.
    destruct (RollbackModel.state m); try discriminate. reflexivity.
  - unfold ReleaseModel.Update, ReleaseModel.updateForm. rewrite Hk.
    destruct (ReleaseModel.state m); try discriminate. reflexivity.
  - assert (Hi : CommitModel.isState commitStateInput m = false)
      by (unfold CommitModel.isState; destruct (CommitModel.state m);
          first [reflexivity | discriminate]).
    assert (Hc : CommitModel.isState commitStateConfirm m = false)
      by (unfold CommitModel.isState; destruct (CommitModel.state m);
          first [reflexivity | discriminate]).
    assert (He : CommitModel.handleEnter m = (m, nilCmd))
      by (unfold CommitModel.handleEnter; destruct (CommitModel.state m);
          first [reflexivity | discriminate]).
    unfold CommitModel.Update, CommitModel.updateKey.
    rewrite isCancelKey_keyIn, Hk, Hi, Hc, He. cbn [andb].
    unfold CommitModel.updateInputs. rewrite Hi.
    repeat match goal with
    | |- context [if ?b then _ else _] => destruct b
    end; reflexivity.
  - unfold PublishModel.Update, PublishModel.updateForm,
      PublishModel.handleEnter, PublishModel.inForm. rewrite Hk.
    destruct (PublishModel.state m); try discriminate.
    destruct (_ && _); reflexivity.
Qed.

(** X28: while the command of a flow is in flight, a key other than
    the cancel key changes nothing and starts nothing. *)
Theorem flow_at_work_ignores_keys
    (M : Model) (sub : SubModel) (key : string) :
  inSubView M = true -> subModel M = Some sub ->
  working sub = true -> isCancelKey key = false ->
  Update M (KeyMsg key) = (M, nilCmd).
Proof.
  intros Hin Hsub Hw Hk. rewrite (subActive_true M sub Hin Hsub).
  rewrite (working_ignores_key sub key Hw Hk).
  destruct M; cbn in Hin, Hsub; subst. reflexivity.
Qed.

(** X29: [doReset] and [doRollback] are started only at the
    confirmation step, by a form completed with the answer yes. *)
Theorem discard_needs_the_answer_yes
    (m : ResetModel.t) (r : RollbackModel.t) (msg : Msg) (t : Task) :
  (snd (ResetModel.Update m msg) = Run t ->
   t = doReset /\ ResetModel.state m = resetStateConfirm /\
   exists f0 f cmd,
     ResetModel.form m = Some f0 /\
     confirm_Update f0 (ResetModel.confirmed m) msg = (f, true, cmd) /\
     form_State f = StateCompleted) /\
  (snd (RollbackModel.Update r msg) = Run t ->
   t = doRollback /\ RollbackModel.state r = rollbackStateConfirm /\
   exists f0 f cmd,
     RollbackModel.form r = Some f0 /\
     confirm_Update f0 (RollbackModel.confirmed r) msg = (f, true, cmd) /\
     form_State f = StateCompleted).
Proof.
  split.
  - assert (Hf : snd (ResetModel.updateForm m msg) = Run t ->
                 t = doReset /\ ResetModel.state m = resetStateConfirm /\
                 exists f0 f cmd,
                   ResetModel.form m = Some f0 /\
                   confirm_Update f0 (ResetModel.confirmed m) msg
                     = (f, true, cmd) /\
                   form_State f = StateCompleted).
    { unfold ResetModel.updateForm.
      destruct (ResetModel.state m); try discriminate.
      destruct (ResetModel.form m) as [f0|]; try discriminate.
      destruct (confirm_Update f0 (ResetModel.confirmed m) msg)
        as [[f c] cmd] eqn:E.
      destruct (form_State f) eqn:S; try discriminate.
      destruct c; cbn; try discriminate.
      intros [= <-]. repeat split. exists f0, f, cmd. auto. }
    unfold ResetModel.Update.
    destruct msg; try exact Hf.
    + destruct (isCancelKey key); [discriminate|exact Hf].
    + destruct (spinner_Update _ _); discriminate.
  - assert (Hf : snd (RollbackModel.updateForm r msg) = Run t ->
                 t = doRollback /\
                 RollbackModel.state r = rollbackStateConfirm /\
                 exists f0 f cmd,
                   RollbackModel.form r = Some f0 /\
                   confirm_Update f0 (RollbackModel.confirmed r) msg
                     = (f, true, cmd) /\
                   form_State f = StateCompleted).
    { unfold RollbackModel.updateForm.
      destruct (RollbackModel.state r); try discriminate.
      destruct (RollbackModel.form r) as [f0|]; try discriminate.
      destruct (confirm_Update f0 (RollbackModel.confirmed r) msg)
        as [[f c] cmd] eqn:E.
      destruct (form_State f) eqn:S; try discriminate.
      destruct c; cbn; try discriminate.
      intros [= <-]. repeat split. exists f0, f, cmd. auto. }
    unfold RollbackModel.Update.
    destruct msg; try exact Hf; try discriminate.
    + destruct (isCancelKey key); [discriminate|exact Hf].
    + destruct (spinner_Update _ _); discriminate.
Qed.

(** X30: at the menu, the shortcut of an item does what the item
    does. *)
Theorem shortcut_runs_its_item (m : Model) (item : menuItem) :
  reachable m -> subActive m = false -> loading m = false ->
  item ∈ menuItems ->
  Update m (KeyMsg (shortcut item)) = executeAction m (action item).
Proof.
  intros Hreach Hoff Hload Hin.
  assert (Hitems : items m = menuItems).
  { clear Hoff Hload. induction Hreach as [cfg0|m0 msg _ IH]; [reflexivity|].
    rewrite Update_items. exact IH. }
  rewrite (subActive_false m Hoff). unfold updateKey.
  rewrite Hload, Hitems. unfold menuItems in *.
  repeat (apply elem_of_cons in Hin as [->|Hin]; [reflexivity|]).
  inversion Hin.
Qed.

End ViewFacts.

(** ** The start of the program *)

Section MainFacts.
Context `{ui.Widgets} `{git.Shell} `{git.Fmt} `{config.Yaml}.

(** X9: the [main] that checks the dependencies ([unnamed/part_003])
    stops at that check exactly when git is not on the path: it prints
    "Missing dependency: git (required)" after the cross and exits with
    status 1, before the configuration is looked at; when git is there
    it does what the other [main] ([unnamed/part_004]) does, whether gh
    and lazygit are there or not; the check runs no command. *)
Theorem start_needs_git_only (s : git.Sys) (os : config.OS) :
  main.missingRequired (fst (git.CheckDeps s)) =
    negb (git.exec_LookPath "git" (git.world s)) /\
  snd (git.CheckDeps s) = s /\
  part_003.main s os =
    if git.exec_LookPath "git" (git.world s)
    then (fst (part_004.main os), s, snd (part_004.main os))
    else (program.Exit 1
            (styles.Cross +:+ " Missing dependency: git (required)" +:+ NL),
          s, os).
Proof.
  unfold part_003.main, part_004.main, git.CheckDeps. io_unfold.
  destruct (git.exec_LookPath "git" _), (git.exec_LookPath "gh" _),
    (git.exec_LookPath "lazygit" _);
    (split; [reflexivity|]); (split; [reflexivity|]);
    cbn [app find]; destruct s;
    repeat match goal with
    | |- context [gostrings.Contains ?a ?b] =>
        let v := eval vm_compute in (gostrings.Contains a b) in
        change (gostrings.Contains a b) with v
    end; cbv iota; cbn [find];
    try reflexivity;
    destruct (config.EnsureConfig os) as [[cfg [e|]] os']; reflexivity.
Qed.

End MainFacts.

(** ** The properties above on the scripted host *)

Section FurtherExamples.
#[local] Existing Instance scripted.host.
#[local] Existing Instance scripted.shell.
#[local] Existing Instance scripted.fmt.
#[local] Existing Instance scripted.widgets.
#[local] Existing Instance scripted.yaml.
#[local] Existing Instance scripted.http.

Lemma only_reset_and_rollback_discard_witness :
  exists tr,
    git.issued (snd (ui.task.pushToRemote "main" scripted.clone)) = [] ++ tr /\
    Forall (fun argv => take 2 argv <> ["git"; "reset"]) tr.
Proof.
  apply (only_reset_and_rollback_discard config.DefaultConfig
           (ui.mkPublishFields "gitty" "" "public" "Initial commit" false)
           "" "" "main" false ui.ActionNone (ui.task.pushToRemote "main")).
  left. do 4 (apply elem_of_cons; right). apply elem_of_cons. left.
  reflexivity.
Defined.

Lemma GetStatus_outside_repository_witness :
  let query := ["git"; "rev-parse"; "--is-inside-work-tree"] in
  snd (fst (git.exec_Command query (git.world scripted.noRepo)))
    = Some "exit status 1" /\
  fst (git.GetStatus scripted.noRepo) = (git.emptyStatus, None) /\
  git.issued (snd (git.GetStatus scripted.noRepo)) = [query].
Proof.
  cbv zeta. split; [reflexivity|].
  rewrite (GetStatus_outside_repository scripted.noRepo);
    [split; reflexivity|].
  vm_compute. discriminate.
Defined.

Lemma counts_need_two_fields_witness :
  let st := fst (fst (git.GetStatus scripted.clone)) in
  git.Ahead st = 2 /\ git.Behind st = 1 /\
  exists (w : git.World) (ahead behind : string),
    gostrings.Fields
      (fst (fst (git.exec_Output
                   ["git"; "rev-list"; "--left-right"; "--count";
                    "HEAD...@{upstream}"] w))) = [ahead; behind] /\
    (git.Ahead st = 0 \/ git.Sscanf_d ahead = Some (git.Ahead st)) /\
    (git.Behind st = 0 \/ git.Sscanf_d behind = Some (git.Behind st)).
Proof.
  cbv zeta. split; [vm_compute; reflexivity|].
  split; [vm_compute; reflexivity|].
  apply (counts_need_two_fields scripted.clone).
  left. vm_compute. discriminate.
Defined.

Lemma ssh_remote_becomes_web_address_witness :
  fst (git.GetGitHubURL scripted.clone) =
    ("https://" +:+ "github.com" +:+ "/" +:+ "0mykull/gitty", None).
Proof.
  apply (ssh_remote_becomes_web_address scripted.clone "github.com"
           "0mykull/gitty"); vm_compute; reflexivity.
Defined.

Lemma publish_stops_when_staging_fails_witness :
  fst (ui.task.doPublish config.DefaultConfig
         (ui.PublishModel.fields scripted.confirming) "" scripted.addFails) =
    ui.publishErrorMsg ("failed to stage changes: " +:+ "exit status 1") /\
  git.issued
    (snd (ui.task.doPublish config.DefaultConfig
            (ui.PublishModel.fields scripted.confirming) ""
            scripted.addFails)) = [["git"; "add"; "."]].
Proof.
  rewrite (publish_stops_when_staging_fails config.DefaultConfig
             (ui.PublishModel.fields scripted.confirming) ""
             "exit status 1" scripted.addFails eq_refl eq_refl).
  split; reflexivity.
Defined.

Lemma publish_never_tags_witness :
  ui.PublishModel.state scripted.confirming = ui.publishStateConfirm /\
  exists tr,
    git.issued
      (snd (ui.task.doPublish (ui.PublishModel.cfg scripted.confirming)
              (ui.PublishModel.fields scripted.confirming) ""
              scripted.clone)) = git.issued scripted.clone ++ tr /\
    Forall (fun argv => take 2 argv <> ["git"; "tag"]) tr.
Proof.
  split; [reflexivity|].
  destruct (publish_never_tags scripted.confirming (ui.KeyMsg "enter")
              (ui.PublishModel.fields scripted.confirming) ""
              (ui.publish_update _ _
                 (ui.publish_update _ _
                    (ui.publish_new config.DefaultConfig)))
              eq_refl) as [_ Hrun].
  exact (Hrun scripted.clone).
Defined.

Lemma porcelain_classification_witness :
  let got := fst (fst (git.GetStatus scripted.clone)) in
  git.StagedFiles got = [] /\
  git.ModifiedFiles got = ["menu.go"] /\
  git.UntrackedFiles got = ["notes.txt"] /\
  (git.HasStaged got, git.HasUnstaged got, git.HasUntracked got) =
    (false, true, true).
Proof.
  destruct (porcelain_classification scripted.clone git.emptyStatus
              "M" "M" " " "main.go") as [Hscan _].
  destruct (Hscan eq_refl eq_refl) as (A & B & C & D & E & F).
  cbv zeta. rewrite D, E, F, A, B, C. vm_compute. repeat split.
Defined.

Lemma Load_leaves_an_existing_file_witness :
  snd (config.Load scripted.brokenHome) = scripted.brokenHome /\
  snd (config.Load scripted.lockedHome) = scripted.lockedHome.
Proof.
  split.
  - apply (Load_leaves_an_existing_file scripted.brokenHome).
    vm_compute. discriminate.
  - apply (Load_leaves_an_existing_file scripted.lockedHome).
    vm_compute. discriminate.
Defined.

Lemma EnsureConfig_overwrites_a_broken_file_witness :
  let path := "/home/dev/.config/gitty/config.yaml" in
  config.files scripted.brokenHome !! path = Some (config.Readable "{ai:") /\
  fst (config.EnsureConfig scripted.brokenHome) =
    (config.DefaultConfig, None) /\
  config.files (snd (config.EnsureConfig scripted.brokenHome)) !! path =
    Some (config.Readable "# gitty configuration").
Proof.
  cbv zeta. split; [vm_compute; reflexivity|].
  apply (EnsureConfig_overwrites_a_broken_file scripted.brokenHome "{ai:"
           "# gitty configuration" "yaml: did not find expected node");
    vm_compute; reflexivity.
Defined.

Lemma EnsureConfig_error_is_a_save_error_witness :
  fst (fst (config.EnsureConfig scripted.readOnlyHome)) =
    config.DefaultConfig /\
  fst (config.Save config.DefaultConfig scripted.readOnlyHome) =
    Some "read-only file system".
Proof.
  assert (Herr : snd (fst (config.EnsureConfig scripted.readOnlyHome)) =
                 Some "read-only file system") by (vm_compute; reflexivity).
  destruct (EnsureConfig_error_is_a_save_error scripted.readOnlyHome
              "read-only file system" Herr)
    as (Hcfg & Hsave & _).
  exact (conj Hcfg Hsave).
Defined.

Lemma Save_then_Load_witness :
  fst (config.Load
         (snd (config.Save config.DefaultConfig scripted.freshHome))) =
    (config.setAPIKey "sk-test" config.DefaultConfig, None).
Proof.
  rewrite (@Save_then_Load scripted.yaml config.DefaultConfig
             scripted.freshHome
             "# gitty configuration" eq_refl eq_refl eq_refl eq_refl).
  vm_compute. reflexivity.
Defined.

Lemma cleanMarkdown_without_fence_witness :
  ai.cleanMarkdown scripted.generatedMsg =
    gostrings.TrimSpace scripted.generatedMsg.
Proof.
  apply (cleanMarkdown_without_fence scripted.generatedMsg).
  vm_compute. reflexivity.
Defined.

Lemma quit_only_from_the_menu_witness :
  snd (ui.Update scripted.menu (ui.KeyMsg "q")) = ui.Quit /\
  ui.subActive scripted.menu = false /\
  ui.quitting (fst (ui.Update scripted.menu (ui.KeyMsg "q"))) = true.
Proof.
  destruct (quit_only_from_the_menu scripted.menu (ui.KeyMsg "q") eq_refl)
    as (Hoff & _ & _ & Hquit).
  exact (conj eq_refl (conj Hoff Hquit)).
Defined.

Lemma sub_view_holds_a_flow_witness :
  ui.inSubView scripted.resetting =
    bool_decide (is_Some (ui.subModel scripted.resetting)) /\
  ui.subActive scripted.resetting = ui.inSubView scripted.resetting.
Proof.
  apply (sub_view_holds_a_flow scripted.resetting).
  exact (ui.reach_update _ _ (ui.reach_update _ _ (ui.reach_start _))).
Defined.

Lemma flow_at_work_ignores_keys_witness :
  ui.working (ui.SubReset scripted.resetWorking) = true /\
  ui.Update scripted.resetting (ui.KeyMsg "enter") =
    (scripted.resetting, ui.nilCmd).
Proof.
  split; [reflexivity|].
  exact (flow_at_work_ignores_keys scripted.resetting
           (ui.SubReset scripted.resetWorking) "enter"
           eq_refl eq_refl eq_refl eq_refl).
Defined.

Lemma shortcut_runs_its_item_witness :
  ui.Update scripted.menu (ui.KeyMsg "u") =
    ui.executeAction scripted.menu ui.ActionPublish.
Proof.
  apply (shortcut_runs_its_item scripted.menu
           (ui.mkItem ui.IconPublish "Publish" "Publish to GitHub" "u"
              ui.ActionPublish) (ui.reach_start _) eq_refl eq_refl).
  do 6 (apply elem_of_cons; right). apply elem_of_cons. left. reflexivity.
Defined.

End FurtherExamples.
